(** * Mini-PestMA: extraction cascade, fallback records and the three-stage
      orchestrator

    A shallow embedding of [src/mini_pestma_main.py] (class [LocalMiniPestMA])
    and of [src/streamlit_optimized_app.py] (class [StreamlitMiniPestMA] and
    the form handler that drives it), together with the parts of the Python
    runtime these functions call: [str.strip], [json.loads], the [re] module
    on the five patterns of [_extract_json], exceptions and [try]/[except].

    Python text is a sequence of Unicode code points, so a [str] is a list of
    code points; Python values are the values JSON denotes, with dictionaries
    kept in insertion order. *)

From Stdlib Require Import String Ascii NArith ZArith Bool Arith Lia List.
Import ListNotations.

Set Implicit Arguments.

(** ** Text *)

Definition char := N.
Definition str := list char.

Definition s2t (s : string) : str :=
  map N_of_ascii (list_ascii_of_string s).
Arguments s2t s%_string.

(** [jq] reads a literal in which the apostrophe stands for the double quote
    (code point 34), so that JSON text can be written down in one piece. *)
Definition jq (s : string) : str :=
  map (fun c => if N.eqb c 39 then 34%N else c) (s2t s).
Arguments jq s%_string.

Fixpoint str_eqb (a b : str) : bool :=
  match a, b with
  | [], [] => true
  | x :: a', y :: b' => N.eqb x y && str_eqb a' b'
  | _, _ => false
  end.

(** [str.isspace] on one code point; [str.strip()] without arguments and the
    regex class [\s] of a [str] pattern both use it. *)
Definition isspace (c : char) : bool :=
  ((9 <=? c) && (c <=? 13) || (28 <=? c) && (c <=? 32)
   || (c =? 133) || (c =? 160) || (c =? 5760)
   || (8192 <=? c) && (c <=? 8202)
   || (c =? 8232) || (c =? 8233) || (c =? 8239) || (c =? 8287)
   || (c =? 12288))%N.

Fixpoint lstrip (s : str) : str :=
  match s with
  | c :: s' => if isspace c then lstrip s' else s
  | [] => []
  end.

Definition rstrip (s : str) : str := rev (lstrip (rev s)).

(** [text.strip()] *)
Definition strip (s : str) : str := rstrip (lstrip s).

(** [text[:n]] *)
Definition slice_to (n : nat) (s : str) : str := firstn n s.

(** ** Python values *)

(** Floats are kept symbolic: the float a JSON literal denotes, a reading of
    [time.time()], and the arithmetic the orchestrator does on readings. *)
Inductive pyfloat : Type :=
| FloatLit (lexeme : str)
| FloatNow (tick : nat)
| FloatOfInt (z : Z)
| FloatSub (a b : pyfloat)
| FloatAdd (a b : pyfloat).

#[local] Unset Elimination Schemes.
Inductive pyval : Type :=
| PNone
| PBool (b : bool)
| PInt (z : Z)
| PFloat (f : pyfloat)
| PStr (s : str)
| PList (l : list pyval)
| PDict (d : list (str * pyval)).
#[local] Set Elimination Schemes.

Definition dict := list (str * pyval).

(** [d[k]] / [k in d] *)
Fixpoint dict_get (k : str) (d : dict) : option pyval :=
  match d with
  | [] => None
  | (k', v) :: d' => if str_eqb k k' then Some v else dict_get k d'
  end.

(** [d[k] = v]: an existing key keeps its place, a new key goes last. *)
Fixpoint dict_set (k : str) (v : pyval) (d : dict) : dict :=
  match d with
  | [] => [(k, v)]
  | (k', v') :: d' =>
      if str_eqb k k' then (k', v) :: d' else (k', v') :: dict_set k v d'
  end.

Definition has_key (k : str) (d : dict) : bool :=
  match dict_get k d with Some _ => true | None => false end.

(** [dict(pairs)] *)
Definition dict_of_pairs (pairs : list (str * pyval)) : dict :=
  fold_left (fun d kv => dict_set (fst kv) (snd kv) d) pairs [].

Definition is_dict (v : pyval) : bool :=
  match v with PDict _ => true | _ => false end.

(** Field access through nested dictionaries: [v[k1][k2]...]. *)
Fixpoint path_get (ks : list str) (v : pyval) : option pyval :=
  match ks with
  | [] => Some v
  | k :: ks' =>
      match v with
      | PDict d =>
          match dict_get k d with
          | Some v' => path_get ks' v'
          | None => None
          end
      | _ => None
      end
  end.

(** ** The [re] module on the patterns of [_extract_json]

    A pattern is matched the way the backtracking engine of [re] does it:
    alternatives left to right, a greedy repetition tries one more iteration
    before it tries to stop, a lazy one tries to stop first.  The
    continuation [k] stands for the rest of the pattern; a failure of [k]
    makes the engine backtrack into the last choice.  Every pattern below
    has at most one capturing group, so one capture slot is enough. *)

Inductive regex : Type :=
| Eps
| Lit (c : char)
| Cls (p : char -> bool)
| Seq (r1 r2 : regex)
| Alt (r1 r2 : regex)
| Star (greedy : bool) (r : regex)
| Grp (r : regex).

Section Matcher.
Variable A : Type.

(** The iterations of a repetition; [body] matches one iteration.  An
    iteration has to consume text, so [n], at least the length of the
    text left, bounds their number. *)
Section Repetition.
Variable body : str -> option str -> (str -> option str -> option A) -> option A.
Variable greedy : bool.
Variable k : str -> option str -> option A.

Fixpoint star_loop (n : nat) (s : str) (g : option str) {struct n}
  : option A :=
  match n with
  | O => k s g
  | S n' =>
      if greedy then
        match body s g
                (fun s1 g1 =>
                   if length s1 <? length s then star_loop n' s1 g1
                   else None) with
        | Some a => Some a
        | None => k s g
        end
      else
        match k s g with
        | Some a => Some a
        | None =>
            body s g
              (fun s1 g1 =>
                 if length s1 <? length s then star_loop n' s1 g1
                 else None)
        end
  end.
End Repetition.

Fixpoint rmatch (r : regex) (s : str) (g : option str)
         (k : str -> option str -> option A) {struct r} : option A :=
  match r with
  | Eps => k s g
  | Lit c =>
      match s with
      | x :: s' => if N.eqb x c then k s' g else None
      | [] => None
      end
  | Cls p =>
      match s with
      | x :: s' => if p x then k s' g else None
      | [] => None
      end
  | Seq r1 r2 => rmatch r1 s g (fun s1 g1 => rmatch r2 s1 g1 k)
  | Alt r1 r2 =>
      match rmatch r1 s g k with
      | Some a => Some a
      | None => rmatch r2 s g k
      end
  | Star greedy r1 => star_loop (rmatch r1) greedy k (length s) s g
  | Grp r1 =>
      rmatch r1 s g
        (fun s1 _ => k s1 (Some (firstn (length s - length s1) s)))
  end.
End Matcher.

(** A match object: [m.group(0)], the text after [m.end()], and the capture
    of group 1 when the pattern has one. *)
Record rmatch_obj : Type := MatchObj {
  m_group0 : str;
  m_rest : str;
  m_capture : option str
}.

Definition match_here (r : regex) (s : str) : option rmatch_obj :=
  rmatch r s None
    (fun s' g => Some (MatchObj (firstn (length s - length s') s) s' g)).

(** [re.search(pattern, text)]: the match at the leftmost position that has
    one. *)
Fixpoint search (r : regex) (s : str) : option rmatch_obj :=
  match match_here r s with
  | Some m => Some m
  | None =>
      match s with
      | [] => None
      | _ :: s' => search r s'
      end
  end.

(** [re.findall(pattern, text)] for a pattern without capturing group: the
    matched texts, left to right, each search resuming where the previous
    match ended (one character further after an empty match). *)
Fixpoint findall_from (fuel : nat) (r : regex) (s : str) : list str :=
  match fuel with
  | O => []
  | S fuel' =>
      match search r s with
      | None => []
      | Some m =>
          m_group0 m ::
          match m_group0 m, m_rest m with
          | [], [] => []
          | [], _ :: rest' => findall_from fuel' r rest'
          | _ :: _, rest => findall_from fuel' r rest
          end
      end
  end.

Definition findall (r : regex) (s : str) : list str :=
  findall_from (S (length s)) r s.

Fixpoint ngroups (r : regex) : nat :=
  match r with
  | Eps | Lit _ | Cls _ => 0
  | Seq r1 r2 | Alt r1 r2 => ngroups r1 + ngroups r2
  | Star _ r1 => ngroups r1
  | Grp r1 => S (ngroups r1)
  end.

(** A literal string as a pattern. *)
Fixpoint lits (s : str) : regex :=
  match s with
  | [] => Eps
  | c :: s' => Seq (Lit c) (lits s')
  end.

Definition lbrace : char := 123%N.
Definition rbrace : char := 125%N.

(** [[^{}]] *)
Definition not_brace (c : char) : bool :=
  negb (N.eqb c lbrace) && negb (N.eqb c rbrace).

(** [.] under [re.DOTALL] *)
Definition any_char (c : char) : bool := true.

(** ** [json.loads]

    The default decoder of the [json] module (strict mode, no hooks), as a
    recursive-descent parser over the remaining text.  [None] stands for a
    raised [json.JSONDecodeError]; the message is never looked at by the
    callers below, which discard every decode error they catch.  Integer
    literals become [PInt]; literals with a fraction or an exponent and the
    constants [NaN], [Infinity], [-Infinity] become [PFloat] of their
    lexeme.  Limits of the interpreter (the recursion limit, the bound on
    the number of digits [int] converts) are not modelled. *)

Definition is_json_ws (c : char) : bool :=
  ((c =? 32) || (c =? 9) || (c =? 10) || (c =? 13))%N.

Fixpoint skip_ws (s : str) : str :=
  match s with
  | c :: s' => if is_json_ws c then skip_ws s' else s
  | [] => []
  end.

Definition is_digit (c : char) : bool := ((48 <=? c) && (c <=? 57))%N.

Fixpoint span_digits (s : str) : str * str :=
  match s with
  | c :: s' =>
      if is_digit c then let (ds, r) := span_digits s' in (c :: ds, r)
      else ([], s)
  | [] => ([], [])
  end.

Fixpoint starts_with (p s : str) : bool :=
  match p, s with
  | [], _ => true
  | x :: p', y :: s' => N.eqb x y && starts_with p' s'
  | _ :: _, [] => false
  end.

Definition hex_value (c : char) : option N :=
  if is_digit c then Some (c - 48)%N
  else if ((97 <=? c) && (c <=? 102))%N then Some (c - 87)%N
  else if ((65 <=? c) && (c <=? 70))%N then Some (c - 55)%N
  else None.

(** [_decode_uXXXX]: four hexadecimal digits. *)
Definition decode_uXXXX (h1 h2 h3 h4 : char) : option N :=
  match hex_value h1, hex_value h2, hex_value h3, hex_value h4 with
  | Some a, Some b, Some c, Some d => Some (((a * 16 + b) * 16 + c) * 16 + d)%N
  | _, _, _, _ => None
  end.

(** The [BACKSLASH] table of the decoder. *)
Definition backslash (e : char) : option char :=
  if (e =? 34)%N then Some 34%N        (* quote *)
  else if (e =? 92)%N then Some 92%N   (* backslash *)
  else if (e =? 47)%N then Some 47%N   (* slash *)
  else if (e =? 98)%N then Some 8%N    (* b *)
  else if (e =? 102)%N then Some 12%N  (* f *)
  else if (e =? 110)%N then Some 10%N  (* n *)
  else if (e =? 114)%N then Some 13%N  (* r *)
  else if (e =? 116)%N then Some 9%N   (* t *)
  else None.

Definition is_high_surrogate (u : N) : bool := ((55296 <=? u) && (u <=? 56319))%N.
Definition is_low_surrogate (u : N) : bool := ((56320 <=? u) && (u <=? 57343))%N.

(** The code point of a surrogate pair. *)
Definition combine_surrogates (uni uni2 : N) : N :=
  (65536 + N.lor (N.shiftl (uni - 55296) 10) (uni2 - 56320))%N.

(** [scanstring(s, end)], entered after the opening quote; [acc] holds the
    decoded characters so far, last one first.  A quote ends the string, a
    backslash starts an escape, any other character below 32 is refused
    (strict mode).  After a high surrogate written as a u-escape, a second
    u-escape is read at once; when it is a low surrogate the two make one
    code point, otherwise the first stands alone. *)
Fixpoint scanstring (s : str) (acc : str) {struct s} : option (str * str) :=
  match s with
  | [] => None
  | c :: s1 =>
      if (c =? 34)%N then Some (rev acc, s1)
      else if (c =? 92)%N then
        match s1 with
        | [] => None
        | e :: s2 =>
            if (e =? 117)%N then
              match s2 with
              | h1 :: h2 :: h3 :: h4 :: s3 =>
                  match decode_uXXXX h1 h2 h3 h4 with
                  | None => None
                  | Some uni =>
                      match s3 with
                      | b :: u :: s4 =>
                          if is_high_surrogate uni && (b =? 92)%N && (u =? 117)%N
                          then
                            match s4 with
                            | g1 :: g2 :: g3 :: g4 :: s5 =>
                                match decode_uXXXX g1 g2 g3 g4 with
                                | None => None
                                | Some uni2 =>
                                    if is_low_surrogate uni2 then
                                      scanstring s5
                                        (combine_surrogates uni uni2 :: acc)
                                    else scanstring s3 (uni :: acc)
                                end
                            | _ => None
                            end
                          else scanstring s3 (uni :: acc)
                      | _ => scanstring s3 (uni :: acc)
                      end
                  end
              | _ => None
              end
            else
              match backslash e with
              | Some ch => scanstring s2 (ch :: acc)
              | None => None
              end
        end
      else if (c <? 32)%N then None
      else scanstring s1 (c :: acc)
  end.

Fixpoint digits_value (ds : str) (acc : Z) : Z :=
  match ds with
  | [] => acc
  | c :: ds' => digits_value ds' (acc * 10 + Z.of_N (c - 48))%Z
  end.

(** [int(lexeme)] for a lexeme of the integer part of [NUMBER_RE]. *)
Definition int_of_lexeme (lx : str) : Z :=
  match lx with
  | c :: ds => if (c =? 45)%N then (- digits_value ds 0)%Z
               else digits_value lx 0
  | [] => 0%Z
  end.

(** [NUMBER_RE.match]: integer part, optional fraction, optional exponent;
    each part with the text that follows it. *)
Definition scan_sign (s : str) : str * str :=
  match s with
  | c :: s' => if (c =? 45)%N then ([c], s') else ([], s)
  | [] => ([], s)
  end.

Definition scan_integer (s : str) : option (str * str) :=
  let (sign, s1) := scan_sign s in
  match s1 with
  | c :: s2 =>
      if (c =? 48)%N then Some (sign ++ [c], s2)
      else if is_digit c then
        let (ds, s3) := span_digits s2 in Some (sign ++ c :: ds, s3)
      else None
  | [] => None
  end.

Definition scan_frac (s : str) : str * str :=
  match s with
  | c :: s' =>
      if (c =? 46)%N then
        match span_digits s' with
        | ([], _) => ([], s)
        | (ds, r) => (c :: ds, r)
        end
      else ([], s)
  | [] => ([], s)
  end.

Definition scan_exp (s : str) : str * str :=
  match s with
  | e :: s' =>
      if ((e =? 101) || (e =? 69))%N then
        let '(sg, s2) :=
          match s' with
          | c :: s'' => if ((c =? 45) || (c =? 43))%N then ([c], s'') else ([], s')
          | [] => ([], s')
          end in
        match span_digits s2 with
        | ([], _) => ([], s)
        | (ds, r) => (e :: sg ++ ds, r)
        end
      else ([], s)
  | [] => ([], s)
  end.

Definition scan_number (s : str) : option (pyval * str) :=
  match scan_integer s with
  | None => None
  | Some (integer, s1) =>
      let (frac, s2) := scan_frac s1 in
      let (exp, s3) := scan_exp s2 in
      match frac, exp with
      | [], [] => Some (PInt (int_of_lexeme integer), s3)
      | _, _ => Some (PFloat (FloatLit (integer ++ frac ++ exp)), s3)
      end
  end.

Definition scan_constant (s : str) : option (pyval * str) :=
  if starts_with (s2t "NaN") s then Some (PFloat (FloatLit (s2t "NaN")), skipn 3 s)
  else if starts_with (s2t "Infinity") s then
    Some (PFloat (FloatLit (s2t "Infinity")), skipn 8 s)
  else if starts_with (s2t "-Infinity") s then
    Some (PFloat (FloatLit (s2t "-Infinity")), skipn 9 s)
  else None.

(** [scan_once], [JSONObject] and [JSONArray].  The fuel bounds the depth of
    the calls; at most two calls are nested per character of the text, and
    [json_loads] starts with twice the length of the text and two more. *)
Fixpoint scan_once (fuel : nat) (s : str) {struct fuel} : option (pyval * str) :=
  match fuel with
  | O => None
  | S f =>
      match s with
      | [] => None
      | c :: s' =>
          if (c =? 34)%N then
            match scanstring s' [] with
            | Some (t, r) => Some (PStr t, r)
            | None => None
            end
          else if (c =? 123)%N then
            match skip_ws s' with
            | d :: r =>
                if (d =? 125)%N then Some (PDict [], r)
                else if (d =? 34)%N then object_members f r []
                else None
            | [] => None
            end
          else if (c =? 91)%N then
            match skip_ws s' with
            | d :: r =>
                if (d =? 93)%N then Some (PList [], r)
                else array_items f (d :: r) []
            | [] => None
            end
          else if starts_with (s2t "null") s then Some (PNone, skipn 4 s)
          else if starts_with (s2t "true") s then Some (PBool true, skipn 4 s)
          else if starts_with (s2t "false") s then Some (PBool false, skipn 5 s)
          else
            match scan_number s with
            | Some res => Some res
            | None => scan_constant s
            end
      end
  end

(** The [while True] loop of [JSONObject], entered after the opening quote
    of a key; [pairs] holds the members read so far, last one first. *)
with object_members (fuel : nat) (s : str) (pairs : list (str * pyval))
       {struct fuel} : option (pyval * str) :=
  match fuel with
  | O => None
  | S f =>
      match scanstring s [] with
      | None => None
      | Some (key, s1) =>
          match skip_ws s1 with
          | colon :: s2 =>
              if (colon =? 58)%N then
                match scan_once f (skip_ws s2) with
                | None => None
                | Some (value, s3) =>
                    match skip_ws s3 with
                    | d :: s4 =>
                        if (d =? 125)%N then
                          Some (PDict (dict_of_pairs (rev ((key, value) :: pairs))),
                                s4)
                        else if (d =? 44)%N then
                          match skip_ws s4 with
                          | q :: s5 =>
                              if (q =? 34)%N then
                                object_members f s5 ((key, value) :: pairs)
                              else None
                          | [] => None
                          end
                        else None
                    | [] => None
                    end
                end
              else None
          | [] => None
          end
      end
  end

(** The [while True] loop of [JSONArray]. *)
with array_items (fuel : nat) (s : str) (values : list pyval)
       {struct fuel} : option (pyval * str) :=
  match fuel with
  | O => None
  | S f =>
      match scan_once f s with
      | None => None
      | Some (value, s1) =>
          match skip_ws s1 with
          | d :: s2 =>
              if (d =? 93)%N then Some (PList (rev (value :: values)), s2)
              else if (d =? 44)%N then
                array_items f (skip_ws s2) (value :: values)
              else None
          | [] => None
          end
      end
  end.

(** [json.loads(s)]: leading whitespace, one value, trailing whitespace,
    then the end of the text (anything else is "Extra data"). *)
Definition json_loads (s : str) : option pyval :=
  match scan_once (2 * length s + 2) (skip_ws s) with
  | Some (v, r) =>
      match skip_ws r with
      | [] => Some v
      | _ :: _ => None
      end
  | None => None
  end.

(** ** Exceptions, the collaborator and the clock *)

Inductive exn_class : Type :=
| JSONDecodeError
| TypeError
| IndexError
| AttributeError
| OtherException.

(** An exception object: its class and [str(e)]. *)
Record exn : Type := Exn { exn_cls : exn_class; exn_str : str }.

Inductive result (A : Type) : Type :=
| Ok (a : A)
| Raise (e : exn).
Arguments Ok {A} a.
Arguments Raise {A} e.

(** The call [json.JSONDecodeError(msg)].  The constructor is declared
    [def __init__(self, msg, doc, pos)], three required positional
    parameters; a call with one argument fails while the arguments are
    bound, with a [TypeError], and no [JSONDecodeError] object comes to
    exist. *)
Definition JSONDecodeError_1 (msg : str) : result exn :=
  Raise (Exn TypeError
    (s2t "JSONDecodeError.__init__() missing 2 required positional arguments: 'doc' and 'pos'")).

(** [raise <expression>]: the expression is evaluated first. *)
Definition raise_from {A : Type} (e : result exn) : result A :=
  match e with
  | Ok ex => Raise ex
  | Raise ex => Raise ex
  end.

(** [except json.JSONDecodeError] and [except Exception]. *)
Definition is_JSONDecodeError (c : exn_class) : bool :=
  match c with JSONDecodeError => true | _ => false end.
Definition is_Exception (c : exn_class) : bool := true.

(** [m.group(1)] on a match of [pattern]: "no such group" when the pattern
    has none. *)
Definition group_1 (pattern : regex) (m : rmatch_obj) : result (option str) :=
  if ngroups pattern <? 1 then Raise (Exn IndexError (s2t "no such group"))
  else Ok (m_capture m).

(** [g.strip()] on the value of [m.group(1)], which is [None] when the group
    took no part in the match. *)
Definition strip_opt (g : option str) : result str :=
  match g with
  | Some t => Ok (strip t)
  | None =>
      Raise (Exn AttributeError
               (s2t "'NoneType' object has no attribute 'strip'"))
  end.

(** The two classes; the agents table of each has the same keys and model
    names, the system prompts are long constant texts and a request names
    one by class and key. *)
Inductive app : Type := CLI | Web.
Inductive agent : Type :=
| critical_diagnoser
| skeptical_validator
| conservative_advisor.

Definition agent_model (a : agent) : str :=
  match a with
  | critical_diagnoser => s2t "mistral-small3.2:24b"
  | skeptical_validator => s2t "gemma3:27b"
  | conservative_advisor => s2t "phi4:14b"
  end.

Inductive prompt_ref : Type := SystemPrompt (owner : app) (a : agent).

(** The pieces of an f-string: literal text, a line break, an interpolated
    [str], and [json.dumps(obj, indent=n)], whose rendering is left
    symbolic. *)
Inductive frag : Type :=
| Txt (s : string)
| Nl
| Interp (s : str)
| Dumps (obj : pyval) (indent : nat).

(** The keyword arguments of one [ollama.generate] call. *)
Record request : Type := Request {
  rq_model : str;
  rq_prompt : list frag;
  rq_system : prompt_ref;
  rq_images : option (list str);
  rq_options : dict
}.

(** What the orchestrators act on: the collaborator (its answer to a
    request may depend on every earlier request), the requests made so far,
    the number of clock readings taken, the rendering of
    [datetime.now().isoformat()], and the state the classes keep between
    runs. *)
Record world : Type := World {
  ollama_generate : list request -> request -> result str;
  isoformat : nat -> str;
  calls : list request;
  ticks : nat;
  analysis_history : list pyval;
  analysis_count : nat
}.

Definition M (A : Type) : Type := world -> result A * world.

Definition ret {A : Type} (a : A) : M A := fun w => (Ok a, w).

Definition bind {A B : Type} (m : M A) (f : A -> M B) : M B :=
  fun w =>
    match m w with
    | (Ok a, w') => f a w'
    | (Raise e, w') => (Raise e, w')
    end.

Definition lift {A : Type} (r : result A) : M A := fun w => (r, w).

(** [try: body  except <classes> as e: handler e] *)
Definition try_except {A : Type} (body : M A) (classes : exn_class -> bool)
           (handler : exn -> M A) : M A :=
  fun w =>
    match body w with
    | (Ok a, w') => (Ok a, w')
    | (Raise e, w') =>
        if classes (exn_cls e) then handler e w' else (Raise e, w')
    end.

Declare Scope py_scope.
Delimit Scope py_scope with py.
Notation "x <- m ;; k" := (bind m (fun x => k))
  (at level 61, m at next level, right associativity) : py_scope.
Notation "' pat <- m ;; k" := (bind m (fun x => match x with pat => k end))
  (at level 61, pat pattern, m at next level, right associativity) : py_scope.

(** [ollama.generate(...)['response']] *)
Definition generate (rq : request) : M str :=
  fun w =>
    (ollama_generate w (calls w) rq,
     World (ollama_generate w) (isoformat w) (calls w ++ [rq]) (ticks w)
           (analysis_history w) (analysis_count w)).

(** [time.time()] *)
Definition time_time : M pyfloat :=
  fun w =>
    (Ok (FloatNow (ticks w)),
     World (ollama_generate w) (isoformat w) (calls w) (S (ticks w))
           (analysis_history w) (analysis_count w)).

(** [datetime.now().isoformat()] *)
Definition datetime_now_isoformat : M str :=
  fun w =>
    (Ok (isoformat w (ticks w)),
     World (ollama_generate w) (isoformat w) (calls w) (S (ticks w))
           (analysis_history w) (analysis_count w)).

(** [history.append(results)] *)
Definition history_append (results : pyval) : M unit :=
  fun w =>
    (Ok tt,
     World (ollama_generate w) (isoformat w) (calls w) (ticks w)
           (analysis_history w ++ [results]) (analysis_count w)).

(** [images=[image_path] if image_path else None]; an empty path is falsy. *)
Definition images_of (image_path : option str) : option (list str) :=
  match image_path with
  | Some (c :: p) => Some [c :: p]
  | _ => None
  end.

Definition truthy_path (image_path : option str) : bool :=
  match image_path with
  | Some (_ :: _) => true
  | _ => false
  end.

(** Where a stage leaves the function: [return results] inside the stage,
    or falling through to the next one. *)
Inductive flow (R A : Type) : Type :=
| Return (r : R)
| Continue (a : A).
Arguments Return {R A} r.
Arguments Continue {R A} a.

(** The four parts of [_extract_json]: the parse of the whole trimmed
    text, the loop over [json_patterns], the loop over [markers], and the
    [raise] of the last line. *)
Inductive step : Type := DirectParse | PatternScan | MarkerScan | FinalRaise.

(** What one call of [_extract_json] did: the steps it entered, the texts it
    handed to [json.loads], in call order, and its outcome. *)
Record extraction : Type := Extraction {
  x_steps : list step;
  x_tried : list str;
  x_result : result pyval
}.

(** ** The reporting code: values as the interpreter treats them

    The functions that report on results read them with [in], [[]] and
    [.get], add and divide what they find and format it.  None of them has
    a handler of its own, so what these operations raise on a value of the
    wrong type leaves the function. *)

(** What the reporting code can raise: a [KeyError] with its key, the
    arithmetic and formatting errors with their message, and the classes of
    the orchestrators. *)
Inductive raised : Type :=
| KeyError (key : str)
| ValueError (msg : str)
| OverflowError (msg : str)
| ZeroDivisionError (msg : str)
| Builtin (e : exn).

Inductive outcome (A : Type) : Type :=
| Returns (a : A)
| Raises (e : raised).
Arguments Returns {A} a.
Arguments Raises {A} e.

Definition and_then {A B : Type} (m : outcome A) (f : A -> outcome B)
  : outcome B :=
  match m with
  | Returns a => f a
  | Raises e => Raises e
  end.

Declare Scope out_scope.
Delimit Scope out_scope with out.
Notation "x <- m ;; k" := (and_then m (fun x => k))
  (at level 61, m at next level, right associativity) : out_scope.

(** [type(v).__name__] *)
Definition type_name (v : pyval) : str :=
  match v with
  | PNone => s2t "NoneType"
  | PBool _ => s2t "bool"
  | PInt _ => s2t "int"
  | PFloat _ => s2t "float"
  | PStr _ => s2t "str"
  | PList _ => s2t "list"
  | PDict _ => s2t "dict"
  end.

Definition raise_TypeError {A : Type} (msg : str) : outcome A :=
  Raises (Builtin (Exn TypeError msg)).

Definition raise_AttributeError {A : Type} (v : pyval) (attribute : str)
  : outcome A :=
  Raises (Builtin (Exn AttributeError
                     (s2t "'" ++ type_name v ++ s2t "' object has no attribute '"
                        ++ attribute ++ s2t "'"))).

(** [v == 'text'] *)
Definition eq_str (v : pyval) (text : str) : bool :=
  match v with
  | PStr s => str_eqb s text
  | _ => false
  end.

(** [v in ['text', ...]] *)
Definition in_strs (v : pyval) (texts : list str) : bool :=
  existsb (eq_str v) texts.

(** [sub in s] on two texts *)
Fixpoint occurs_in (sub s : str) : bool :=
  starts_with sub s
  || match s with
     | [] => false
     | _ :: s' => occurs_in sub s'
     end.

(** [key in v] for a key that is a text: a key of a dictionary, a piece of
    a text, an element of a list. *)
Definition contains (key : str) (v : pyval) : outcome bool :=
  match v with
  | PDict d => Returns (has_key key d)
  | PStr s => Returns (occurs_in key s)
  | PList l => Returns (existsb (fun x => eq_str x key) l)
  | _ =>
      raise_TypeError
        (s2t "argument of type '" ++ type_name v ++ s2t "' is not iterable")
  end.

(** [v[key]] for a key that is a text *)
Definition subscript (v : pyval) (key : str) : outcome pyval :=
  match v with
  | PDict d =>
      match dict_get key d with
      | Some x => Returns x
      | None => Raises (KeyError key)
      end
  | PStr _ => raise_TypeError (s2t "string indices must be integers, not 'str'")
  | PList _ =>
      raise_TypeError (s2t "list indices must be integers or slices, not str")
  | _ =>
      raise_TypeError (s2t "'" ++ type_name v ++ s2t "' object is not subscriptable")
  end.

(** [v.get(key, default)] *)
Definition get (v : pyval) (key : str) (default : pyval) : outcome pyval :=
  match v with
  | PDict d =>
      Returns (match dict_get key d with Some x => x | None => default end)
  | _ => raise_AttributeError v (s2t "get")
  end.

(** What [sum] holds: an [int] until a [float] is added.  A quotient is a
    [float]; like the other floats it is kept symbolic. *)
Inductive number : Type :=
| Int (z : Z)
| Float (f : pyfloat).

Inductive amount : Type :=
| Plain (n : number)
| Ratio (n : number) (d : nat).

(** An [int] converts to a [float] unless it rounds to 2^1024 or more. *)
Definition too_large (z : Z) : bool := (2 ^ 1024 - 2 ^ 970 <=? Z.abs z)%Z.

Definition int_too_large {A : Type} : outcome A :=
  Raises (OverflowError (s2t "int too large to convert to float")).

Definition float_of_int (z : Z) : outcome pyfloat :=
  if too_large z then int_too_large else Returns (FloatOfInt z).

(** [total + v], the step of [sum] *)
Definition add (total : number) (v : pyval) : outcome number :=
  let unsupported :=
    raise_TypeError
      (s2t "unsupported operand type(s) for +: '"
         ++ match total with Int _ => s2t "int" | Float _ => s2t "float" end
         ++ s2t "' and '" ++ type_name v ++ s2t "'") in
  let as_int :=
    match v with
    | PInt z => Some z
    | PBool b => Some (Z.b2z b)
    | _ => None
    end in
  match total, as_int, v with
  | Int a, Some z, _ => Returns (Int (a + z))
  | Float x, Some z, _ =>
      (f <- float_of_int z ;; Returns (Float (FloatAdd x f)))%out
  | Int a, None, PFloat y =>
      (f <- float_of_int a ;; Returns (Float (FloatAdd f y)))%out
  | Float x, None, PFloat y => Returns (Float (FloatAdd x y))
  | _, _, _ => unsupported
  end.

(** [sum(values)], from the integer 0 *)
Definition sum (values : list pyval) : outcome number :=
  fold_left (fun total v => (t <- total ;; add t v)%out) values (Returns (Int 0)).

(** [n / d] where d is a length or a count of elements of a list; such an
    [int] is below 2^63 and converts to a [float]. *)
Definition true_div (n : number) (d : nat) : outcome amount :=
  match n, d with
  | Int _, O => Raises (ZeroDivisionError (s2t "division by zero"))
  | Float _, O => Raises (ZeroDivisionError (s2t "float division by zero"))
  | Int a, S _ =>
      if ((2 ^ 1024 - 2 ^ 970) * Z.of_nat d <=? Z.abs a)%Z
      then Raises (OverflowError
                     (s2t "integer division result too large for a float"))
      else Returns (Ratio n d)
  | Float _, S _ => Returns (Ratio n d)
  end.

(** The pieces of the text a report is made of.  Literal text is kept as it
    is written in the source, a character outside ASCII by its code point;
    the rendering of a value, of a number under a format and of
    [str.title] is left symbolic. *)
Inductive piece : Type :=
| Text (s : string)
| Glyph (code : N)
| Line
| Rule (s : string) (n : nat)
| Show (v : pyval)
| Fixed1 (x : amount)
| Percent1 (x : amount)
| Signed (z : Z)
| Title (s : str).

(** The formats [.1f] and [.1%] take a number as a [float]. *)
Definition as_float (x : amount) : outcome amount :=
  match x with
  | Plain (Int z) => if too_large z then int_too_large else Returns x
  | _ => Returns x
  end.

Definition unknown_format_code {A : Type} (code : str) (v : pyval) : outcome A :=
  Raises (ValueError
            (s2t "Unknown format code '" ++ code ++ s2t "' for object of type '"
               ++ type_name v ++ s2t "'")).

Definition unsupported_format {A : Type} (v : pyval) : outcome A :=
  raise_TypeError
    (s2t "unsupported format string passed to " ++ type_name v
       ++ s2t ".__format__").

(** [f"{v:.1f}"] *)
Definition format_1f (v : pyval) : outcome piece :=
  match v with
  | PInt z => (x <- as_float (Plain (Int z)) ;; Returns (Fixed1 x))%out
  | PBool b => Returns (Fixed1 (Plain (Int (Z.b2z b))))
  | PFloat f => Returns (Fixed1 (Plain (Float f)))
  | PStr _ => unknown_format_code (s2t "f") v
  | _ => unsupported_format v
  end.

(** [f"{v:+d}"] *)
Definition format_signed (v : pyval) : outcome piece :=
  match v with
  | PInt z => Returns (Signed z)
  | PBool b => Returns (Signed (Z.b2z b))
  | PFloat _ | PStr _ => unknown_format_code (s2t "d") v
  | _ => unsupported_format v
  end.

(** The keys of the three stages, as the reporting loops list them. *)
Definition agent_keys : list str :=
  [s2t "diagnoser"; s2t "validator"; s2t "advisor"].

(** [print]: the lines written so far, one list of pieces for each call.
    A call whose argument raises writes nothing. *)
Definition printer (A : Type) : Type :=
  list (list piece) -> outcome A * list (list piece).

Definition print (line : list piece) : printer unit :=
  fun out => (Returns tt, out ++ [line]).

Definition eval {A : Type} (o : outcome A) : printer A := fun out => (o, out).

Definition and_print {A B : Type} (m : printer A) (f : A -> printer B)
  : printer B :=
  fun out =>
    match m out with
    | (Returns a, out') => f a out'
    | (Raises e, out') => (Raises e, out')
    end.

Declare Scope print_scope.
Delimit Scope print_scope with print.
Notation "x <- m ;; k" := (and_print m (fun x => k))
  (at level 61, m at next level, right associativity) : print_scope.

(** [when c: body] *)
Definition when (c : bool) (body : printer unit) : printer unit :=
  if c then body else eval (Returns tt).

Definition warning_sign : list piece := [Glyph 9888; Glyph 65039].
Definition stopwatch : list piece := [Glyph 9201; Glyph 65039].

(** [flag.replace('_', ' ')] *)
Definition underscores_to_spaces (s : str) : str :=
  map (fun c => if (c =? 95)%N then 32%N else c) s.

(** ** [LocalMiniPestMA], the command-line class *)

Module LocalMiniPestMA.

(** The first entry of [json_patterns]; with blanks between its parts it
    reads  \{ [^{}]* (?: \{ [^{}]* \} [^{}]* )* \}  *)
Definition json_pattern_1 : regex :=
  Seq (Lit lbrace)
   (Seq (Star true (Cls not_brace))
    (Seq (Star true
            (Seq (Lit lbrace)
              (Seq (Star true (Cls not_brace))
                (Seq (Lit rbrace) (Star true (Cls not_brace))))))
         (Lit rbrace))).

(** The second entry:  \{ (?: [^{}] | (?: \{ [^{}]* \} ) )* \}  *)
Definition json_pattern_2 : regex :=
  Seq (Lit lbrace)
   (Seq (Star true
           (Alt (Cls not_brace)
                (Seq (Lit lbrace)
                  (Seq (Star true (Cls not_brace)) (Lit rbrace)))))
        (Lit rbrace)).

Definition json_patterns : list regex := [json_pattern_1; json_pattern_2].

(** The first marker:  ```json \s* (.*?) \s* ```  *)
Definition marker_1 : regex :=
  Seq (lits (s2t "```json"))
   (Seq (Star true (Cls isspace))
    (Seq (Grp (Star false (Cls any_char)))
     (Seq (Star true (Cls isspace)) (lits (s2t "```"))))).

(** The second marker:  ``` \s* (.*?) \s* ```  *)
Definition marker_2 : regex :=
  Seq (lits (s2t "```"))
   (Seq (Star true (Cls isspace))
    (Seq (Grp (Star false (Cls any_char)))
     (Seq (Star true (Cls isspace)) (lits (s2t "```"))))).

(** The third marker:  \{ .* \}  ; it has no capturing group. *)
Definition marker_3 : regex :=
  Seq (Lit lbrace) (Seq (Star true (Cls any_char)) (Lit rbrace)).

Definition markers : list regex := [marker_1; marker_2; marker_3].

(** [for match in matches: try: return json.loads(match.strip())
     except json.JSONDecodeError: continue].
    Every function of the cascade also reports the texts it handed to
    [json.loads], in call order. *)
Fixpoint try_matches (matches : list str) : list str * option pyval :=
  match matches with
  | [] => ([], None)
  | m :: rest =>
      let cleaned := strip m in
      match json_loads cleaned with
      | Some v => ([cleaned], Some v)
      | None => let (tried, r) := try_matches rest in (cleaned :: tried, r)
      end
  end.

(** [for pattern in json_patterns: matches = re.findall(pattern, text,
     re.DOTALL); ...] *)
Fixpoint try_patterns (patterns : list regex) (text : str)
  : list str * option pyval :=
  match patterns with
  | [] => ([], None)
  | pattern :: rest =>
      match try_matches (findall pattern text) with
      | (tried, Some v) => (tried, Some v)
      | (tried, None) =>
          let (tried', r) := try_patterns rest text in (tried ++ tried', r)
      end
  end.

(** [for pattern, flags in markers: match = re.search(pattern, text, flags);
     if match: try: return json.loads(match.group(1).strip())
     except (json.JSONDecodeError, IndexError): continue] *)
Fixpoint try_markers (ms : list regex) (text : str)
  : list str * result (option pyval) :=
  match ms with
  | [] => ([], Ok None)
  | pattern :: rest =>
      match search pattern text with
      | None => try_markers rest text
      | Some m =>
          match group_1 pattern m with
          | Raise e =>
              match exn_cls e with
              | JSONDecodeError | IndexError => try_markers rest text
              | _ => ([], Raise e)
              end
          | Ok g =>
              match strip_opt g with
              | Raise e =>
                  match exn_cls e with
                  | JSONDecodeError | IndexError => try_markers rest text
                  | _ => ([], Raise e)
                  end
              | Ok cleaned =>
                  match json_loads cleaned with
                  | Some v => ([cleaned], Ok (Some v))
                  | None =>
                      let (tried, r) := try_markers rest text in
                      (cleaned :: tried, r)
                  end
              end
          end
      end
  end.

(** [_extract_json(self, text)], together with the steps of the cascade it
    entered and the texts it handed to [json.loads]. *)
Definition _extract_json_traced (text : str) : extraction :=
  match json_loads (strip text) with
  | Some v => Extraction [DirectParse] [strip text] (Ok v)
  | None =>
      match try_patterns json_patterns text with
      | (tried2, Some v) =>
          Extraction [DirectParse; PatternScan] (strip text :: tried2) (Ok v)
      | (tried2, None) =>
          match try_markers markers text with
          | (tried3, Ok (Some v)) =>
              Extraction [DirectParse; PatternScan; MarkerScan]
                (strip text :: tried2 ++ tried3) (Ok v)
          | (tried3, Raise e) =>
              Extraction [DirectParse; PatternScan; MarkerScan]
                (strip text :: tried2 ++ tried3) (Raise e)
          | (tried3, Ok None) =>
              Extraction [DirectParse; PatternScan; MarkerScan; FinalRaise]
                (strip text :: tried2 ++ tried3)
                (raise_from
                   (JSONDecodeError_1
                      (s2t "Could not extract valid JSON from: "
                         ++ slice_to 200 text ++ s2t "...")))
          end
      end
  end.

Definition _extract_json (text : str) : result pyval :=
  x_result (_extract_json_traced text).

Definition json_loads_calls (text : str) : list str :=
  x_tried (_extract_json_traced text).

Definition steps_entered (text : str) : list step :=
  x_steps (_extract_json_traced text).

(** [_create_fallback_json(self, agent_type, error_msg)] *)
Definition _create_fallback_json (agent_type : str) (error_msg : str) : pyval :=
  if str_eqb agent_type (s2t "diagnoser") then
    PDict
      [ (s2t "primary_diagnosis", PStr (s2t "Analysis failed - JSON parsing error"));
        (s2t "primary_confidence", PInt 1);
        (s2t "alternative_diagnosis", PStr (s2t "Unable to determine"));
        (s2t "alternative_confidence", PInt 1);
        (s2t "image_text_correlation", PStr (s2t "no_image"));
        (s2t "key_symptoms_observed", PStr (s2t "Parsing error occurred"));
        (s2t "visual_evidence_quality", PStr (s2t "none"));
        (s2t "error_flags",
         PDict [ (s2t "equally_likely", PBool false);
                 (s2t "contradictory_symptoms", PBool false);
                 (s2t "insufficient_evidence", PBool true) ]);
        (s2t "diagnostic_reasoning",
         PStr (s2t "JSON parsing failed: " ++ error_msg)) ]
  else if str_eqb agent_type (s2t "validator") then
    PDict
      [ (s2t "primary_diagnosis_valid", PBool false);
        (s2t "primary_confidence_adjustment", PInt (-3));
        (s2t "alternative_diagnosis_preferred", PBool false);
        (s2t "critical_concerns",
         PStr (s2t "Validation failed due to parsing error: " ++ error_msg));
        (s2t "evidence_quality_assessment", PStr (s2t "weak"));
        (s2t "overlooked_factors",
         PStr (s2t "Unable to assess due to parsing error"));
        (s2t "bias_detection", PStr (s2t "none identified"));
        (s2t "additional_diagnostics_needed",
         PStr (s2t "Retry analysis with corrected prompts"));
        (s2t "final_recommendation", PStr (s2t "request_expert")) ]
  else PDict [].

(** The three requests of [analyze_plant_problem]. *)
Definition diag_request (user_description : str) (image_path : option str)
  : request :=
  {| rq_model := agent_model critical_diagnoser;
     rq_prompt :=
       [ Txt "FORENSIC PLANT ANALYSIS:"; Nl; Nl;
         Txt "PROBLEM: "; Interp user_description; Nl;
         Txt "IMAGE PROVIDED: ";
         Txt (if truthy_path image_path then "Yes - analyze visual evidence"
              else "No - text-only analysis") ];
     rq_system := SystemPrompt CLI critical_diagnoser;
     rq_images := images_of image_path;
     rq_options :=
       [ (s2t "temperature", PFloat (FloatLit (s2t "0.05")));
         (s2t "num_predict", PInt 500);
         (s2t "top_p", PFloat (FloatLit (s2t "0.9"))) ] |}.

Definition valid_request (user_description : str) (diag_json : pyval)
  : request :=
  {| rq_model := agent_model skeptical_validator;
     rq_prompt :=
       [ Txt "PEER REVIEW CHALLENGE:"; Nl; Nl;
         Txt "ORIGINAL PROBLEM: "; Interp user_description; Nl;
         Txt "AGENT 1 DIAGNOSIS JSON: "; Dumps diag_json 2; Nl; Nl;
         Txt "Your mission: Challenge every aspect of this diagnosis with scientific skepticism." ];
     rq_system := SystemPrompt CLI skeptical_validator;
     rq_images := None;
     rq_options :=
       [ (s2t "temperature", PFloat (FloatLit (s2t "0.2")));
         (s2t "num_predict", PInt 400);
         (s2t "top_p", PFloat (FloatLit (s2t "0.9"))) ] |}.

Definition advisor_request (user_description : str)
           (diag_json valid_json : pyval) : request :=
  {| rq_model := agent_model conservative_advisor;
     rq_prompt :=
       [ Txt "EXTENSION CONSULTATION:"; Nl; Nl;
         Txt "FARMER'S PROBLEM: "; Interp user_description; Nl; Nl;
         Txt "DIAGNOSTIC ANALYSIS (Agent 1 JSON):"; Nl;
         Dumps diag_json 2; Nl; Nl;
         Txt "PEER REVIEW (Agent 2 JSON):"; Nl;
         Dumps valid_json 2; Nl; Nl;
         Txt "Provide practical, evidence-based recommendations considering both analyses." ];
     rq_system := SystemPrompt CLI conservative_advisor;
     rq_images := None;
     rq_options :=
       [ (s2t "temperature", PFloat (FloatLit (s2t "0.15")));
         (s2t "num_predict", PInt 400);
         (s2t "top_p", PFloat (FloatLit (s2t "0.9"))) ] |}.

Local Open Scope py_scope.

(** Stage 1 of [analyze_plant_problem]: the outer [try] around the
    collaborator call and the inner [try] around the extraction.  A stage
    yields the updated [results] and, unless it returns from the function,
    the record handed to the next stage. *)
Definition stage_diagnoser (user_description : str) (image_path : option str)
           (results : dict) : M (flow pyval (dict * pyval)) :=
  stage_start <- time_time ;;
  try_except
    (diag_response <- generate (diag_request user_description image_path) ;;
     try_except
       (diag_json <- lift (_extract_json diag_response) ;;
        now <- time_time ;;
        let stage_time := FloatSub now stage_start in
        ret (Continue
               (dict_set (s2t "diagnoser")
                  (PDict [ (s2t "response_json", diag_json);
                           (s2t "response_text", PStr diag_response);
                           (s2t "time", PFloat stage_time);
                           (s2t "model", PStr (agent_model critical_diagnoser));
                           (s2t "status", PStr (s2t "success")) ])
                  results,
                diag_json)))
       is_JSONDecodeError
       (fun e =>
          let fallback_json := _create_fallback_json (s2t "diagnoser") (exn_str e) in
          now <- time_time ;;
          let stage_time := FloatSub now stage_start in
          ret (Continue
                 (dict_set (s2t "diagnoser")
                    (PDict [ (s2t "response_json", fallback_json);
                             (s2t "response_text", PStr diag_response);
                             (s2t "time", PFloat stage_time);
                             (s2t "model", PStr (agent_model critical_diagnoser));
                             (s2t "status", PStr (s2t "json_error_recovered"));
                             (s2t "error",
                              PStr (s2t "JSON parsing failed, using fallback: "
                                      ++ exn_str e));
                             (s2t "raw_response", PStr diag_response) ])
                    results,
                  fallback_json))))
    is_Exception
    (fun e =>
       ret (Return
              (PDict (dict_set (s2t "diagnoser")
                        (PDict [ (s2t "status", PStr (s2t "error"));
                                 (s2t "error", PStr (exn_str e)) ])
                        results)))).

(** Stage 2: the outer handler does not return, it substitutes the
    validator fallback and goes on. *)
Definition stage_validator (user_description : str) (diag_json : pyval)
           (results : dict) : M (dict * pyval) :=
  stage_start <- time_time ;;
  try_except
    (valid_response <- generate (valid_request user_description diag_json) ;;
     try_except
       (valid_json <- lift (_extract_json valid_response) ;;
        now <- time_time ;;
        let stage_time := FloatSub now stage_start in
        ret (dict_set (s2t "validator")
               (PDict [ (s2t "response_json", valid_json);
                        (s2t "response_text", PStr valid_response);
                        (s2t "time", PFloat stage_time);
                        (s2t "model", PStr (agent_model skeptical_validator));
                        (s2t "status", PStr (s2t "success")) ])
               results,
             valid_json))
       is_JSONDecodeError
       (fun e =>
          let fallback_json := _create_fallback_json (s2t "validator") (exn_str e) in
          now <- time_time ;;
          let stage_time := FloatSub now stage_start in
          ret (dict_set (s2t "validator")
                 (PDict [ (s2t "response_json", fallback_json);
                          (s2t "response_text", PStr valid_response);
                          (s2t "time", PFloat stage_time);
                          (s2t "model", PStr (agent_model skeptical_validator));
                          (s2t "status", PStr (s2t "json_error_recovered"));
                          (s2t "error",
                           PStr (s2t "JSON parsing failed, using fallback: "
                                   ++ exn_str e));
                          (s2t "raw_response", PStr valid_response) ])
                 results,
               fallback_json)))
    is_Exception
    (fun e =>
       let valid_json := _create_fallback_json (s2t "validator") (exn_str e) in
       now <- time_time ;;
       ret (dict_set (s2t "validator")
              (PDict [ (s2t "response_json", valid_json);
                       (s2t "status", PStr (s2t "error_recovered"));
                       (s2t "error", PStr (exn_str e));
                       (s2t "time", PFloat (FloatSub now stage_start)) ])
              results,
            valid_json)).

(** Stage 3: free text, never parsed. *)
Definition stage_advisor (user_description : str) (diag_json valid_json : pyval)
           (results : dict) : M dict :=
  stage_start <- time_time ;;
  try_except
    (advisor_response <-
       generate (advisor_request user_description diag_json valid_json) ;;
     now <- time_time ;;
     let stage_time := FloatSub now stage_start in
     ret (dict_set (s2t "advisor")
            (PDict [ (s2t "response", PStr advisor_response);
                     (s2t "time", PFloat stage_time);
                     (s2t "model", PStr (agent_model conservative_advisor));
                     (s2t "status", PStr (s2t "success")) ])
            results))
    is_Exception
    (fun e =>
       ret (dict_set (s2t "advisor")
              (PDict [ (s2t "status", PStr (s2t "error"));
                       (s2t "error", PStr (exn_str e)) ])
              results)).

(** [results['metadata']['total_time'] = total_time] *)
Definition set_total_time (total_time : pyval) (results : dict) : dict :=
  match dict_get (s2t "metadata") results with
  | Some (PDict md) =>
      dict_set (s2t "metadata") (PDict (dict_set (s2t "total_time") total_time md))
        results
  | _ => results
  end.

(** [analyze_plant_problem(self, user_description, image_path=None)] *)
Definition analyze_plant_problem (user_description : str)
           (image_path : option str) : M pyval :=
  analysis_start <- time_time ;;
  timestamp <- time_time ;;
  let results : dict :=
    [ (s2t "metadata",
       PDict [ (s2t "timestamp", PFloat timestamp);
               (s2t "problem", PStr user_description) ]) ] in
  s1 <- stage_diagnoser user_description image_path results ;;
  match s1 with
  | Return r => ret r
  | Continue (results, diag_json) =>
      ' (results, valid_json) <- stage_validator user_description diag_json results ;;
      results <- stage_advisor user_description diag_json valid_json results ;;
      now <- time_time ;;
      let total_time := FloatSub now analysis_start in
      let results := set_total_time (PFloat total_time) results in
      _ <- history_append (PDict results) ;;
      ret (PDict results)
  end.

Local Close Scope py_scope.

Local Open Scope out_scope.

(** The inner loop of [get_performance_summary]:
    [for agent in [...]: if agent in analysis:
       status = analysis[agent].get('status', 'error')
       if status in [...]: success_count += 1] *)
Fixpoint count_successes (agents : list str) (analysis : pyval)
         (success_count : nat) : outcome nat :=
  match agents with
  | [] => Returns success_count
  | agent :: rest =>
      present <- contains agent analysis ;;
      if present then
        entry <- subscript analysis agent ;;
        status <- get entry (s2t "status") (PStr (s2t "error")) ;;
        count_successes rest analysis
          (if in_strs status
                [s2t "success"; s2t "json_error_recovered"; s2t "error_recovered"]
           then S success_count else success_count)
      else count_successes rest analysis success_count
  end.

Record success_levels : Type := SuccessLevels {
  full_success : nat;
  partial_success : nat;
  failed : nat
}.

(** The outer loop. *)
Fixpoint count_levels (history : list pyval) (levels : success_levels)
  : outcome success_levels :=
  match history with
  | [] => Returns levels
  | analysis :: rest =>
      success_count <- count_successes agent_keys analysis 0 ;;
      count_levels rest
        (if success_count =? 3 then
           SuccessLevels (S (full_success levels)) (partial_success levels)
             (failed levels)
         else if 0 <? success_count then
           SuccessLevels (full_success levels) (S (partial_success levels))
             (failed levels)
         else
           SuccessLevels (full_success levels) (partial_success levels)
             (S (failed levels)))
  end.

(** [[a for a in self.analysis_history
      if 'metadata' in a and 'total_time' in a['metadata']]] *)
Fixpoint successful_analyses (history : list pyval) : outcome (list pyval) :=
  match history with
  | [] => Returns []
  | a :: rest =>
      has_metadata <- contains (s2t "metadata") a ;;
      keep <-
        (if has_metadata then
           metadata <- subscript a (s2t "metadata") ;;
           contains (s2t "total_time") metadata
         else Returns false) ;;
      kept <- successful_analyses rest ;;
      Returns (if keep then a :: kept else kept)
  end.

(** [a['metadata']['total_time'] for a in successful_analyses] *)
Fixpoint total_times (analyses : list pyval) : outcome (list pyval) :=
  match analyses with
  | [] => Returns []
  | a :: rest =>
      metadata <- subscript a (s2t "metadata") ;;
      total_time <- subscript metadata (s2t "total_time") ;;
      times <- total_times rest ;;
      Returns (total_time :: times)
  end.

(** The numbers [get_performance_summary] reports. *)
Record performance : Type := Performance {
  total_analyses : nat;
  levels : success_levels;
  avg_time : amount
}.

Definition measure_performance (history : list pyval) : outcome performance :=
  let total_analyses := length history in
  levels <- count_levels history (SuccessLevels 0 0 0) ;;
  successful <- successful_analyses history ;;
  avg_time <-
    match successful with
    | [] => Returns (Plain (Int 0))
    | _ :: _ =>
        times <- total_times successful ;;
        total <- sum times ;;
        true_div total (length successful)
    end ;;
  Returns (Performance total_analyses levels avg_time).

(** [f"{count} ({count/total_analyses:.1%})"] *)
Definition count_and_share (count total_analyses : nat) : outcome (list piece) :=
  share <- true_div (Int (Z.of_nat count)) total_analyses ;;
  Returns [Show (PInt (Z.of_nat count)); Text " ("; Percent1 share; Text ")"].

(** The text [get_performance_summary] returns on a history that is not
    empty. *)
Definition performance_summary (p : performance) : outcome (list piece) :=
  full <- count_and_share (full_success (levels p)) (total_analyses p) ;;
  partial <- count_and_share (partial_success (levels p)) (total_analyses p) ;;
  failed <- count_and_share (failed (levels p)) (total_analyses p) ;;
  average <- as_float (avg_time p) ;;
  Returns
    ([ Line;
       Glyph 128202; Text " PERFORMANCE SUMMARY"; Line;
       Text "Total Analyses: "; Show (PInt (Z.of_nat (total_analyses p))); Line;
       Text "Full Success: " ] ++ full ++
     [ Line; Text "Partial Success: " ] ++ partial ++
     [ Line; Text "Failed: " ] ++ failed ++
     [ Line; Text "Average Time: "; Fixed1 average; Text " seconds"; Line;
       Text "JSON Optimization: "; Glyph 9989; Text " Active"; Line;
       Text "Error Recovery: "; Glyph 9989; Text " Active"; Line;
       Text "System Status: "; Glyph 128737; Glyph 65039; Text " Crash-Proof";
       Line; Text "        " ]).

(** [get_performance_summary(self)] *)
Definition get_performance_summary (w : world) : outcome (list piece) :=
  match analysis_history w with
  | [] => Returns [Text "No analyses completed yet."]
  | _ :: _ =>
      p <- measure_performance (analysis_history w) ;;
      performance_summary p
  end.

Local Close Scope out_scope.

(** [display_results] calls [time.ctime] and tests values for truth; what
    [time.ctime] makes of a value, a range error included, and which floats
    count as zero are left to the platform. *)
Section Display.
Variable time_ctime : pyval -> outcome str.
Variable float_bool : pyfloat -> bool.

(** [bool(v)] *)
Definition truthy (v : pyval) : bool :=
  match v with
  | PNone => false
  | PBool b => b
  | PInt z => negb (z =? 0)%Z
  | PFloat f => float_bool f
  | PStr s => match s with [] => false | _ :: _ => true end
  | PList l => match l with [] => false | _ :: _ => true end
  | PDict d => match d with [] => false | _ :: _ => true end
  end.

Local Open Scope out_scope.

(** [stage in results and test(results[stage].get('status'))], where the
    test is [... in [...]] or [... == 'success'] *)
Definition stage_status (results : pyval) (stage : str) (test : pyval -> bool)
  : outcome bool :=
  present <- contains stage results ;;
  if present then
    entry <- subscript results stage ;;
    status <- get entry (s2t "status") PNone ;;
    Returns (test status)
  else Returns false.

(** [results[stage].get(key, default)] *)
Definition stage_get (results : pyval) (stage key : str) (default : pyval)
  : outcome pyval :=
  entry <- subscript results stage ;;
  get entry key default.

(** [results['metadata'][key]] *)
Definition metadata_field (results : pyval) (key : str) : outcome pyval :=
  metadata <- subscript results (s2t "metadata") ;;
  subscript metadata key.

(** [error_flags.values()] and [error_flags.items()] *)
Definition items (v : pyval) (method : str) : outcome dict :=
  match v with
  | PDict d => Returns d
  | _ => raise_AttributeError v method
  end.

Local Close Scope out_scope.
Local Open Scope print_scope.

(** [for flag, value in error_flags.items():
       if value: print(f"  - {flag.replace('_', ' ').title()}")] *)
Fixpoint print_flags (flags : dict) : printer unit :=
  match flags with
  | [] => eval (Returns tt)
  | (flag, value) :: rest =>
      _ <- when (truthy value)
             (print [Text "  - "; Title (underscores_to_spaces flag)]) ;;
      print_flags rest
  end.

(** The section written for the diagnoser when [diag_data] is true. *)
Definition display_diagnosis (results diag_data valid_data : pyval)
  : printer unit :=
  _ <- print [Glyph 127919; Text " DIAGNOSTIC SUMMARY"] ;;
  _ <- print [Rule "-" 60] ;;
  primary <- eval (get diag_data (s2t "primary_diagnosis") (PStr (s2t "Unknown"))) ;;
  primary_confidence <- eval (get diag_data (s2t "primary_confidence") (PInt 0)) ;;
  _ <- print [ Text "Primary Diagnosis: "; Show primary; Text " (Confidence: ";
               Show primary_confidence; Text "/10)" ] ;;
  alternative <-
    eval (get diag_data (s2t "alternative_diagnosis") (PStr (s2t "Unknown"))) ;;
  alternative_confidence <-
    eval (get diag_data (s2t "alternative_confidence") (PInt 0)) ;;
  _ <- print [ Text "Alternative: "; Show alternative; Text " (Confidence: ";
               Show alternative_confidence; Text "/10)" ] ;;
  correlation <-
    eval (get diag_data (s2t "image_text_correlation") (PStr (s2t "Unknown"))) ;;
  _ <- print [Text "Image-Text Correlation: "; Show correlation] ;;
  _ <- when (truthy valid_data)
         (recommendation <-
            eval (get valid_data (s2t "final_recommendation")
                    (PStr (s2t "Unknown"))) ;;
          print [Text "Validator Recommendation: "; Show recommendation]) ;;
  _ <- print [] ;;
  _ <- print [Glyph 127919; Text " CRITICAL DIAGNOSIS"] ;;
  _ <- print [Rule "-" 60] ;;
  symptoms <-
    eval (get diag_data (s2t "key_symptoms_observed")
            (PStr (s2t "Not specified"))) ;;
  _ <- print [Text "Key Symptoms: "; Show symptoms] ;;
  evidence <-
    eval (get diag_data (s2t "visual_evidence_quality") (PStr (s2t "Unknown"))) ;;
  _ <- print [Text "Visual Evidence: "; Show evidence] ;;
  reasoning <-
    eval (get diag_data (s2t "diagnostic_reasoning")
            (PStr (s2t "No reasoning provided"))) ;;
  _ <- print [Text "Reasoning: "; Show reasoning] ;;
  error_flags <- eval (get diag_data (s2t "error_flags") (PDict [])) ;;
  _ <- when (truthy error_flags)
         (values <- eval (items error_flags (s2t "values")) ;;
          when (existsb truthy (map snd values))
            (_ <- print (warning_sign ++ [Text " ALERT FLAGS:"]) ;;
             flags <- eval (items error_flags (s2t "items")) ;;
             print_flags flags)) ;;
  diag_status <-
    eval (stage_get results (s2t "diagnoser") (s2t "status")
            (PStr (s2t "unknown"))) ;;
  _ <- when (eq_str diag_status (s2t "json_error_recovered"))
         (print (warning_sign
                   ++ [Text " Note: JSON parsing issues were automatically recovered"])) ;;
  time <-
    eval (and_then (stage_get results (s2t "diagnoser") (s2t "time") (PInt 0))
            format_1f) ;;
  _ <- print (stopwatch ++ [Text " Processing Time: "; time; Text "s"]) ;;
  print [].

(** The section written for the validator when [valid_data] is true. *)
Definition display_review (results valid_data : pyval) : printer unit :=
  _ <- print [Glyph 128269; Text " QUALITY REVIEW"] ;;
  _ <- print [Rule "-" 60] ;;
  valid <-
    eval (get valid_data (s2t "primary_diagnosis_valid") (PStr (s2t "Unknown"))) ;;
  _ <- print [Text "Primary Diagnosis Valid: "; Show valid] ;;
  adjustment <-
    eval (and_then
            (get valid_data (s2t "primary_confidence_adjustment") (PInt 0))
            format_signed) ;;
  _ <- print [Text "Confidence Adjustment: "; adjustment] ;;
  quality <-
    eval (get valid_data (s2t "evidence_quality_assessment")
            (PStr (s2t "Unknown"))) ;;
  _ <- print [Text "Evidence Quality: "; Show quality] ;;
  critical_concerns <-
    eval (get valid_data (s2t "critical_concerns") (PStr (s2t "none"))) ;;
  _ <- when (negb (eq_str critical_concerns (s2t "none")))
         (print (warning_sign
                   ++ [Text " Critical Concerns: "; Show critical_concerns])) ;;
  overlooked_factors <-
    eval (get valid_data (s2t "overlooked_factors") (PStr (s2t "none"))) ;;
  _ <- when (negb (eq_str overlooked_factors (s2t "none")))
         (print [ Glyph 128269; Text " Overlooked Factors: ";
                  Show overlooked_factors ]) ;;
  valid_status <-
    eval (stage_get results (s2t "validator") (s2t "status")
            (PStr (s2t "unknown"))) ;;
  _ <- when (in_strs valid_status
               [s2t "json_error_recovered"; s2t "error_recovered"])
         (print (warning_sign
                   ++ [Text " Note: Validation issues were automatically recovered"])) ;;
  time <-
    eval (and_then (stage_get results (s2t "validator") (s2t "time") (PInt 0))
            format_1f) ;;
  _ <- print (stopwatch ++ [Text " Processing Time: "; time; Text "s"]) ;;
  print [].

(** The recommendations, or the note that there are none. *)
Definition display_advice (results advisor_data : pyval) : printer unit :=
  if truthy advisor_data then
    _ <- print [Glyph 128161; Text " FINAL RECOMMENDATIONS"] ;;
    _ <- print [Rule "-" 60] ;;
    _ <- print [Show advisor_data] ;;
    time <-
      eval (and_then (stage_get results (s2t "advisor") (s2t "time") (PInt 0))
              format_1f) ;;
    print (stopwatch ++ [Text " Processing Time: "; time; Text "s"])
  else
    _ <- print [Glyph 128161; Text " FINAL RECOMMENDATIONS"] ;;
    _ <- print [Rule "-" 60] ;;
    _ <- print (warning_sign
                  ++ [Text " Recommendations unavailable due to processing error"]) ;;
    present <- eval (contains (s2t "advisor") results) ;;
    error <-
      (if present
       then eval (stage_get results (s2t "advisor") (s2t "error") PNone)
       else eval (Returns (PBool false))) ;;
    when (truthy error)
      (error <- eval (and_then (subscript results (s2t "advisor"))
                        (fun entry => subscript entry (s2t "error"))) ;;
       print [Text "Error: "; Show error]).

(** [for agent_name in ['diagnoser', 'validator', 'advisor']: ...], with
    the number of stages found in error. *)
Fixpoint display_status (agents : list str) (results : pyval)
         (error_count : nat) : printer nat :=
  match agents with
  | [] => eval (Returns error_count)
  | agent_name :: rest =>
      present <- eval (contains agent_name results) ;;
      if present then
        status <-
          eval (stage_get results agent_name (s2t "status")
                  (PStr (s2t "unknown"))) ;;
        if eq_str status (s2t "error") then
          error <-
            eval (stage_get results agent_name (s2t "error")
                    (PStr (s2t "Unknown error"))) ;;
          _ <- print [ Glyph 10060; Text " "; Show (PStr agent_name); Text ": ";
                       Show error ] ;;
          display_status rest results (S error_count)
        else if in_strs status [s2t "json_error_recovered"; s2t "error_recovered"]
        then
          _ <- print (warning_sign
                        ++ [ Text " "; Show (PStr agent_name);
                             Text ": Recovered from errors" ]) ;;
          display_status rest results error_count
        else if eq_str status (s2t "success") then
          _ <- print [ Glyph 9989; Text " "; Show (PStr agent_name);
                       Text ": Operating normally" ] ;;
          display_status rest results error_count
        else display_status rest results error_count
      else display_status rest results error_count
  end.

(** [display_results(self, results)] *)
Definition display_results (results : pyval) : printer unit :=
  _ <- print [Line; Rule "=" 80] ;;
  _ <- print [Glyph 128202; Text " MINI-PESTMA COMPREHENSIVE ANALYSIS REPORT"] ;;
  _ <- print [Rule "=" 80] ;;
  timestamp <-
    eval (and_then (metadata_field results (s2t "timestamp")) time_ctime) ;;
  _ <- print [Glyph 128338; Text " Timestamp: "; Show (PStr timestamp)] ;;
  problem <- eval (metadata_field results (s2t "problem")) ;;
  _ <- print [Glyph 128221; Text " Problem: "; Show problem] ;;
  total_time <-
    eval (and_then (metadata_field results (s2t "total_time")) format_1f) ;;
  _ <- print (stopwatch ++ [Text "  Total Time: "; total_time; Text " seconds"]) ;;
  _ <- print [] ;;
  diag_ok <-
    eval (stage_status results (s2t "diagnoser")
            (fun status =>
               in_strs status [s2t "success"; s2t "json_error_recovered"])) ;;
  diag_data <-
    (if diag_ok
     then eval (stage_get results (s2t "diagnoser") (s2t "response_json")
                  (PDict []))
     else eval (Returns PNone)) ;;
  valid_ok <-
    eval (stage_status results (s2t "validator")
            (fun status =>
               in_strs status
                 [ s2t "success"; s2t "json_error_recovered";
                   s2t "error_recovered" ])) ;;
  valid_data <-
    (if valid_ok
     then eval (stage_get results (s2t "validator") (s2t "response_json")
                  (PDict []))
     else eval (Returns PNone)) ;;
  advisor_ok <-
    eval (stage_status results (s2t "advisor")
            (fun status => eq_str status (s2t "success"))) ;;
  advisor_data <-
    (if advisor_ok
     then eval (stage_get results (s2t "advisor") (s2t "response")
                  (PStr (s2t "No recommendations available")))
     else eval (Returns PNone)) ;;
  _ <- when (truthy diag_data) (display_diagnosis results diag_data valid_data) ;;
  _ <- when (truthy valid_data) (display_review results valid_data) ;;
  _ <- display_advice results advisor_data ;;
  _ <- print [Line; Glyph 128737; Glyph 65039; Text " SYSTEM STATUS"] ;;
  _ <- print [Rule "-" 60] ;;
  error_count <- display_status agent_keys results 0 ;;
  _ <- (if error_count =? 0
        then print [Glyph 9989; Text " All systems operational"]
        else print (warning_sign
                      ++ [ Text " "; Show (PInt (Z.of_nat error_count));
                           Text " system(s) experienced unrecoverable errors" ])) ;;
  print [Line; Rule "=" 80].

Local Close Scope print_scope.
End Display.

End LocalMiniPestMA.

(** ** [StreamlitMiniPestMA], the web class, and the form handler *)

Module StreamlitMiniPestMA.

(** The first entry of [json_patterns]; with blanks between its parts it
    reads  \{ [^{}]* (?: \{ [^{}]* \} [^{}]* )* \}  *)
Definition json_pattern_1 : regex :=
  Seq (Lit lbrace)
   (Seq (Star true (Cls not_brace))
    (Seq (Star true
            (Seq (Lit lbrace)
              (Seq (Star true (Cls not_brace))
                (Seq (Lit rbrace) (Star true (Cls not_brace))))))
         (Lit rbrace))).

(** The second entry:  \{ (?: [^{}] | (?: \{ [^{}]* \} ) )* \}  *)
Definition json_pattern_2 : regex :=
  Seq (Lit lbrace)
   (Seq (Star true
           (Alt (Cls not_brace)
                (Seq (Lit lbrace)
                  (Seq (Star true (Cls not_brace)) (Lit rbrace)))))
        (Lit rbrace)).

Definition json_patterns : list regex := [json_pattern_1; json_pattern_2].

(** The first marker:  ```json \s* (.*?) \s* ```  *)
Definition marker_1 : regex :=
  Seq (lits (s2t "```json"))
   (Seq (Star true (Cls isspace))
    (Seq (Grp (Star false (Cls any_char)))
     (Seq (Star true (Cls isspace)) (lits (s2t "```"))))).

(** The second marker:  ``` \s* (.*?) \s* ```  *)
Definition marker_2 : regex :=
  Seq (lits (s2t "```"))
   (Seq (Star true (Cls isspace))
    (Seq (Grp (Star false (Cls any_char)))
     (Seq (Star true (Cls isspace)) (lits (s2t "```"))))).

(** The third marker:  \{ .* \}  ; it has no capturing group. *)
Definition marker_3 : regex :=
  Seq (Lit lbrace) (Seq (Star true (Cls any_char)) (Lit rbrace)).

Definition markers : list regex := [marker_1; marker_2; marker_3].

(** [for match in matches: try: return json.loads(match.strip())
     except json.JSONDecodeError: continue].
    Every function of the cascade also reports the texts it handed to
    [json.loads], in call order. *)
Fixpoint try_matches (matches : list str) : list str * option pyval :=
  match matches with
  | [] => ([], None)
  | m :: rest =>
      let cleaned := strip m in
      match json_loads cleaned with
      | Some v => ([cleaned], Some v)
      | None => let (tried, r) := try_matches rest in (cleaned :: tried, r)
      end
  end.

(** [for pattern in json_patterns: matches = re.findall(pattern, text,
     re.DOTALL); ...] *)
Fixpoint try_patterns (patterns : list regex) (text : str)
  : list str * option pyval :=
  match patterns with
  | [] => ([], None)
  | pattern :: rest =>
      match try_matches (findall pattern text) with
      | (tried, Some v) => (tried, Some v)
      | (tried, None) =>
          let (tried', r) := try_patterns rest text in (tried ++ tried', r)
      end
  end.

(** [for pattern, flags in markers: match = re.search(pattern, text, flags);
     if match: try: return json.loads(match.group(1).strip())
     except (json.JSONDecodeError, IndexError): continue] *)
Fixpoint try_markers (ms : list regex) (text : str)
  : list str * result (option pyval) :=
  match ms with
  | [] => ([], Ok None)
  | pattern :: rest =>
      match search pattern text with
      | None => try_markers rest text
      | Some m =>
          match group_1 pattern m with
          | Raise e =>
              match exn_cls e with
              | JSONDecodeError | IndexError => try_markers rest text
              | _ => ([], Raise e)
              end
          | Ok g =>
              match strip_opt g with
              | Raise e =>
                  match exn_cls e with
                  | JSONDecodeError | IndexError => try_markers rest text
                  | _ => ([], Raise e)
                  end
              | Ok cleaned =>
                  match json_loads cleaned with
                  | Some v => ([cleaned], Ok (Some v))
                  | None =>
                      let (tried, r) := try_markers rest text in
                      (cleaned :: tried, r)
                  end
              end
          end
      end
  end.

(** [_extract_json(self, text)], together with the steps of the cascade it
    entered and the texts it handed to [json.loads]. *)
Definition _extract_json_traced (text : str) : extraction :=
  match json_loads (strip text) with
  | Some v => Extraction [DirectParse] [strip text] (Ok v)
  | None =>
      match try_patterns json_patterns text with
      | (tried2, Some v) =>
          Extraction [DirectParse; PatternScan] (strip text :: tried2) (Ok v)
      | (tried2, None) =>
          match try_markers markers text with
          | (tried3, Ok (Some v)) =>
              Extraction [DirectParse; PatternScan; MarkerScan]
                (strip text :: tried2 ++ tried3) (Ok v)
          | (tried3, Raise e) =>
              Extraction [DirectParse; PatternScan; MarkerScan]
                (strip text :: tried2 ++ tried3) (Raise e)
          | (tried3, Ok None) =>
              Extraction [DirectParse; PatternScan; MarkerScan; FinalRaise]
                (strip text :: tried2 ++ tried3)
                (raise_from
                   (JSONDecodeError_1
                      (s2t "Could not extract valid JSON from: "
                         ++ slice_to 200 text ++ s2t "...")))
          end
      end
  end.

Definition _extract_json (text : str) : result pyval :=
  x_result (_extract_json_traced text).

Definition json_loads_calls (text : str) : list str :=
  x_tried (_extract_json_traced text).

Definition steps_entered (text : str) : list step :=
  x_steps (_extract_json_traced text).

(** [_create_fallback_json(self, agent_type, error_msg)] *)
Definition _create_fallback_json (agent_type : str) (error_msg : str) : pyval :=
  if str_eqb agent_type (s2t "diagnoser") then
    PDict
      [ (s2t "primary_diagnosis", PStr (s2t "Analysis failed - JSON parsing error"));
        (s2t "primary_confidence", PInt 1);
        (s2t "alternative_diagnosis", PStr (s2t "Unable to determine"));
        (s2t "alternative_confidence", PInt 1);
        (s2t "image_text_correlation", PStr (s2t "no_image"));
        (s2t "key_symptoms_observed", PStr (s2t "Parsing error occurred"));
        (s2t "visual_evidence_quality", PStr (s2t "none"));
        (s2t "error_flags",
         PDict [ (s2t "equally_likely", PBool false);
                 (s2t "contradictory_symptoms", PBool false);
                 (s2t "insufficient_evidence", PBool true) ]);
        (s2t "diagnostic_reasoning",
         PStr (s2t "JSON parsing failed: " ++ error_msg)) ]
  else if str_eqb agent_type (s2t "validator") then
    PDict
      [ (s2t "primary_diagnosis_valid", PBool false);
        (s2t "primary_confidence_adjustment", PInt (-3));
        (s2t "alternative_diagnosis_preferred", PBool false);
        (s2t "critical_concerns",
         PStr (s2t "Validation failed due to parsing error: " ++ error_msg));
        (s2t "evidence_quality_assessment", PStr (s2t "weak"));
        (s2t "overlooked_factors",
         PStr (s2t "Unable to assess due to parsing error"));
        (s2t "bias_detection", PStr (s2t "none identified"));
        (s2t "additional_diagnostics_needed",
         PStr (s2t "Retry analysis with corrected prompts"));
        (s2t "final_recommendation", PStr (s2t "request_expert")) ]
  else PDict [].

(** The three requests of [run_analysis]. *)
Definition diag_request (problem_description : str) (image_path : option str)
  : request :=
  {| rq_model := agent_model critical_diagnoser;
     rq_prompt :=
       [ Txt "PROFESSIONAL FORENSIC PLANT ANALYSIS:"; Nl; Nl;
         Txt "PROBLEM DESCRIPTION: "; Interp problem_description; Nl;
         Txt "IMAGE PROVIDED: ";
         Txt (if truthy_path image_path then "Yes - conduct visual analysis"
              else "No - text-based analysis only"); Nl; Nl;
         Txt "Conduct thorough forensic analysis following established protocols." ];
     rq_system := SystemPrompt Web critical_diagnoser;
     rq_images := images_of image_path;
     rq_options :=
       [ (s2t "temperature", PFloat (FloatLit (s2t "0.05")));
         (s2t "num_predict", PInt 500) ] |}.

Definition valid_request (problem_description : str) (diag_json : pyval)
  : request :=
  {| rq_model := agent_model skeptical_validator;
     rq_prompt :=
       [ Txt "RIGOROUS PEER REVIEW REQUIRED:"; Nl; Nl;
         Txt "ORIGINAL PROBLEM: "; Interp problem_description; Nl;
         Txt "AGENT 1 DIAGNOSIS JSON: "; Dumps diag_json 2; Nl; Nl;
         Txt "Your mission: Challenge every aspect of this diagnosis with scientific skepticism." ];
     rq_system := SystemPrompt Web skeptical_validator;
     rq_images := None;
     rq_options :=
       [ (s2t "temperature", PFloat (FloatLit (s2t "0.2")));
         (s2t "num_predict", PInt 400) ] |}.

Definition advisor_request (problem_description : str)
           (diag_json valid_json : pyval) : request :=
  {| rq_model := agent_model conservative_advisor;
     rq_prompt :=
       [ Txt "PROFESSIONAL EXTENSION CONSULTATION:"; Nl; Nl;
         Txt "FARMER'S CONCERN: "; Interp problem_description; Nl; Nl;
         Txt "DIAGNOSTIC ANALYSIS (Agent 1 JSON):"; Nl;
         Dumps diag_json 2; Nl; Nl;
         Txt "PEER REVIEW (Agent 2 JSON):"; Nl;
         Dumps valid_json 2; Nl; Nl;
         Txt "Provide evidence-based, cost-effective recommendations considering both analyses." ];
     rq_system := SystemPrompt Web conservative_advisor;
     rq_images := None;
     rq_options :=
       [ (s2t "temperature", PFloat (FloatLit (s2t "0.15")));
         (s2t "num_predict", PInt 400) ] |}.

Local Open Scope py_scope.

Definition stage_diagnoser (problem_description : str) (image_path : option str)
           (results : dict) : M (flow pyval (dict * pyval)) :=
  diag_start <- time_time ;;
  try_except
    (diag_response <- generate (diag_request problem_description image_path) ;;
     try_except
       (diag_json <- lift (_extract_json diag_response) ;;
        now <- time_time ;;
        ret (Continue
               (dict_set (s2t "diagnoser")
                  (PDict [ (s2t "response_json", diag_json);
                           (s2t "response_text", PStr diag_response);
                           (s2t "time", PFloat (FloatSub now diag_start));
                           (s2t "status", PStr (s2t "success")) ])
                  results,
                diag_json)))
       is_JSONDecodeError
       (fun e =>
          let fallback_json := _create_fallback_json (s2t "diagnoser") (exn_str e) in
          now <- time_time ;;
          ret (Continue
                 (dict_set (s2t "diagnoser")
                    (PDict [ (s2t "response_json", fallback_json);
                             (s2t "response_text", PStr diag_response);
                             (s2t "time", PFloat (FloatSub now diag_start));
                             (s2t "status", PStr (s2t "json_error_recovered"));
                             (s2t "error",
                              PStr (s2t "JSON parsing failed, using fallback: "
                                      ++ exn_str e));
                             (s2t "raw_response", PStr diag_response) ])
                    results,
                  fallback_json))))
    is_Exception
    (fun e =>
       ret (Return
              (PDict (dict_set (s2t "diagnoser")
                        (PDict [ (s2t "status", PStr (s2t "error"));
                                 (s2t "error", PStr (exn_str e)) ])
                        results)))).

Definition stage_validator (problem_description : str) (diag_json : pyval)
           (results : dict) : M (dict * pyval) :=
  valid_start <- time_time ;;
  try_except
    (valid_response <- generate (valid_request problem_description diag_json) ;;
     try_except
       (valid_json <- lift (_extract_json valid_response) ;;
        now <- time_time ;;
        ret (dict_set (s2t "validator")
               (PDict [ (s2t "response_json", valid_json);
                        (s2t "response_text", PStr valid_response);
                        (s2t "time", PFloat (FloatSub now valid_start));
                        (s2t "status", PStr (s2t "success")) ])
               results,
             valid_json))
       is_JSONDecodeError
       (fun e =>
          let fallback_json := _create_fallback_json (s2t "validator") (exn_str e) in
          now <- time_time ;;
          ret (dict_set (s2t "validator")
                 (PDict [ (s2t "response_json", fallback_json);
                          (s2t "response_text", PStr valid_response);
                          (s2t "time", PFloat (FloatSub now valid_start));
                          (s2t "status", PStr (s2t "json_error_recovered"));
                          (s2t "error",
                           PStr (s2t "JSON parsing failed, using fallback: "
                                   ++ exn_str e));
                          (s2t "raw_response", PStr valid_response) ])
                 results,
               fallback_json)))
    is_Exception
    (fun e =>
       let valid_json := _create_fallback_json (s2t "validator") (exn_str e) in
       now <- time_time ;;
       ret (dict_set (s2t "validator")
              (PDict [ (s2t "response_json", valid_json);
                       (s2t "status", PStr (s2t "error_recovered"));
                       (s2t "error", PStr (exn_str e));
                       (s2t "time", PFloat (FloatSub now valid_start)) ])
              results,
            valid_json)).

Definition stage_advisor (problem_description : str)
           (diag_json valid_json : pyval) (results : dict) : M dict :=
  advisor_start <- time_time ;;
  try_except
    (advisor_response <-
       generate (advisor_request problem_description diag_json valid_json) ;;
     now <- time_time ;;
     ret (dict_set (s2t "advisor")
            (PDict [ (s2t "response", PStr advisor_response);
                     (s2t "time", PFloat (FloatSub now advisor_start));
                     (s2t "status", PStr (s2t "success")) ])
            results))
    is_Exception
    (fun e =>
       ret (dict_set (s2t "advisor")
              (PDict [ (s2t "status", PStr (s2t "error"));
                       (s2t "error", PStr (exn_str e)) ])
              results)).

(** [total_time += results[stage]['time']] where both keys are present;
    the times stored above are floats and the sum starts from the integer
    0. *)
Definition add_stage_time (stage : str) (results : dict) (total_time : pyval)
  : pyval :=
  match dict_get stage results with
  | Some (PDict sr) =>
      match dict_get (s2t "time") sr, total_time with
      | Some (PFloat t), PInt z => PFloat (FloatAdd (FloatOfInt z) t)
      | Some (PFloat t), PFloat a => PFloat (FloatAdd a t)
      | _, _ => total_time
      end
  | _ => total_time
  end.

Definition set_total_time (total_time : pyval) (results : dict) : dict :=
  match dict_get (s2t "metadata") results with
  | Some (PDict md) =>
      dict_set (s2t "metadata") (PDict (dict_set (s2t "total_time") total_time md))
        results
  | _ => results
  end.

(** [run_analysis(self, problem_description, image_path=None)] *)
Definition run_analysis (problem_description : str) (image_path : option str)
  : M pyval :=
  timestamp <- datetime_now_isoformat ;;
  let results : dict :=
    [ (s2t "metadata",
       PDict [ (s2t "timestamp", PStr timestamp);
               (s2t "problem", PStr problem_description);
               (s2t "has_image",
                PBool (match image_path with Some _ => true | None => false end)) ]) ] in
  s1 <- stage_diagnoser problem_description image_path results ;;
  match s1 with
  | Return r => ret r
  | Continue (results, diag_json) =>
      ' (results, valid_json) <- stage_validator problem_description diag_json results ;;
      results <- stage_advisor problem_description diag_json valid_json results ;;
      let total_time := PInt 0 in
      let total_time := add_stage_time (s2t "diagnoser") results total_time in
      let total_time := add_stage_time (s2t "validator") results total_time in
      let total_time := add_stage_time (s2t "advisor") results total_time in
      ret (PDict (set_total_time total_time results))
  end.

(** [st.session_state.analysis_count += 1] *)
Definition count_analysis : M unit :=
  fun w =>
    (Ok tt,
     World (ollama_generate w) (isoformat w) (calls w) (ticks w)
           (analysis_history w) (S (analysis_count w))).

(** The body of [if analyze_button:] once the uploaded image, if any, has
    been saved under [image_path]: an empty description is refused, any
    other is analysed, counted and appended to the session history. *)
Definition on_analyze (problem_description : str) (image_path : option str)
  : M (option pyval) :=
  match strip problem_description with
  | [] => ret None
  | _ :: _ =>
      results <- run_analysis problem_description image_path ;;
      _ <- count_analysis ;;
      _ <- history_append results ;;
      ret (Some results)
  end.

(** The "Reset Session" button. *)
Definition reset_session : M unit :=
  fun w =>
    (Ok tt,
     World (ollama_generate w) (isoformat w) (calls w) (ticks w) [] 0).

Local Close Scope py_scope.

(** The page shows statistics of the session history on every run of the
    script; the blocks below are the ones under "Analysis History".  None
    has a handler, so an exception ends the run of the script there. *)

Local Open Scope out_scope.



(** The loop under "Critical analysis rate". *)
Fixpoint critical_count (history : list pyval) (count : nat) : outcome nat :=
  match history with
  | [] => Returns count
  | a :: rest =>
      present <- contains (s2t "validator") a ;;
      reviewed <-
        (if present then
           entry <- subscript a (s2t "validator") ;;
           status <- get entry (s2t "status") PNone ;;
           Returns (in_strs status [s2t "success"; s2t "json_error_recovered"])
         else Returns false) ;;
      if reviewed then
        entry <- subscript a (s2t "validator") ;;
        validator_data <- get entry (s2t "response_json") (PDict []) ;;
        recommendation <-
          get validator_data (s2t "final_recommendation") PNone ;;
        critical_count rest
          (if in_strs recommendation
                [ s2t "prefer_alternative"; s2t "insufficient_data";
                  s2t "request_expert" ]
           then S count else count)
      else critical_count rest count
  end.

(** The inner loop under "Recovery statistics": the stages that did not
    end in error, and those among them that were recovered. *)
Fixpoint count_recoveries (agents : list str) (analysis : pyval)
         (success_count recovery_count : nat) : outcome (nat * nat) :=
  match agents with
  | [] => Returns (success_count, recovery_count)
  | agent :: rest =>
      present <- contains agent analysis ;;
      if present then
        entry <- subscript analysis agent ;;
        status <- get entry (s2t "status") (PStr (s2t "error")) ;;
        if eq_str status (s2t "success") then
          count_recoveries rest analysis (S success_count) recovery_count
        else if in_strs status [s2t "json_error_recovered"; s2t "error_recovered"]
        then count_recoveries rest analysis (S success_count) (S recovery_count)
        else count_recoveries rest analysis success_count recovery_count
      else count_recoveries rest analysis success_count recovery_count
  end.

(** The dictionary [recovery_stats], by its three keys. *)
Record recovery_stats : Type := RecoveryStats {
  Full_Success : nat;
  Partial_Recovery : nat;
  Failed : nat
}.

(** The outer loop. *)
Fixpoint count_resilience (history : list pyval) (stats : recovery_stats)
  : outcome recovery_stats :=
  match history with
  | [] => Returns stats
  | analysis :: rest =>
      counts <- count_recoveries agent_keys analysis 0 0 ;;
      let (success_count, recovery_count) := counts in
      count_resilience rest
        (if (success_count =? 3) && (recovery_count =? 0) then
           RecoveryStats (S (Full_Success stats)) (Partial_Recovery stats)
             (Failed stats)
         else if 0 <? success_count then
           RecoveryStats (Full_Success stats) (S (Partial_Recovery stats))
             (Failed stats)
         else
           RecoveryStats (Full_Success stats) (Partial_Recovery stats)
             (S (Failed stats)))
  end.

Local Close Scope out_scope.

End StreamlitMiniPestMA.

(** ** [MiniPestMAEvaluator], on a [LocalMiniPestMA] system

    Each test calls [analyze_plant_problem] on its own descriptions and
    judges the result inside a [try] whose handler records the case as
    failed. *)

Module MiniPestMAEvaluator.

Local Open Scope out_scope.

(** [result.get(stage, {}).get(key, default)] *)
Definition stage_field (result : pyval) (stage key : str) (default : pyval)
  : outcome pyval :=
  entry <- get result stage (PDict []) ;;
  get entry key default.

(** [v.strip()] *)
Definition strip_of (v : pyval) : outcome str :=
  match v with
  | PStr s => Returns (strip s)
  | _ => raise_AttributeError v (s2t "strip")
  end.

(** In [test_json_recovery]:
    [for agent in ["diagnoser", "validator"]: if agent in result:
       if result[agent].get("status") == "json_error_recovered":
         recovery_detected = True; break] *)
Fixpoint recovery_detected_in (agents : list str) (result : pyval)
  : outcome bool :=
  match agents with
  | [] => Returns false
  | agent :: rest =>
      present <- contains agent result ;;
      if present then
        entry <- subscript result agent ;;
        status <- get entry (s2t "status") PNone ;;
        if eq_str status (s2t "json_error_recovered") then Returns true
        else recovery_detected_in rest result
      else recovery_detected_in rest result
  end.

(** [result.get("advisor", {}).get("status") == "success" and
     result.get("advisor", {}).get("response", "").strip() != ""] *)
Definition useful_output (result : pyval) : outcome bool :=
  status <- stage_field result (s2t "advisor") (s2t "status") PNone ;;
  if eq_str status (s2t "success") then
    response <- stage_field result (s2t "advisor") (s2t "response") (PStr []) ;;
    text <- strip_of response ;;
    Returns (match text with [] => false | _ :: _ => true end)
  else Returns false.

(** An entry of [recovery_results]; the one the handler appends has no
    recovery_detected. *)
Record recovery_case : Type := RecoveryCase {
  test_case : nat;
  recovery_detected : option bool;
  system_resilient : bool
}.

(** The body of the [try] of [test_json_recovery] after the call; an
    exception goes to the handler, which appends the entry without
    recovery_detected. *)
Definition judge_recovery (i : nat) (result : pyval) : recovery_case :=
  match (detected <-
           recovery_detected_in [s2t "diagnoser"; s2t "validator"] result ;;
         useful <- useful_output result ;;
         Returns (detected, useful)) with
  | Returns (detected, useful) => RecoveryCase i (Some detected) useful
  | Raises _ => RecoveryCase i None false
  end.

(** In [test_system_robustness]: ["error" not in
     result.get(stage, {}).get("status", "")] *)
Definition no_error_in_status (result : pyval) (stage : str) : outcome bool :=
  status <- stage_field result stage (s2t "status") (PStr []) ;;
  found <- contains (s2t "error") status ;;
  Returns (negb found).

(** An entry of [robustness_results]; the one the handler appends records
    the exception, as [str(e)], and no processing time. *)
Inductive failure : Type :=
| FailedCall (e : exn)
| FailedJudgement (e : raised).

Record robustness_case : Type := RobustnessCase {
  case_type : str;
  handled_gracefully : bool;
  processing_time : option pyfloat;
  error : option failure;
  completed : bool
}.

(** The body of the [try] of [test_system_robustness] after the call. *)
Definition judge_robustness (type : str) (processing_time : pyfloat)
           (result : pyval) : robustness_case :=
  match (diagnoser_ok <- no_error_in_status result (s2t "diagnoser") ;;
         validator_ok <- no_error_in_status result (s2t "validator") ;;
         advisor_ok <- no_error_in_status result (s2t "advisor") ;;
         total_time <-
           stage_field result (s2t "metadata") (s2t "total_time") PNone ;;
         Returns (forallb (fun ok : bool => ok)
                    [diagnoser_ok; validator_ok; advisor_ok],
                  match total_time with PNone => false | _ => true end)) with
  | Returns (graceful, complete) =>
      RobustnessCase type graceful (Some processing_time) None complete
  | Raises e => RobustnessCase type false None (Some (FailedJudgement e)) false
  end.

(** In [evaluate_agent_workflow]:
    [for agent in ["diagnoser", "validator"]:
       if result.get(agent, {}).get("status") == "json_error_recovered":
         evaluation["has_recovery"] = True; break] *)
Fixpoint has_recovery_in (agents : list str) (result : pyval) : outcome bool :=
  match agents with
  | [] => Returns false
  | agent :: rest =>
      status <- stage_field result agent (s2t "status") PNone ;;
      if eq_str status (s2t "json_error_recovered") then Returns true
      else has_recovery_in rest result
  end.

(** An entry of [workflow_results]; the one the handler appends has the
    case, the error and workflow_completed only.  The key agent_outputs,
    which always holds an empty dictionary, is left out. *)
Record workflow_case : Type := WorkflowCase {
  wf_case : str;
  wf_category : str;
  wf_complexity : str;
  wf_processing_time : option pyfloat;
  wf_diagnoser_success : option bool;
  wf_validator_success : option bool;
  wf_advisor_success : option bool;
  wf_workflow_completed : bool;
  wf_has_recovery : option bool;
  wf_error : option failure
}.

(** The body of the [try] of [evaluate_agent_workflow] after the call. *)
Definition judge_workflow (case category complexity : str)
           (processing_time : pyfloat) (result : pyval) : workflow_case :=
  match (diagnoser_status <-
           stage_field result (s2t "diagnoser") (s2t "status") PNone ;;
         validator_status <-
           stage_field result (s2t "validator") (s2t "status") PNone ;;
         advisor_status <-
           stage_field result (s2t "advisor") (s2t "status") PNone ;;
         has_recovery <-
           has_recovery_in [s2t "diagnoser"; s2t "validator"] result ;;
         Returns (eq_str diagnoser_status (s2t "success"),
                  in_strs validator_status
                    [s2t "success"; s2t "json_error_recovered"],
                  eq_str advisor_status (s2t "success"),
                  has_recovery)) with
  | Returns (diagnoser_success, validator_success, advisor_success,
             has_recovery) =>
      WorkflowCase case category complexity (Some processing_time)
        (Some diagnoser_success) (Some validator_success)
        (Some advisor_success)
        (diagnoser_success && validator_success && advisor_success)
        (Some has_recovery) None
  | Raises e =>
      WorkflowCase case category complexity None None None None false None
        (Some (FailedJudgement e))
  end.

(** [assess_agent_independence] compares values of the review with [False]
    and with 0; which floats are zero or negative is left to the
    platform. *)
Section Independence.
Variable float_bool : pyfloat -> bool.
Variable float_negative : pyfloat -> bool.

(** [v == False] *)
Definition eq_False (v : pyval) : bool :=
  match v with
  | PBool b => negb b
  | PInt z => (z =? 0)%Z
  | PFloat f => negb (float_bool f)
  | _ => false
  end.

(** [v < 0] *)
Definition negative (v : pyval) : outcome bool :=
  match v with
  | PBool _ => Returns false
  | PInt z => Returns (z <? 0)%Z
  | PFloat f => Returns (float_negative f)
  | _ =>
      raise_TypeError
        (s2t "'<' not supported between instances of '" ++ type_name v
           ++ s2t "' and 'int'")
  end.

(** The body of the [try] of [assess_agent_independence] after the call:
    the value of validator_skeptical. *)
Definition validator_skeptical (result : pyval) : outcome bool :=
  present <- contains (s2t "validator") result ;;
  reviewed <-
    (if present then
       entry <- subscript result (s2t "validator") ;;
       response_json <- get entry (s2t "response_json") PNone ;;
       Returns (LocalMiniPestMA.truthy float_bool response_json)
     else Returns false) ;;
  if reviewed then
    entry <- subscript result (s2t "validator") ;;
    validator_data <- subscript entry (s2t "response_json") ;;
    valid <- get validator_data (s2t "primary_diagnosis_valid") PNone ;;
    adjustment <-
      get validator_data (s2t "primary_confidence_adjustment") (PInt 0) ;;
    lowered <- negative adjustment ;;
    recommendation <- get validator_data (s2t "final_recommendation") PNone ;;
    Returns (existsb (fun indicator : bool => indicator)
               [ eq_False valid; lowered;
                 in_strs recommendation
                   [ s2t "prefer_alternative"; s2t "insufficient_data";
                     s2t "request_expert" ] ])
  else Returns false.

(** The entry appended for one case: shows_independence, False when the
    handler is entered. *)
Definition shows_independence (result : pyval) : bool :=
  match validator_skeptical result with
  | Returns skeptical => skeptical
  | Raises _ => false
  end.

End Independence.

Local Close Scope out_scope.
Local Open Scope py_scope.

Definition stress_test_inputs : list str :=
  [ s2t "Complex plant disease with multiple symptoms: brown spots, yellowing, wilting";
    s2t "Describe treatment for early blight management" ].

(** The loop of [test_json_recovery]; [i] counts from 1. *)
Fixpoint json_stress_tests (i : nat) (inputs : list str)
  : M (list recovery_case) :=
  match inputs with
  | [] => ret []
  | test_input :: rest =>
      judged <-
        try_except
          (result <- LocalMiniPestMA.analyze_plant_problem test_input None ;;
           ret (judge_recovery i result))
          is_Exception
          (fun _ => ret (RecoveryCase i None false)) ;;
      others <- json_stress_tests (S i) rest ;;
      ret (judged :: others)
  end.

(** What [test_json_recovery] returns. *)
Record recovery_report : Type := RecoveryReport {
  resilience_rate : amount;
  recovery_results : list recovery_case
}.

(** [test_json_recovery(self)]; the division at its end has no handler. *)
Definition test_json_recovery : M (outcome recovery_report) :=
  recovery_results <- json_stress_tests 1 stress_test_inputs ;;
  let resilient_count :=
    length (filter system_resilient recovery_results) in
  ret (and_then
         match recovery_results with
         | [] => Returns (Plain (Int 0))
         | _ :: _ =>
             true_div (Int (Z.of_nat resilient_count)) (length recovery_results)
         end
         (fun resilience_rate =>
            Returns (RecoveryReport resilience_rate recovery_results))).

(** The test cases of [evaluate_agent_workflow]: description, category,
    complexity. *)
Definition workflow_test_cases : list (str * str * str) :=
  [ (s2t "My tomato plants have brown spots with yellow halos",
     s2t "fungal_disease", s2t "medium");
    (s2t "White powdery substance on rose leaves after humid weather",
     s2t "powdery_mildew", s2t "easy");
    (s2t "Cucumber plants wilting, yellow leaves from bottom up, soil moist",
     s2t "root_problem", s2t "medium");
    (s2t "Small holes in lettuce leaves, might be insects",
     s2t "pest_damage", s2t "easy");
    (s2t "My plant looks sick but I'm not sure what's wrong",
     s2t "vague_symptoms", s2t "hard") ].

(** The loop of [evaluate_agent_workflow]. *)
Fixpoint workflow_tests (cases : list (str * str * str))
  : M (list workflow_case) :=
  match cases with
  | [] => ret []
  | (description, category, complexity) :: rest =>
      judged <-
        try_except
          (start_time <- time_time ;;
           result <- LocalMiniPestMA.analyze_plant_problem description None ;;
           now <- time_time ;;
           ret (judge_workflow description category complexity
                  (FloatSub now start_time) result))
          is_Exception
          (fun e =>
             ret (WorkflowCase description category complexity None None None
                    None false None (Some (FailedCall e)))) ;;
      others <- workflow_tests rest ;;
      ret (judged :: others)
  end.

(** What [evaluate_agent_workflow] returns. *)
Record workflow_report : Type := WorkflowReport {
  success_rate : amount;
  recovery_rate : amount;
  workflow_results : list workflow_case
}.

Definition is_true (flag : option bool) : bool :=
  match flag with
  | Some b => b
  | None => false
  end.

(** [evaluate_agent_workflow(self)]; the two divisions at its end have no
    handler. *)
Definition evaluate_agent_workflow : M (outcome workflow_report) :=
  workflow_results <- workflow_tests workflow_test_cases ;;
  let completed_workflows :=
    length (filter wf_workflow_completed workflow_results) in
  let recovery_count :=
    length (filter (fun r => is_true (wf_has_recovery r)) workflow_results) in
  ret (and_then
         (true_div (Int (Z.of_nat completed_workflows))
            (length workflow_results))
         (fun success_rate =>
            and_then
              (true_div (Int (Z.of_nat recovery_count))
                 (length workflow_results))
              (fun recovery_rate =>
                 Returns (WorkflowReport success_rate recovery_rate
                            workflow_results)))).

Definition edge_cases : list (str * str) :=
  [ ([], s2t "empty_input");
    (s2t "Help me with my car engine problem", s2t "wrong_domain");
    (s2t "My plant looks sick but I'm not sure what's wrong", s2t "vague_input") ].

(** The loop of [test_system_robustness]. *)
Fixpoint robustness_tests (cases : list (str * str))
  : M (list robustness_case) :=
  match cases with
  | [] => ret []
  | (description, type) :: rest =>
      judged <-
        try_except
          (start_time <- time_time ;;
           result <- LocalMiniPestMA.analyze_plant_problem description None ;;
           now <- time_time ;;
           ret (judge_robustness type (FloatSub now start_time) result))
          is_Exception
          (fun e =>
             ret (RobustnessCase type false None (Some (FailedCall e)) false)) ;;
      others <- robustness_tests rest ;;
      ret (judged :: others)
  end.

(** What [test_system_robustness] returns. *)
Record robustness_report : Type := RobustnessReport {
  graceful_handling_rate : amount;
  robustness_results : list robustness_case
}.

(** [test_system_robustness(self)] *)
Definition test_system_robustness : M (outcome robustness_report) :=
  robustness_results <- robustness_tests edge_cases ;;
  let graceful_handling :=
    length (filter handled_gracefully robustness_results) in
  ret (and_then
         (true_div (Int (Z.of_nat graceful_handling))
            (length robustness_results))
         (fun rate => Returns (RobustnessReport rate robustness_results))).

Local Close Scope py_scope.

End MiniPestMAEvaluator.

(** * Vocabulary of the properties

    Predicates on texts, patterns, results and worlds in which the
    properties below are stated, and the worlds of the examples.  The
    unqualified names of the cascade and of the orchestrator are those of
    [LocalMiniPestMA]. *)

Import LocalMiniPestMA.

(** The scales the agents' system prompts announce: confidence 1 to 10,
    confidence adjustment -3 to +3. *)
Definition confidence_scale : Z * Z := (1, 10)%Z.

Definition adjustment_scale : Z * Z := ((-3), 3)%Z.

Definition no_brace (s : str) : bool := forallb not_brace s.

(** The character every match of the pattern starts with, where the pattern
    fixes it. *)
Fixpoint first_char (r : regex) : option char :=
  match r with
  | Lit c => Some c
  | Seq r1 _ => first_char r1
  | _ => None
  end.

Definition lacks (c0 : char) (s : str) : bool :=
  forallb (fun c => negb (N.eqb c c0)) s.

Definition backtick : char := 96%N.

(** Both patterns start with an opening brace: no match starts at any other
    character, nor at the end of the text. *)
Definition starts_lbrace (r : regex) : bool :=
  match r with
  | Seq (Lit c) _ => N.eqb c lbrace
  | _ => false
  end.

(** [text[i:i+n]] *)
Definition substring (i n : nat) (text : str) : str := firstn n (skipn i text).

Definition brace_delimited (s : str) : bool :=
  match s, rev s with
  | c :: _, d :: _ => N.eqb c lbrace && N.eqb d rbrace
  | _, _ => false
  end.

Definition parses (s : str) : bool :=
  match json_loads s with Some _ => true | None => false end.

(** Start and length of every substring that is delimited by braces and
    parses. *)
Definition parseable_brace_substrings (text : str) : list (nat * nat) :=
  flat_map
    (fun i =>
       flat_map
         (fun n =>
            let s := substring i (S n) text in
            if brace_delimited s && parses s then [(i, S n)] else [])
         (seq 0 (length text - i)))
    (seq 0 (length text)).

(** A pattern with a capturing group on every path through it. *)
Fixpoint always_captures (r : regex) : bool :=
  match r with
  | Grp _ => true
  | Seq r1 r2 => always_captures r1 || always_captures r2
  | Alt r1 r2 => always_captures r1 && always_captures r2
  | _ => false
  end.

Definition captured (g : option str) : Prop := exists t, g = Some t.

(** What the capture slot can be when the rest of the pattern is entered. *)
Definition capture_after (r : regex) (g g' : option str) : Prop :=
  (captured g -> captured g') /\ (always_captures r = true -> captured g').

(** The message of the [TypeError]. *)
Definition missing_arguments : str :=
  s2t "JSONDecodeError.__init__() missing 2 required positional arguments: 'doc' and 'pos'".

Definition aborted_results (timestamp : pyfloat) (user_description : str) (e : exn)
  : pyval :=
  PDict [ (s2t "metadata",
           PDict [ (s2t "timestamp", PFloat timestamp);
                   (s2t "problem", PStr user_description) ]);
          (s2t "diagnoser",
           PDict [ (s2t "status", PStr (s2t "error"));
                   (s2t "error", PStr (exn_str e)) ]) ].

(** A collaborator for the examples: it answers the n-th request it sees
    with the n-th entry of a script, and fails once the script is used
    up. *)
Definition scripted (script : list (result str))
  : list request -> request -> result str :=
  fun past _ =>
    nth (length past) script
        (Raise (Exn OtherException (s2t "connection refused"))).

Definition fresh_world (collaborator : list request -> request -> result str)
  : world :=
  World collaborator (fun _ => s2t "2025-01-01T00:00:00") [] 0 [] 0.

Definition rust_answer : str := jq "{'primary_diagnosis':'rust','primary_confidence':8}".

Definition validator_down : world :=
  fresh_world (scripted [ Ok rust_answer;
                          Raise (Exn OtherException (s2t "model not found"));
                          Ok (s2t "Monitor the plants.") ]).

Definition diagnoser_down : world :=
  fresh_world (scripted [Raise (Exn OtherException (s2t "connection refused"))]).

Definition stage_names : list str :=
  [s2t "diagnoser"; s2t "validator"; s2t "advisor"].


Definition has_stage (stage : str) (results : pyval) : bool :=
  match path_get [stage] results with Some _ => true | None => false end.


Definition status_is (stage : str) (results : pyval) (status : string) : Prop :=
  path_get [stage; s2t "status"] results = Some (PStr (s2t status)).



(** ** Vocabulary of the further properties *)


Definition total_time_of (results : pyval) : option pyval :=
  path_get [s2t "metadata"; s2t "total_time"] results.

(** [sub] occurs in [text] as a contiguous piece. *)
Definition is_substring (sub text : str) : Prop :=
  exists pre post, text = pre ++ sub ++ post.

Definition is_suffix (s' s : str) : Prop := exists pre, s = pre ++ s'.

(** A collaborator whose outcome depends only on how many requests were
    made before, not on what they or the present one say. *)
Definition blind (collaborator : list request -> request -> result str) : Prop :=
  forall past1 past2 rq1 rq2,
    length past1 = length past2 ->
    collaborator past1 rq1 = collaborator past2 rq2.

(** The fields of a stage entry that do not depend on the clock. *)
Definition stage_fields : list str :=
  [ s2t "status"; s2t "response_json"; s2t "response_text"; s2t "response";
    s2t "error"; s2t "raw_response" ].

Definition review_answer : str :=
  jq "{'primary_diagnosis_valid':true,'final_recommendation':'accept_primary'}".

Definition advice_answer : str := s2t "Monitor the plants.".


Definition validator_rambles : world :=
  fresh_world (scripted [ Ok rust_answer;
                          Ok (s2t "The diagnosis looks plausible.");
                          Ok advice_answer ]).

Definition rust_record : pyval :=
  PDict [ (s2t "primary_diagnosis", PStr (s2t "rust"));
          (s2t "primary_confidence", PInt 8) ].

Definition a_description : str := s2t "orange pustules under the leaves".

Definition run_of (w : world) : result pyval * world :=
  analyze_plant_problem a_description None w.

Definition results_of (w : world) : pyval :=
  match fst (run_of w) with
  | Ok results => results
  | Raise _ => PNone
  end.

(** The capture slot holds nothing, or a piece of the text searched. *)
Definition capture_within (text : str) (g : option str) : Prop :=
  match g with
  | None => True
  | Some t => is_substring t text
  end.

(** Two results agree on what their stages recorded, the clock and the
    model name apart. *)
Definition same_stage_records (r1 r2 : pyval) : Prop :=
  forall stage field,
    In stage stage_names -> In field stage_fields ->
    path_get [stage; field] r1 = path_get [stage; field] r2.

Definition stage_time (stage : str) (results : pyval) : option pyval :=
  path_get [stage; s2t "time"] results.


(** A run that went through the three stages. *)
Definition completed (results : pyval) : Prop :=
  status_is (s2t "diagnoser") results "success"
  /\ (status_is (s2t "validator") results "success"
      \/ status_is (s2t "validator") results "error_recovered")
  /\ (status_is (s2t "advisor") results "success"
      \/ status_is (s2t "advisor") results "error")
  /\ exists t, total_time_of results = Some (PFloat t).

(** What [display_results] has written when it reaches the total time. *)
Definition report_head (stamp problem : str) : list (list piece) :=
  [ [Line; Rule "=" 80];
    [Glyph 128202; Text " MINI-PESTMA COMPREHENSIVE ANALYSIS REPORT"];
    [Rule "=" 80];
    [Glyph 128338; Text " Timestamp: "; Show (PStr stamp)];
    [Glyph 128221; Text " Problem: "; Show (PStr problem)] ].

(** A platform for the examples: every time stamp is rendered as the same
    text, every float counts as non-zero. *)
Definition ctime_sample : pyval -> outcome str :=
  fun _ => Returns (s2t "Thu Jan  1 00:00:00 1970").

Definition float_bool_sample : pyfloat -> bool := fun _ => true.

Definition list_answer : world :=
  fresh_world (scripted [Ok (s2t "[1, 2]"); Ok review_answer; Ok advice_answer]).










Definition number_answer : world :=
  fresh_world (scripted [Ok rust_answer; Ok (s2t "5"); Ok advice_answer]).





(** * Properties *)

(** ** Texts and dictionaries *)

Lemma str_eqb_eq (a b : str) : str_eqb a b = true <-> a = b.
Proof.
  revert b; induction a as [|x a IH]; destruct b as [|y b]; simpl;
    try (split; [discriminate | discriminate]); try tauto.
  rewrite andb_true_iff, N.eqb_eq, IH. split.
  - intros [-> ->]; reflexivity.
  - intros E; inversion E; auto.
Qed.

Lemma str_eqb_refl (a : str) : str_eqb a a = true.
Proof. apply str_eqb_eq; reflexivity. Qed.

Lemma dict_get_set_eq k v d : dict_get k (dict_set k v d) = Some v.
Proof.
  induction d as [|[k' v'] d IH]; simpl.
  - now rewrite str_eqb_refl.
  - destruct (str_eqb k k') eqn:E; simpl; rewrite E; auto.
Qed.

Lemma dict_get_set_ne k k' v d :
  str_eqb k' k = false -> dict_get k' (dict_set k v d) = dict_get k' d.
Proof.
  intros H. induction d as [|[k0 v0] d IH]; simpl.
  - now rewrite H.
  - destruct (str_eqb k k0) eqn:E; simpl.
    + apply str_eqb_eq in E; subst k0. now rewrite H.
    + now rewrite IH.
Qed.

(** ** The fuel of the decoder *)

Lemma skip_ws_length (s : str) : length (skip_ws s) <= length s.
Proof.
  induction s as [|c s IH]; simpl; [lia|].
  destruct (is_json_ws c); simpl; lia.
Qed.

Lemma span_digits_length (s : str) : length (snd (span_digits s)) <= length s.
Proof.
  induction s as [|c s IH]; simpl; [lia|].
  destruct (is_digit c); [|simpl; lia].
  destruct (span_digits s) as [ds r]. simpl in *. lia.
Qed.

Lemma scanstring_length :
  forall (n : nat) (s acc t r : str),
    length s <= n -> scanstring s acc = Some (t, r) -> length r < length s.
Proof.
  induction n as [|n IH]; intros s acc t r Hn H.
  - destruct s; [discriminate H | simpl in Hn; lia].
  - destruct s as [|c s1]; [discriminate H|].
    simpl in H. simpl in Hn.
    repeat match type of H with
           | context [match ?x with _ => _ end] =>
               destruct x eqn:?; try discriminate H
           end;
    try (inversion H; subst; simpl; lia);
    try (apply IH in H; simpl in *; lia).
Qed.

Lemma scan_integer_length (s lx r : str) :
  scan_integer s = Some (lx, r) -> length r <= length s.
Proof.
  unfold scan_integer, scan_sign. intros H.
  assert (G : forall (sign s1 : str),
             length s1 <= length s ->
             match s1 with
             | c :: s2 =>
                 if (c =? 48)%N then Some (sign ++ [c], s2)
                 else if is_digit c then
                   let (ds, s3) := span_digits s2 in Some (sign ++ c :: ds, s3)
                 else None
             | [] => None
             end = Some (lx, r) -> length r <= length s).
  { intros sign s1 L G. destruct s1 as [|c s2]; [discriminate G|]. simpl in L.
    destruct (c =? 48)%N; [inversion G; subst; lia|].
    destruct (is_digit c); [|discriminate G].
    pose proof (span_digits_length s2) as D.
    destruct (span_digits s2) as [ds s3]. simpl in D.
    inversion G; subst. lia. }
  destruct s as [|c s']; [discriminate H|].
  destruct (c =? 45)%N;
    [apply (G [c] s') in H | apply (G [] (c :: s')) in H]; simpl in *; lia.
Qed.

Lemma scan_frac_length (s : str) : length (snd (scan_frac s)) <= length s.
Proof.
  unfold scan_frac. destruct s as [|c s']; [simpl; lia|].
  destruct (c =? 46)%N; [|simpl; lia].
  pose proof (span_digits_length s') as D.
  destruct (span_digits s') as [[|d ds] r]; simpl in *; lia.
Qed.

Lemma scan_exp_length (s : str) : length (snd (scan_exp s)) <= length s.
Proof.
  unfold scan_exp. destruct s as [|e s']; [simpl; lia|].
  destruct ((e =? 101) || (e =? 69))%N; [|simpl; lia].
  destruct s' as [|c s''].
  - simpl. lia.
  - destruct ((c =? 45) || (c =? 43))%N.
    + pose proof (span_digits_length s'') as D.
      destruct (span_digits s'') as [[|d ds] r]; simpl in *; lia.
    + pose proof (span_digits_length (c :: s'')) as D.
      destruct (span_digits (c :: s'')) as [[|d ds] r]; simpl in *; lia.
Qed.

Lemma scan_number_length (s : str) (v : pyval) (r : str) :
  scan_number s = Some (v, r) -> length r <= length s.
Proof.
  unfold scan_number. intros H.
  destruct (scan_integer s) as [[integer s1]|] eqn:E1; [|discriminate H].
  apply scan_integer_length in E1.
  pose proof (scan_frac_length s1) as L2.
  destruct (scan_frac s1) as [frac s2]. simpl in L2.
  pose proof (scan_exp_length s2) as L3.
  destruct (scan_exp s2) as [exp s3]. simpl in L3.
  destruct frac, exp; inversion H; subst; lia.
Qed.

Lemma rest_of_skipn (A : Type) (a v : A) (n : nat) (s r : str) :
  Some (a, skipn n s) = Some (v, r) -> length r <= length s.
Proof.
  intros H. assert (Hr : r = skipn n s) by congruence.
  rewrite Hr, length_skipn. lia.
Qed.

Lemma scan_constant_length (s : str) (v : pyval) (r : str) :
  scan_constant s = Some (v, r) -> length r <= length s.
Proof.
  unfold scan_constant. intros H.
  repeat match type of H with
         | context [if ?x then _ else _] => destruct x; try discriminate H
         end;
  now apply rest_of_skipn in H.
Qed.

(** What [scan_once] and the two loops leave over is no longer than what
    they were given. *)
Lemma scan_once_length (fuel : nat) :
  (forall s v r, scan_once fuel s = Some (v, r) -> length r <= length s)
  /\ (forall s pairs v r,
         object_members fuel s pairs = Some (v, r) -> length r <= length s)
  /\ (forall s values v r,
         array_items fuel s values = Some (v, r) -> length r <= length s).
Proof.
  induction fuel as [|f [IHs [IHo IHa]]].
  - repeat split; intros; discriminate.
  - repeat split.
    + intros s v r H. destruct s as [|c s']; [discriminate H|].
      cbn [scan_once] in H.
      destruct (c =? 34)%N.
      { destruct (scanstring s' []) as [[t r']|] eqn:E; [|discriminate H].
        inversion H; subst. apply scanstring_length with (n := length s') in E;
          simpl; lia. }
      destruct (c =? 123)%N.
      { pose proof (skip_ws_length s') as L.
        destruct (skip_ws s') as [|d r']; [discriminate H|]. simpl in L.
        destruct (d =? 125)%N; [inversion H; subst; simpl; lia|].
        destruct (d =? 34)%N; [|discriminate H].
        apply IHo in H. simpl. lia. }
      destruct (c =? 91)%N.
      { pose proof (skip_ws_length s') as L.
        destruct (skip_ws s') as [|d r']; [discriminate H|]. simpl in L.
        destruct (d =? 93)%N; [inversion H; subst; simpl; lia|].
        apply IHa in H. simpl in *. lia. }
      destruct (starts_with (s2t "null") (c :: s'));
        [now apply rest_of_skipn in H|].
      destruct (starts_with (s2t "true") (c :: s'));
        [now apply rest_of_skipn in H|].
      destruct (starts_with (s2t "false") (c :: s'));
        [now apply rest_of_skipn in H|].
      destruct (scan_number (c :: s')) as [[v' r']|] eqn:E.
      * inversion H; subst. now apply scan_number_length in E.
      * now apply scan_constant_length in H.
    + intros s pairs v r H. cbn [object_members] in H.
      destruct (scanstring s []) as [[key s1]|] eqn:E1; [|discriminate H].
      apply scanstring_length with (n := length s) in E1; [|lia].
      pose proof (skip_ws_length s1) as L1.
      destruct (skip_ws s1) as [|colon s2]; [discriminate H|]. simpl in L1.
      destruct (colon =? 58)%N; [|discriminate H].
      pose proof (skip_ws_length s2) as L2.
      destruct (scan_once f (skip_ws s2)) as [[value s3]|] eqn:E2;
        [|discriminate H].
      apply IHs in E2.
      pose proof (skip_ws_length s3) as L3.
      destruct (skip_ws s3) as [|d s4]; [discriminate H|]. simpl in L3.
      destruct (d =? 125)%N; [inversion H; subst; lia|].
      destruct (d =? 44)%N; [|discriminate H].
      pose proof (skip_ws_length s4) as L4.
      destruct (skip_ws s4) as [|q s5]; [discriminate H|]. simpl in L4.
      destruct (q =? 34)%N; [|discriminate H].
      apply IHo in H. lia.
    + intros s values v r H. cbn [array_items] in H.
      destruct (scan_once f s) as [[value s1]|] eqn:E1; [|discriminate H].
      apply IHs in E1.
      pose proof (skip_ws_length s1) as L1.
      destruct (skip_ws s1) as [|d s2]; [discriminate H|]. simpl in L1.
      destruct (d =? 93)%N; [inversion H; subst; lia|].
      destruct (d =? 44)%N; [|discriminate H].
      pose proof (skip_ws_length s2) as L2.
      apply IHa in H. lia.
Qed.

(** With fuel twice the length of the text, more fuel changes nothing. *)
Lemma scan_fuel_enough (f1 : nat) :
  forall f2, f1 <= f2 ->
    (forall s, 2 * length s <= f1 -> scan_once f1 s = scan_once f2 s)
    /\ (forall s pairs, 2 * length s + 1 <= f1 ->
          object_members f1 s pairs = object_members f2 s pairs)
    /\ (forall s values, 2 * length s + 1 <= f1 ->
          array_items f1 s values = array_items f2 s values).
Proof.
  induction f1 as [|f IH]; intros f2 Hle.
  - repeat split; intros; try lia.
    destruct s as [|c s]; [|simpl in *; lia]. now destruct f2.
  - destruct f2 as [|f2]; [lia|].
    destruct (IH f2) as [IHs [IHo IHa]]; [lia|]. clear IH.
    repeat split.
    + intros s Hs. destruct s as [|c s']; [reflexivity|].
      cbn [scan_once]. simpl in Hs.
      pose proof (skip_ws_length s') as L.
      destruct (c =? 34)%N; [reflexivity|].
      destruct (c =? 123)%N.
      { destruct (skip_ws s') as [|d r]; [reflexivity|]. simpl in L.
        destruct (d =? 125)%N; [reflexivity|].
        destruct (d =? 34)%N; [|reflexivity]. apply IHo. lia. }
      destruct (c =? 91)%N; [|reflexivity].
      destruct (skip_ws s') as [|d r]; [reflexivity|].
      destruct (d =? 93)%N; [reflexivity|]. apply IHa. lia.
    + intros s pairs Hs. cbn [object_members].
      destruct (scanstring s []) as [[key s1]|] eqn:E1; [|reflexivity].
      apply scanstring_length with (n := length s) in E1; [|lia].
      pose proof (skip_ws_length s1) as L1.
      destruct (skip_ws s1) as [|colon s2]; [reflexivity|]. simpl in L1.
      destruct (colon =? 58)%N; [|reflexivity].
      pose proof (skip_ws_length s2) as L2.
      rewrite (IHs (skip_ws s2)) by lia.
      destruct (scan_once f2 (skip_ws s2)) as [[value s3]|] eqn:E2;
        [|reflexivity].
      apply (proj1 (scan_once_length f2)) in E2.
      pose proof (skip_ws_length s3) as L3.
      destruct (skip_ws s3) as [|d s4]; [reflexivity|]. simpl in L3.
      destruct (d =? 125)%N; [reflexivity|].
      destruct (d =? 44)%N; [|reflexivity].
      pose proof (skip_ws_length s4) as L4.
      destruct (skip_ws s4) as [|q s5]; [reflexivity|]. simpl in L4.
      destruct (q =? 34)%N; [|reflexivity]. apply IHo. lia.
    + intros s values Hs. cbn [array_items].
      rewrite (IHs s) by lia.
      destruct (scan_once f2 s) as [[value s1]|] eqn:E1; [|reflexivity].
      apply (proj1 (scan_once_length f2)) in E1.
      pose proof (skip_ws_length s1) as L1.
      destruct (skip_ws s1) as [|d s2]; [reflexivity|]. simpl in L1.
      destruct (d =? 93)%N; [reflexivity|].
      destruct (d =? 44)%N; [|reflexivity].
      pose proof (skip_ws_length s2) as L2. apply IHa. lia.
Qed.

(** [json_loads] is the decoder with any larger amount of fuel: the bound
    it starts with never cuts a parse short. *)
Lemma json_loads_any_fuel (s : str) (fuel : nat) :
  2 * length s + 2 <= fuel ->
  json_loads s
  = match scan_once fuel (skip_ws s) with
    | Some (v, r) => match skip_ws r with [] => Some v | _ :: _ => None end
    | None => None
    end.
Proof.
  intros H. unfold json_loads.
  pose proof (skip_ws_length s) as L.
  destruct (scan_fuel_enough (f1 := 2 * length s + 2) (f2 := fuel) H)
    as [Hs _].
  rewrite (Hs (skip_ws s)) by lia. reflexivity.
Qed.

(** ** The runtime model on sample texts *)

Example json_loads_values :
  json_loads (s2t "null") = Some PNone
  /\ json_loads (s2t " -0 ") = Some (PInt 0)
  /\ json_loads (s2t "1.5e3") = Some (PFloat (FloatLit (s2t "1.5e3")))
  /\ json_loads (s2t "-Infinity") = Some (PFloat (FloatLit (s2t "-Infinity")))
  /\ json_loads (jq "{'a':1,'a':2,'b':3}")
     = Some (PDict [(s2t "a", PInt 2); (s2t "b", PInt 3)])
  /\ json_loads (jq "{'a' : [ ] }") = Some (PDict [(s2t "a", PList [])])
  /\ json_loads (jq "'\u00e9\n\ud83d\ude00'")
     = Some (PStr [233%N; 10%N; 128512%N])
  /\ json_loads (jq "{'a': '}'}") = Some (PDict [(s2t "a", PStr [rbrace])]).
Proof. repeat split; vm_compute; reflexivity. Qed.

Example json_loads_errors :
  map json_loads
      [ s2t "01"; s2t "1."; jq "{'a':1,}"; s2t "[1,]"; s2t "[]x"; s2t "-";
        s2t "tru"; jq "{a: 1}"; jq "'unterminated"; s2t "";
        s2t "I think it's powdery mildew" ]
  = repeat None 11.
Proof. vm_compute. reflexivity. Qed.

Example strip_unicode_space :
  strip [32%N; 160%N; 12288%N; 120%N; 8203%N; 10%N] = [120%N; 8203%N].
Proof. vm_compute. reflexivity. Qed.

Example findall_nested :
  findall json_pattern_1 (jq "Here: {'a': {'b': 2}, 'c': {}} bye {x} {")
  = [jq "{'a': {'b': 2}, 'c': {}}"; s2t "{x}"]
  /\ findall json_pattern_2 (jq "Here: {'a': {'b': 2}, 'c': {}} bye {x} {")
     = [jq "{'a': {'b': 2}, 'c': {}}"; s2t "{x}"]
  /\ findall json_pattern_1 (jq "{'a': {'b': {'c': 1}}}")
     = [jq "{'b': {'c': 1}}"].
Proof. repeat split; vm_compute; reflexivity. Qed.

(** The lazy group of the fence markers stops at the first closing fence;
    the second marker also matches a fence tagged json and then captures
    the tag; the third marker matches from the first to the last brace but
    has no group 1. *)
Example markers_on_fenced_text :
  let text := jq "pre ```json {'a': 1} ``` post ``` x ```" in
  option_map m_capture (search marker_1 text) = Some (Some (jq "{'a': 1}"))
  /\ option_map m_capture (search marker_2 text)
     = Some (Some (jq "json {'a': 1}"))
  /\ option_map m_group0 (search marker_3 (s2t "pre {a} post } x"))
     = Some (s2t "{a} post }")
  /\ option_map (group_1 marker_3) (search marker_3 (s2t "pre {a} post } x"))
     = Some (Raise (Exn IndexError (s2t "no such group"))).
Proof. repeat split; vm_compute; reflexivity. Qed.

Example extraction_of_fenced_record :
  _extract_json_traced (jq "```json 5```")
  = Extraction [DirectParse; PatternScan; MarkerScan]
      [jq "```json 5```"; s2t "5"] (Ok (PInt 5)).
Proof. vm_compute. reflexivity. Qed.

(** ** The fallback records *)

(** C3: the diagnosis fallback has both confidences at the bottom of the
    confidence scale, correlation no_image, evidence quality none and, of
    the three flags, only insufficient_evidence set; the validation fallback
    has validity false, the adjustment at the bottom of its scale, evidence
    assessment weak and recommendation request_expert.  This holds for every
    error detail. *)
Theorem fallback_caution_bias (error_detail : str) :
  let d := _create_fallback_json (s2t "diagnoser") error_detail in
  let v := _create_fallback_json (s2t "validator") error_detail in
  path_get [s2t "primary_confidence"] d = Some (PInt (fst confidence_scale))
  /\ path_get [s2t "alternative_confidence"] d = Some (PInt (fst confidence_scale))
  /\ path_get [s2t "image_text_correlation"] d = Some (PStr (s2t "no_image"))
  /\ path_get [s2t "visual_evidence_quality"] d = Some (PStr (s2t "none"))
  /\ path_get [s2t "error_flags"] d
     = Some (PDict [ (s2t "equally_likely", PBool false);
                     (s2t "contradictory_symptoms", PBool false);
                     (s2t "insufficient_evidence", PBool true) ])
  /\ path_get [s2t "diagnostic_reasoning"] d
     = Some (PStr (s2t "JSON parsing failed: " ++ error_detail))
  /\ path_get [s2t "primary_diagnosis_valid"] v = Some (PBool false)
  /\ path_get [s2t "primary_confidence_adjustment"] v
     = Some (PInt (fst adjustment_scale))
  /\ path_get [s2t "evidence_quality_assessment"] v = Some (PStr (s2t "weak"))
  /\ path_get [s2t "final_recommendation"] v = Some (PStr (s2t "request_expert"))
  /\ path_get [s2t "critical_concerns"] v
     = Some (PStr (s2t "Validation failed due to parsing error: " ++ error_detail)).
Proof.
  cbv zeta. repeat split; reflexivity.
Qed.

(** ** The cascade *)

Lemma extract_direct (text : str) (v : pyval) :
  json_loads (strip text) = Some v ->
  _extract_json_traced text = Extraction [DirectParse] [strip text] (Ok v).
Proof.
  intros H. unfold _extract_json_traced. now rewrite H.
Qed.

(** C4: when the trimmed text is itself a record, [_extract_json] returns
    it; the direct parse is the only step entered and the trimmed text the
    only text handed to [json.loads]: the pattern scan and the fence scan
    are not reached. *)
Theorem direct_parse_priority (text : str) (d : dict) :
  json_loads (strip text) = Some (PDict d) ->
  _extract_json text = Ok (PDict d)
  /\ steps_entered text = [DirectParse]
  /\ json_loads_calls text = [strip text].
Proof.
  intros H. unfold _extract_json, steps_entered, json_loads_calls.
  rewrite (extract_direct _ H). repeat split; reflexivity.
Qed.

Lemma direct_parse_priority_witness :
  _extract_json (jq " {'primary_diagnosis':'leaf spot','primary_confidence':7} ")
  = Ok (PDict [ (s2t "primary_diagnosis", PStr (s2t "leaf spot"));
                (s2t "primary_confidence", PInt 7) ])
  /\ steps_entered (jq " {'primary_diagnosis':'leaf spot','primary_confidence':7} ")
     = [DirectParse]
  /\ json_loads_calls (jq " {'primary_diagnosis':'leaf spot','primary_confidence':7} ")
     = [jq "{'primary_diagnosis':'leaf spot','primary_confidence':7}"].
Proof.
  apply (direct_parse_priority
           (jq " {'primary_diagnosis':'leaf spot','primary_confidence':7} ")
           (d := [ (s2t "primary_diagnosis", PStr (s2t "leaf spot"));
                   (s2t "primary_confidence", PInt 7) ])).
  vm_compute. reflexivity.
Defined.

(** C9: the first step returns whatever [json.loads] gives for the trimmed
    text, also when that is no dictionary; null, 5 and [1, 2] are such
    texts. *)
Theorem direct_parse_returns_non_record :
  (forall (text : str) (v : pyval),
      json_loads (strip text) = Some v -> is_dict v = false ->
      _extract_json text = Ok v)
  /\ _extract_json (s2t "null") = Ok PNone
  /\ _extract_json (s2t "5") = Ok (PInt 5)
  /\ _extract_json (s2t "[1, 2]") = Ok (PList [PInt 1; PInt 2]).
Proof.
  split.
  - intros text v H _. unfold _extract_json. now rewrite (extract_direct _ H).
  - repeat split; vm_compute; reflexivity.
Qed.

Lemma direct_parse_returns_non_record_witness :
  _extract_json (s2t " true ") = Ok (PBool true).
Proof.
  apply (proj1 direct_parse_returns_non_record (s2t " true ") (PBool true)).
  - vm_compute. reflexivity.
  - reflexivity.
Defined.

(** C10: the two classes agree on every text (outcome, steps entered and
    texts tried) and on every fallback request. *)
Theorem cli_and_web_agree :
  (forall text : str,
      LocalMiniPestMA._extract_json text = StreamlitMiniPestMA._extract_json text
      /\ LocalMiniPestMA.steps_entered text
         = StreamlitMiniPestMA.steps_entered text
      /\ LocalMiniPestMA.json_loads_calls text
         = StreamlitMiniPestMA.json_loads_calls text)
  /\ (forall agent_type error_msg : str,
         LocalMiniPestMA._create_fallback_json agent_type error_msg
         = StreamlitMiniPestMA._create_fallback_json agent_type error_msg).
Proof.
  split.
  - intros text. repeat split; reflexivity.
  - intros agent_type error_msg. reflexivity.
Qed.

(** ** The matcher on brace-free text *)

Lemma firstn_app_exact (x y : str) :
  firstn (length (x ++ y) - length y) (x ++ y) = x.
Proof.
  rewrite length_app, Nat.add_sub.
  rewrite firstn_app, Nat.sub_diag, firstn_all. simpl. apply app_nil_r.
Qed.

Section MatcherLemmas.
Variable A : Type.
Implicit Types (k : str -> option str -> option A) (g : option str).


End MatcherLemmas.

Lemma match_here_not_lbrace (r : regex) (c : char) (s : str) :
  starts_lbrace r = true -> N.eqb c lbrace = false ->
  match_here r (c :: s) = None.
Proof.
  destruct r as [| | |r1 r2| | |]; try discriminate.
  destruct r1; try discriminate. simpl. intros Hc Hne.
  apply N.eqb_eq in Hc; subst. unfold match_here. simpl. now rewrite Hne.
Qed.

Lemma match_here_nil (r : regex) :
  starts_lbrace r = true -> match_here r [] = None.
Proof.
  destruct r as [| | |r1 r2| | |]; try discriminate.
  destruct r1; try discriminate. reflexivity.
Qed.

Lemma not_brace_not_lbrace (c : char) :
  not_brace c = true -> N.eqb c lbrace = false.
Proof.
  unfold not_brace. intros H. apply andb_true_iff in H as [H _].
  now apply negb_true_iff in H.
Qed.

Lemma search_skip (r : regex) (pre s : str) :
  starts_lbrace r = true -> no_brace pre = true ->
  search r (pre ++ s) = search r s.
Proof.
  intros Hr. induction pre as [|c pre IH]; intros Hpre; [reflexivity|].
  simpl in Hpre. apply andb_true_iff in Hpre as [Hc Hpre].
  rewrite <- app_comm_cons. simpl search.
  rewrite match_here_not_lbrace by auto using not_brace_not_lbrace.
  now apply IH.
Qed.

Lemma search_no_brace (r : regex) (s : str) :
  starts_lbrace r = true -> no_brace s = true -> search r s = None.
Proof.
  intros Hr Hs. rewrite <- (app_nil_r s), search_skip by assumption.
  simpl. now rewrite match_here_nil.
Qed.

Lemma findall_no_brace (r : regex) (s : str) :
  starts_lbrace r = true -> no_brace s = true -> findall r s = [].
Proof.
  intros Hr Hs. unfold findall. simpl. now rewrite search_no_brace.
Qed.



(** ** [strip] *)




(** ** The order in which candidates are tried *)


Lemma try_matches_none (tried : list str) :
  (forall c, In c tried -> json_loads (strip c) = None) ->
  try_matches tried = (map strip tried, None).
Proof.
  intros Hfail. induction tried as [|c tried IH]; simpl; [reflexivity|].
  rewrite (Hfail c) by (now left).
  rewrite IH by (intros; apply Hfail; now right). reflexivity.
Qed.

Lemma try_matches_tried (matches : list str) :
  forall tried r, try_matches matches = (tried, r) ->
    match r with
    | Some v => exists c, In c tried /\ json_loads c = Some v
    | None => tried = map strip matches
              /\ forall c, In c matches -> json_loads (strip c) = None
    end.
Proof.
  induction matches as [|m matches IH]; simpl; intros tried r E.
  - inversion E; subst. split; [reflexivity | intros c []].
  - destruct (json_loads (strip m)) as [v|] eqn:Em.
    + inversion E; subst. exists (strip m). split; [now left | assumption].
    + destruct (try_matches matches) as [tried' r'] eqn:E'.
      inversion E; subst. specialize (IH _ _ eq_refl).
      destruct r as [v|].
      * destruct IH as [c [Hin Hc]]. exists c. split; [now right | assumption].
      * destruct IH as [-> Hall]. split; [reflexivity|].
        intros c [<-|Hin]; auto.
Qed.

Lemma try_matches_app (l1 l2 : list str) :
  try_matches (l1 ++ l2)
  = match try_matches l1 with
    | (t, Some v) => (t, Some v)
    | (t, None) => let (t', r) := try_matches l2 in (t ++ t', r)
    end.
Proof.
  induction l1 as [|m l1 IH]; simpl.
  - now destruct (try_matches l2).
  - destruct (json_loads (strip m)); [reflexivity|].
    rewrite IH. destruct (try_matches l1) as [t [v|]]; [reflexivity|].
    now destruct (try_matches l2).
Qed.

(** The scan hands the matches of the first pattern to the parser from left
    to right, then those of the second, and stops at the first success. *)
Lemma try_patterns_concat (text : str) :
  try_patterns json_patterns text
  = try_matches (findall json_pattern_1 text ++ findall json_pattern_2 text).
Proof.
  unfold json_patterns. cbn [try_patterns]. rewrite try_matches_app.
  destruct (try_matches (findall json_pattern_1 text)) as [t1 [v|]];
    [reflexivity|].
  destruct (try_matches (findall json_pattern_2 text)) as [t2 [v|]];
    [reflexivity|].
  now rewrite app_nil_r.
Qed.

(** ** Scraping a record out of prose *)




(** A brace inside a string of the record has the same effect: the match
    ends at the brace in the string. *)
Example brace_inside_string :
  parseable_brace_substrings (jq "Here: {'a': '}'} bye") = [(6, 10)]
  /\ findall json_pattern_1 (jq "Here: {'a': '}'} bye") = [jq "{'a': '}"]
  /\ findall json_pattern_2 (jq "Here: {'a': '}'} bye") = [jq "{'a': '}"]
  /\ _extract_json (jq "Here: {'a': '}'} bye")
     = Raise (Exn TypeError missing_arguments).
Proof. repeat split; vm_compute; reflexivity. Qed.

(** ** Capturing groups *)

Section CaptureLemmas.
Variable A : Type.

Lemma star_loop_inv
      (body : str -> option str -> (str -> option str -> option A) -> option A)
      (greedy : bool) (k : str -> option str -> option A) :
  (forall s g K a, body s g K = Some a ->
     exists s' g', K s' g' = Some a /\ (captured g -> captured g')) ->
  forall n s g a,
    star_loop body greedy k n s g = Some a ->
    exists s' g', k s' g' = Some a /\ (captured g -> captured g').
Proof.
  intros Hbody. induction n as [|n IH]; intros s g a H.
  - simpl in H. exists s, g. auto.
  - simpl in H.
    assert (Step :
      body s g (fun s1 g1 =>
                  if length s1 <? length s
                  then star_loop body greedy k n s1 g1 else None) = Some a ->
      exists s' g', k s' g' = Some a /\ (captured g -> captured g')).
    { intros Hb. apply Hbody in Hb as [s1 [g1 [Hk Hg]]].
      destruct (length s1 <? length s); [|discriminate].
      apply IH in Hk as [s' [g' [Hk Hg']]]. exists s', g'. auto. }
    destruct greedy.
    + destruct (body s g _) as [a'|] eqn:Hb.
      * inversion H; subst. now apply Step.
      * exists s, g. auto.
    + destruct (k s g) as [a'|] eqn:Hk.
      * inversion H; subst. exists s, g. auto.
      * now apply Step.
Qed.

Lemma rmatch_inv (r : regex) :
  forall (s : str) (g : option str) (k : str -> option str -> option A) (a : A),
    rmatch r s g k = Some a ->
    exists s' g', k s' g' = Some a /\ capture_after r g g'.
Proof.
  unfold capture_after.
  induction r as [|c|p|r1 IH1 r2 IH2|r1 IH1 r2 IH2|greedy r1 IH1|r1 IH1];
    intros s g k a H; simpl in H.
  - exists s, g. simpl. intuition discriminate.
  - destruct s as [|x s]; [discriminate|].
    destruct (N.eqb x c); [|discriminate].
    exists s, g. simpl. intuition discriminate.
  - destruct s as [|x s]; [discriminate|].
    destruct (p x); [|discriminate].
    exists s, g. simpl. intuition discriminate.
  - apply IH1 in H as [s1 [g1 [H [Hg1 Hc1]]]].
    apply IH2 in H as [s' [g' [H [Hg2 Hc2]]]].
    exists s', g'. simpl. split; [assumption|]. split; [auto|].
    intros Hc. apply orb_true_iff in Hc as [Hc|Hc]; auto.
  - destruct (rmatch r1 s g k) as [a'|] eqn:E1.
    + inversion H; subst. apply IH1 in E1 as [s' [g' [Hk [Hg Hc]]]].
      exists s', g'. simpl. split; [assumption|]. split; [auto|].
      intros Hb. apply andb_true_iff in Hb as [Hb _]. auto.
    + apply IH2 in H as [s' [g' [Hk [Hg Hc]]]].
      exists s', g'. simpl. split; [assumption|]. split; [auto|].
      intros Hb. apply andb_true_iff in Hb as [_ Hb]. auto.
  - apply star_loop_inv in H.
    + destruct H as [s' [g' [Hk Hg]]]. exists s', g'. simpl.
      split; [assumption|]. split; [assumption | discriminate].
    + intros s0 g0 K a0 Hb. apply IH1 in Hb as [s' [g' [HK [Hg _]]]].
      exists s', g'. auto.
  - apply IH1 in H as [s1 [g1 [H _]]].
    eexists _, _. split; [exact H|]. simpl.
    split; intros _; eexists; reflexivity.
Qed.
End CaptureLemmas.

Lemma search_captures (r : regex) (s : str) (m : rmatch_obj) :
  always_captures r = true -> search r s = Some m -> captured (m_capture m).
Proof.
  intros Hr. induction s as [|c s IH]; simpl; intros H.
  - destruct (match_here r []) as [m'|] eqn:E; [|discriminate].
    inversion H; subst. unfold match_here in E.
    apply rmatch_inv in E as [s' [g' [E [_ Hc]]]].
    inversion E; subst. simpl. auto.
  - destruct (match_here r (c :: s)) as [m'|] eqn:E; [|auto].
    inversion H; subst. unfold match_here in E.
    apply rmatch_inv in E as [s' [g' [E [_ Hc]]]].
    inversion E; subst. simpl. auto.
Qed.

(** The fence scan raises nothing: the first two markers always capture,
    the [IndexError] of the third is caught. *)
Lemma try_markers_total (text : str) :
  exists tried r, try_markers markers text = (tried, Ok r).
Proof.
  assert (Last : exists tried r, try_markers [marker_3] text = (tried, Ok r)).
  { cbn [try_markers]. destruct (search marker_3 text); cbn; eauto. }
  assert (Fence : forall r rest,
             always_captures r = true -> ngroups r = 1 ->
             (exists tried v, try_markers rest text = (tried, Ok v)) ->
             exists tried v, try_markers (r :: rest) text = (tried, Ok v)).
  { intros r rest Hc Hn [tried [v Hrest]]. cbn [try_markers].
    destruct (search r text) as [m|] eqn:E; [|eauto].
    unfold group_1. rewrite Hn. cbn [Nat.ltb Nat.leb].
    destruct (search_captures _ _ Hc E) as [t Ht]. rewrite Ht. cbn [strip_opt].
    destruct (json_loads (strip t)); [eauto|]. rewrite Hrest. eauto. }
  unfold markers. apply Fence; [reflexivity | reflexivity |].
  apply Fence; [reflexivity | reflexivity | exact Last].
Qed.

Lemma try_patterns_tried (text : str) :
  forall tried r, try_patterns json_patterns text = (tried, r) ->
    match r with
    | Some v => exists c, In c tried /\ json_loads c = Some v
    | None => True
    end.
Proof.
  intros tried r H. rewrite try_patterns_concat in H.
  apply try_matches_tried in H. destruct r; [assumption | exact I].
Qed.

Lemma try_markers_tried (text : str) (ms : list regex) :
  forall tried v, try_markers ms text = (tried, Ok (Some v)) ->
    exists c, In c tried /\ json_loads c = Some v.
Proof.
  induction ms as [|r ms IH]; cbn [try_markers]; intros tried v H.
  - inversion H.
  - destruct (search r text) as [m|]; [|now apply IH].
    destruct (group_1 r m) as [g|e].
    + destruct (strip_opt g) as [cleaned|e].
      * destruct (json_loads cleaned) as [v'|] eqn:E.
        -- inversion H; subst. exists cleaned. split; [now left | assumption].
        -- destruct (try_markers ms text) as [tried' r'] eqn:E'.
           inversion H; subst.
           destruct (IH _ _ eq_refl) as [c [Hin Hc]].
           exists c. split; [now right | assumption].
      * destruct (exn_cls e); try (now apply IH); inversion H.
    + destruct (exn_cls e); try (now apply IH); inversion H.
Qed.

(** [_extract_json] has two outcomes: a value some candidate parsed to, or
    the [TypeError] of the last line. *)
Lemma extract_outcomes (text : str) :
  (exists v c, _extract_json text = Ok v
               /\ In c (json_loads_calls text) /\ json_loads c = Some v)
  \/ _extract_json text = Raise (Exn TypeError missing_arguments).
Proof.
  unfold _extract_json, json_loads_calls, _extract_json_traced.
  destruct (json_loads (strip text)) as [v|] eqn:E1.
  { left. exists v, (strip text). simpl. auto. }
  destruct (try_patterns json_patterns text) as [tried2 [v|]] eqn:E2.
  { left. destruct (try_patterns_tried _ E2) as [c [Hin Hc]].
    exists v, c. simpl. auto. }
  destruct (try_markers_total text) as [tried3 [r E3]]. rewrite E3.
  destruct r as [v|].
  - left. destruct (try_markers_tried _ _ E3) as [c [Hin Hc]].
    exists v, c. simpl. split; [reflexivity|]. split; [|assumption].
    right. apply in_or_app. now right.
  - right. reflexivity.
Qed.

Lemma rmatch_first_char (A : Type) (r : regex) (c0 : char) :
  first_char r = Some c0 ->
  forall (s : str) (g : option str) (k : str -> option str -> option A),
    match s with [] => True | c :: _ => N.eqb c c0 = false end ->
    rmatch r s g k = None.
Proof.
  induction r as [|c|p|r1 IH1 r2 _| | |]; try discriminate; simpl.
  - intros E s g k Hs. injection E as ->.
    destruct s as [|x s]; [reflexivity|]. now rewrite Hs.
  - intros E s g k Hs. now apply IH1.
Qed.

Lemma search_lacks (r : regex) (c0 : char) (s : str) :
  first_char r = Some c0 -> lacks c0 s = true -> search r s = None.
Proof.
  intros Hr. induction s as [|c s IH]; intros Hs; simpl.
  - unfold match_here. now rewrite (rmatch_first_char _ Hr).
  - simpl in Hs. apply andb_true_iff in Hs as [Hc Hs].
    apply negb_true_iff in Hc.
    unfold match_here. rewrite (rmatch_first_char _ Hr) by exact Hc.
    now apply IH.
Qed.

(** A text without an opening brace and without a backtick that is not JSON
    as a whole: every step is entered, only the trimmed text is handed to
    [json.loads], and the last line raises. *)
Lemma plain_text_falls_through (text : str) :
  lacks lbrace text = true -> lacks backtick text = true ->
  json_loads (strip text) = None ->
  _extract_json_traced text
  = Extraction [DirectParse; PatternScan; MarkerScan; FinalRaise]
      [strip text] (Raise (Exn TypeError missing_arguments)).
Proof.
  intros Hb Hf Hd. unfold _extract_json_traced. rewrite Hd.
  unfold json_patterns, markers. cbn [try_patterns try_markers]. unfold findall.
  cbn [findall_from].
  rewrite (search_lacks json_pattern_1 (c0 := lbrace)) by auto.
  rewrite (search_lacks json_pattern_2 (c0 := lbrace)) by auto.
  rewrite (search_lacks marker_1 (c0 := backtick)) by auto.
  rewrite (search_lacks marker_2 (c0 := backtick)) by auto.
  rewrite (search_lacks marker_3 (c0 := lbrace)) by auto.
  reflexivity.
Qed.

Lemma extract_raises_when_nothing_parses (text : str) :
  (forall c, In c (json_loads_calls text) -> json_loads c = None) ->
  _extract_json text = Raise (Exn TypeError missing_arguments).
Proof.
  intros Hnone. destruct (extract_outcomes text) as [[v [c [_ [Hin Hc]]]]|H].
  - rewrite (Hnone c Hin) in Hc. discriminate.
  - exact H.
Qed.

(** C6, on the code: when no text handed to [json.loads] parses,
    [_extract_json] raises a [TypeError] whose message is the same for every
    text; what is raised is no [JSONDecodeError], and the prefix of the
    text built for the message is lost. *)
Theorem extract_failure_is_TypeError (text : str) :
  (forall c, In c (json_loads_calls text) -> json_loads c = None) ->
  _extract_json text = Raise (Exn TypeError missing_arguments)
  /\ is_JSONDecodeError TypeError = false.
Proof.
  intros Hnone. split; [|reflexivity].
  now apply extract_raises_when_nothing_parses.
Qed.

Lemma extract_failure_is_TypeError_witness :
  _extract_json (s2t "I cannot determine the diagnosis.")
  = Raise (Exn TypeError missing_arguments)
  /\ is_JSONDecodeError TypeError = false.
Proof.
  apply extract_failure_is_TypeError.
  intros c Hin. vm_compute in Hin.
  destruct Hin as [<-|[]]. vm_compute. reflexivity.
Defined.

Lemma extract_never_raises_JSONDecodeError (text : str) (e : exn) :
  _extract_json text = Raise e -> exn_cls e = TypeError.
Proof.
  intros H. destruct (extract_outcomes text) as [[v [c [Hv _]]]|Ht].
  - rewrite Hv in H. discriminate.
  - rewrite Ht in H. inversion H. reflexivity.
Qed.

(** ** Runs of [analyze_plant_problem] *)

Lemma run_aborted (w : world) (user_description : str) (image_path : option str)
      (e : exn) :
  ollama_generate w (calls w) (diag_request user_description image_path)
  = Raise e ->
  analyze_plant_problem user_description image_path w
  = (Ok (aborted_results (FloatNow (S (ticks w))) user_description e),
     World (ollama_generate w) (isoformat w)
           (calls w ++ [diag_request user_description image_path])
           (3 + ticks w) (analysis_history w) (analysis_count w)).
Proof.
  intros H.
  unfold analyze_plant_problem, stage_diagnoser, bind, try_except, generate,
    time_time, ret.
  cbn [calls ticks ollama_generate isoformat analysis_history analysis_count].
  rewrite H. reflexivity.
Qed.

Ltac run_step :=
  cbn [calls ticks ollama_generate isoformat analysis_history analysis_count
       fst snd is_Exception is_JSONDecodeError exn_cls exn_str].

Ltac run_unfold :=
  unfold analyze_plant_problem, stage_diagnoser, stage_validator,
    stage_advisor, history_append, bind, try_except, generate, time_time,
    ret, lift;
  run_step.

(** An extraction that raises ends the run like a collaborator failure:
    the [TypeError] is no [JSONDecodeError], the inner handler lets it pass
    and the outer one returns. *)
Lemma run_aborted_by_extraction (w : world) (user_description : str)
      (image_path : option str) (text : str) (e : exn) :
  ollama_generate w (calls w) (diag_request user_description image_path)
  = Ok text ->
  _extract_json text = Raise e ->
  analyze_plant_problem user_description image_path w
  = (Ok (aborted_results (FloatNow (S (ticks w))) user_description e),
     World (ollama_generate w) (isoformat w)
           (calls w ++ [diag_request user_description image_path])
           (3 + ticks w) (analysis_history w) (analysis_count w)).
Proof.
  intros H1 H2. pose proof (extract_never_raises_JSONDecodeError _ H2) as Hc.
  run_unfold. rewrite H1. run_step. rewrite H2. run_step.
  rewrite Hc. reflexivity.
Qed.

(** C1, on the code.  When the diagnosis model answers with a text none of
    whose candidates parses, the run ends in the diagnosis stage: the status
    is error, the record holds no fallback, nothing is asked of the
    validator or the advisor, and the history is left as it was. *)
Theorem extraction_failure_aborts_run (w : world) (user_description : str)
        (image_path : option str) (text : str) :
  ollama_generate w (calls w) (diag_request user_description image_path)
  = Ok text ->
  (forall c, In c (json_loads_calls text) -> json_loads c = None) ->
  exists results w',
    analyze_plant_problem user_description image_path w = (Ok (PDict results), w')
    /\ dict_get (s2t "diagnoser") results
       = Some (PDict [ (s2t "status", PStr (s2t "error"));
                       (s2t "error", PStr missing_arguments) ])
    /\ dict_get (s2t "validator") results = None
    /\ dict_get (s2t "advisor") results = None
    /\ calls w' = calls w ++ [diag_request user_description image_path]
    /\ analysis_history w' = analysis_history w.
Proof.
  intros H1 Hnone. apply extract_raises_when_nothing_parses in Hnone.
  rewrite (run_aborted_by_extraction _ _ _ H1 Hnone).
  eexists _, _. split; [reflexivity|]. repeat split; reflexivity.
Qed.

Lemma extraction_failure_aborts_run_witness :
  exists results w',
    analyze_plant_problem (s2t "white powdery spots on leaves") None
      (fresh_world (scripted [Ok (s2t "I cannot determine the diagnosis.")]))
    = (Ok (PDict results), w')
    /\ dict_get (s2t "diagnoser") results
       = Some (PDict [ (s2t "status", PStr (s2t "error"));
                       (s2t "error", PStr missing_arguments) ])
    /\ dict_get (s2t "validator") results = None
    /\ dict_get (s2t "advisor") results = None
    /\ calls w'
       = calls (fresh_world (scripted [Ok (s2t "I cannot determine the diagnosis.")]))
         ++ [diag_request (s2t "white powdery spots on leaves") None]
    /\ analysis_history w'
       = analysis_history
           (fresh_world (scripted [Ok (s2t "I cannot determine the diagnosis.")])).
Proof.
  apply (@extraction_failure_aborts_run
           (fresh_world (scripted [Ok (s2t "I cannot determine the diagnosis.")]))
           (s2t "white powdery spots on leaves") None
           (s2t "I cannot determine the diagnosis.")).
  - reflexivity.
  - intros c Hin. vm_compute in Hin.
    destruct Hin as [<-|[]]. vm_compute. reflexivity.
Defined.




(** ** The history *)

(** A run that passes the first stage is appended to the history once,
    whatever happens in the later stages. *)
Lemma completed_run_recorded (w : world) (user_description : str)
      (image_path : option str) (text : str) (diag_json : pyval) :
  ollama_generate w (calls w) (diag_request user_description image_path)
  = Ok text ->
  _extract_json text = Ok diag_json ->
  exists results w',
    analyze_plant_problem user_description image_path w = (Ok results, w')
    /\ analysis_history w' = analysis_history w ++ [results]
    /\ path_get [s2t "diagnoser"; s2t "status"] results
       = Some (PStr (s2t "success")).
Proof.
  intros H1 H2.
  run_unfold. rewrite H1. run_step. rewrite H2. run_step.
  destruct (ollama_generate w
              (calls w ++ [diag_request user_description image_path])
              (valid_request user_description diag_json))
    as [text2|e2]; run_step.
  - destruct (extract_outcomes text2) as [[v2 [c [E2 _]]]|E2];
      rewrite E2; run_step;
      match goal with
      | |- context [ollama_generate w ?past ?rq] =>
          destruct (ollama_generate w past rq); run_step
      end;
      eexists _, _; (split; [reflexivity|]); split; reflexivity.
  - match goal with
    | |- context [ollama_generate w ?past ?rq] =>
        destruct (ollama_generate w past rq); run_step
    end;
    eexists _, _; (split; [reflexivity|]); split; reflexivity.
Qed.

Ltac web_unfold :=
  unfold StreamlitMiniPestMA.on_analyze, StreamlitMiniPestMA.run_analysis,
    StreamlitMiniPestMA.stage_diagnoser, StreamlitMiniPestMA.stage_validator,
    StreamlitMiniPestMA.stage_advisor, StreamlitMiniPestMA.count_analysis,
    history_append, datetime_now_isoformat, bind, try_except, generate,
    time_time, ret, lift;
  run_step.

(** The web form handler appends whatever [run_analysis] returns, also the
    result of a run that ended in the first stage. *)
Lemma web_aborted_run_recorded (w : world) (problem_description : str)
      (image_path : option str) (e : exn) :
  strip problem_description <> [] ->
  ollama_generate w (calls w)
    (StreamlitMiniPestMA.diag_request problem_description image_path)
  = Raise e ->
  exists results w',
    StreamlitMiniPestMA.on_analyze problem_description image_path w
    = (Ok (Some results), w')
    /\ path_get [s2t "diagnoser"; s2t "status"] results
       = Some (PStr (s2t "error"))
    /\ analysis_history w' = analysis_history w ++ [results]
    /\ analysis_count w' = S (analysis_count w).
Proof.
  intros Hdesc H. unfold StreamlitMiniPestMA.on_analyze.
  destruct (strip problem_description) as [|c s]; [congruence|].
  web_unfold. rewrite H. run_step.
  eexists _, _. split; [reflexivity|]. repeat split; reflexivity.
Qed.

(** C8, on the code: a run of [analyze_plant_problem] that ends in the
    first stage returns before the append and leaves the history as it was;
    a run that passes the first stage is appended once. *)
Theorem history_misses_aborted_runs :
  (forall (w : world) (user_description : str) (image_path : option str)
          (e : exn),
      ollama_generate w (calls w) (diag_request user_description image_path)
      = Raise e ->
      exists results w',
        analyze_plant_problem user_description image_path w = (Ok results, w')
        /\ path_get [s2t "diagnoser"; s2t "status"] results
           = Some (PStr (s2t "error"))
        /\ analysis_history w' = analysis_history w)
  /\ (forall (w : world) (user_description : str) (image_path : option str)
             (text : str) (diag_json : pyval),
         ollama_generate w (calls w) (diag_request user_description image_path)
         = Ok text ->
         _extract_json text = Ok diag_json ->
         exists results w',
           analyze_plant_problem user_description image_path w = (Ok results, w')
           /\ analysis_history w' = analysis_history w ++ [results]).
Proof.
  split.
  - intros w user_description image_path e H.
    rewrite (run_aborted _ _ _ H).
    eexists _, _. split; [reflexivity|]. split; reflexivity.
  - intros w user_description image_path text diag_json H1 H2.
    destruct (completed_run_recorded _ _ _ H1 H2) as [results [w' [Hrun [Hh _]]]].
    eauto.
Qed.

Lemma history_misses_aborted_runs_witness :
  exists results w',
    analyze_plant_problem (s2t "white powdery spots on leaves") None diagnoser_down
    = (Ok results, w')
    /\ path_get [s2t "diagnoser"; s2t "status"] results
       = Some (PStr (s2t "error"))
    /\ analysis_history w' = [].
Proof.
  apply (proj1 history_misses_aborted_runs diagnoser_down
           (s2t "white powdery spots on leaves") None
           (Exn OtherException (s2t "connection refused"))).
  reflexivity.
Defined.

(** ** The raw text of a stage result *)



Ltac oracle_case :=
  match goal with
  | |- context [ollama_generate ?w ?past ?rq] =>
      let O := fresh "O" in
      destruct (ollama_generate w past rq) eqn:O; run_step
  end.

Ltac extract_case text :=
  let v := fresh "v" in
  let c := fresh "c" in
  let E := fresh "E" in
  destruct (extract_outcomes text) as [[v [c [E _]]]|E]; rewrite E; run_step.





(** * Further properties *)

(** ** What a run can return *)

Ltac run_leaf := eexists _, _; split; [reflexivity|].






(** ** The third marker *)

Lemma try_markers_without_marker_3 (text : str) (ms : list regex) :
  try_markers (ms ++ [marker_3]) text = try_markers ms text.
Proof.
  induction ms as [|r ms IH].
  - cbn [List.app try_markers]. destruct (search marker_3 text); reflexivity.
  - rewrite <- app_comm_cons. cbn [try_markers]. rewrite IH. reflexivity.
Qed.

(** X4.  The third marker, the one without a capturing group, never
    contributes a candidate: the fence scan tries the texts, and has the
    outcome, of a scan with the two fence markers alone; so on a text
    without a backtick a value can only come from the direct parse or from
    the brace scan. *)
Theorem brace_marker_never_contributes (text : str) :
  try_markers markers text = try_markers [marker_1; marker_2] text
  /\ (lacks backtick text = true ->
      forall v, _extract_json text = Ok v ->
        steps_entered text = [DirectParse]
        \/ steps_entered text = [DirectParse; PatternScan]).
Proof.
  assert (Dead : try_markers markers text = try_markers [marker_1; marker_2] text).
  { exact (try_markers_without_marker_3 text [marker_1; marker_2]). }
  split; [exact Dead|].
  intros Hb v. unfold _extract_json, steps_entered, _extract_json_traced.
  destruct (json_loads (strip text)); [now left|].
  destruct (try_patterns json_patterns text) as [tried2 [v2|]]; [now right|].
  rewrite Dead. cbn [try_markers].
  rewrite (search_lacks marker_1 (c0 := backtick)) by auto.
  rewrite (search_lacks marker_2 (c0 := backtick)) by auto.
  cbn. discriminate.
Qed.

(** ** Where a candidate comes from *)

Lemma is_suffix_refl (s : str) : is_suffix s s.
Proof. now exists []. Qed.

Lemma is_suffix_trans (a b c : str) : is_suffix a b -> is_suffix b c -> is_suffix a c.
Proof.
  intros [p ->] [q ->]. exists (q ++ p). now rewrite app_assoc.
Qed.

Lemma is_suffix_cons (c : char) (s : str) : is_suffix s (c :: s).
Proof. now exists [c]. Qed.

Lemma is_suffix_length (a b : str) : is_suffix a b -> length a <= length b.
Proof. intros [p ->]. rewrite length_app. lia. Qed.

Lemma is_substring_refl (s : str) : is_substring s s.
Proof. exists [], []. now rewrite app_nil_r. Qed.

Lemma is_substring_trans (a b c : str) :
  is_substring a b -> is_substring b c -> is_substring a c.
Proof.
  intros [p [q ->]] [p' [q' ->]]. exists (p' ++ p), (q ++ q').
  now rewrite <- !app_assoc.
Qed.

Lemma suffix_is_substring (a b : str) : is_suffix a b -> is_substring a b.
Proof. intros [p ->]. exists p, []. now rewrite app_nil_r. Qed.

(** The text between two suffixes of the same text. *)
Lemma consumed_is_substring (s s' : str) :
  is_suffix s' s -> is_substring (firstn (length s - length s') s) s.
Proof.
  intros [p ->]. rewrite firstn_app_exact. exists [], s'. reflexivity.
Qed.

Lemma lstrip_suffix (s : str) : is_suffix (lstrip s) s.
Proof.
  induction s as [|c s IH]; simpl.
  - apply is_suffix_refl.
  - destruct (isspace c).
    + eapply is_suffix_trans; [exact IH | apply is_suffix_cons].
    + apply is_suffix_refl.
Qed.

Lemma strip_substring (s : str) : is_substring (strip s) s.
Proof.
  unfold strip, rstrip.
  destruct (lstrip_suffix (rev (lstrip s))) as [p Hp].
  destruct (lstrip_suffix s) as [q Hq].
  exists q, (rev p).
  rewrite <- (rev_involutive (lstrip s)) in Hq. rewrite Hp in Hq.
  rewrite rev_app_distr in Hq. exact Hq.
Qed.

Section SubstringLemmas.
Variable A : Type.
Variable text : str.

Lemma star_loop_within
      (body : str -> option str -> (str -> option str -> option A) -> option A)
      (greedy : bool) (k : str -> option str -> option A) :
  (forall s g K a, is_suffix s text -> capture_within text g ->
     body s g K = Some a ->
     exists s' g', K s' g' = Some a /\ is_suffix s' s /\ capture_within text g') ->
  forall n s g a,
    is_suffix s text -> capture_within text g ->
    star_loop body greedy k n s g = Some a ->
    exists s' g', k s' g' = Some a /\ is_suffix s' s /\ capture_within text g'.
Proof.
  intros Hbody. induction n as [|n IH]; intros s g a Hs Hg H.
  - simpl in H. exists s, g. auto using is_suffix_refl.
  - simpl in H.
    assert (Step :
      body s g (fun s1 g1 =>
                  if length s1 <? length s
                  then star_loop body greedy k n s1 g1 else None) = Some a ->
      exists s' g', k s' g' = Some a /\ is_suffix s' s /\ capture_within text g').
    { intros Hb. apply Hbody in Hb as [s1 [g1 [Hk [Hs1 Hg1]]]]; try assumption.
      destruct (length s1 <? length s); [|discriminate].
      apply IH in Hk as [s' [g' [Hk [Hs' Hg']]]];
        [| eapply is_suffix_trans; eassumption | assumption].
      exists s', g'. split; [assumption|]. split; [|assumption].
      eapply is_suffix_trans; eassumption. }
    destruct greedy.
    + destruct (body s g _) as [a'|] eqn:Hb.
      * inversion H; subst. now apply Step.
      * exists s, g. auto using is_suffix_refl.
    + destruct (k s g) as [a'|] eqn:Hk.
      * inversion H; subst. exists s, g. auto using is_suffix_refl.
      * now apply Step.
Qed.

Lemma rmatch_within (r : regex) :
  forall (s : str) (g : option str) (k : str -> option str -> option A) (a : A),
    is_suffix s text -> capture_within text g ->
    rmatch r s g k = Some a ->
    exists s' g', k s' g' = Some a /\ is_suffix s' s /\ capture_within text g'.
Proof.
  induction r as [|c|p|r1 IH1 r2 IH2|r1 IH1 r2 IH2|greedy r1 IH1|r1 IH1];
    intros s g k a Hs Hg H; simpl in H.
  - exists s, g. auto using is_suffix_refl.
  - destruct s as [|x s]; [discriminate|].
    destruct (N.eqb x c); [|discriminate].
    exists s, g. auto using is_suffix_cons.
  - destruct s as [|x s]; [discriminate|].
    destruct (p x); [|discriminate].
    exists s, g. auto using is_suffix_cons.
  - apply IH1 in H as [s1 [g1 [H [Hs1 Hg1]]]]; try assumption.
    apply IH2 in H as [s' [g' [H [Hs' Hg']]]];
      [| eapply is_suffix_trans; eassumption | assumption].
    exists s', g'. split; [assumption|]. split; [|assumption].
    eapply is_suffix_trans; eassumption.
  - destruct (rmatch r1 s g k) as [a'|] eqn:E1.
    + inversion H; subst. now apply IH1 in E1.
    + now apply IH2 in H.
  - apply star_loop_within in H; [exact H | | assumption | assumption].
    intros s0 g0 K a0 Hs0 Hg0 Hb. now apply IH1 in Hb.
  - apply IH1 in H as [s1 [g1 [H [Hs1 _]]]]; try assumption.
    eexists _, _. split; [exact H|]. split; [assumption|].
    simpl. eapply is_substring_trans.
    + apply consumed_is_substring. exact Hs1.
    + now apply suffix_is_substring.
Qed.
End SubstringLemmas.

Lemma match_here_within (text : str) (r : regex) (s : str) (m : rmatch_obj) :
  is_suffix s text -> match_here r s = Some m ->
  is_substring (m_group0 m) text /\ is_suffix (m_rest m) s
  /\ capture_within text (m_capture m).
Proof.
  intros Hs H. unfold match_here in H.
  apply (rmatch_within (text := text)) in H as [s' [g' [H [Hs' Hg']]]];
    [| assumption | exact I].
  inversion H; subst; simpl. split; [|auto].
  eapply is_substring_trans.
  - apply consumed_is_substring. exact Hs'.
  - now apply suffix_is_substring.
Qed.

Lemma search_within (text : str) (r : regex) (s : str) (m : rmatch_obj) :
  is_suffix s text -> search r s = Some m ->
  is_substring (m_group0 m) text /\ is_suffix (m_rest m) s
  /\ capture_within text (m_capture m).
Proof.
  induction s as [|c s IH]; simpl; intros Hs H.
  - destruct (match_here r []) as [m'|] eqn:E; [|discriminate].
    injection H as <-. exact (match_here_within r Hs E).
  - destruct (match_here r (c :: s)) as [m'|] eqn:E.
    + injection H as <-. exact (match_here_within r Hs E).
    + assert (Hs' : is_suffix s text).
      { eapply is_suffix_trans; [apply is_suffix_cons | exact Hs]. }
      destruct (IH Hs' H) as [H0 [H1 H2]]. split; [assumption|].
      split; [|assumption].
      eapply is_suffix_trans; [exact H1 | apply is_suffix_cons].
Qed.

Lemma findall_from_within (text : str) (r : regex) (fuel : nat) :
  forall s c, is_suffix s text -> In c (findall_from fuel r s) ->
    is_substring c text.
Proof.
  induction fuel as [|fuel IH]; intros s c Hs Hin; simpl in Hin.
  - destruct Hin.
  - destruct (search r s) as [m|] eqn:E; [|destruct Hin].
    destruct (search_within r Hs E) as [H0 [H1 _]].
    destruct Hin as [<-|Hin]; [assumption|].
    assert (Hrest : is_suffix (m_rest m) text).
    { eapply is_suffix_trans; eassumption. }
    destruct (m_group0 m); destruct (m_rest m) as [|x rest'] eqn:Er.
    + destruct Hin.
    + apply (IH rest'); [|assumption].
      eapply is_suffix_trans; [apply is_suffix_cons | exact Hrest].
    + now apply (IH []).
    + now apply (IH (x :: rest')).
Qed.

Lemma try_matches_within (text : str) (matches : list str) :
  (forall m, In m matches -> is_substring m text) ->
  forall c, In c (fst (try_matches matches)) -> is_substring c text.
Proof.
  induction matches as [|m rest IH]; intros Hall c Hin; simpl in Hin.
  - destruct Hin.
  - assert (Hm : is_substring (strip m) text).
    { eapply is_substring_trans; [apply strip_substring|]. apply Hall. now left. }
    destruct (json_loads (strip m)).
    + destruct Hin as [<-|[]]. exact Hm.
    + destruct (try_matches rest) as [tried r] eqn:E. simpl in Hin, IH.
      destruct Hin as [<-|Hin]; [exact Hm|].
      apply IH; [|assumption]. intros m' Hm'. apply Hall. now right.
Qed.

Lemma try_patterns_within (text : str) (patterns : list regex) :
  forall c, In c (fst (try_patterns patterns text)) -> is_substring c text.
Proof.
  induction patterns as [|r rest IH]; intros c Hin; simpl in Hin.
  - destruct Hin.
  - pose proof (@try_matches_within text (findall r text)) as Hm.
    destruct (try_matches (findall r text)) as [tried [v|]]; simpl in Hm.
    + apply Hm; [|assumption]. intros m Hin'.
      eapply findall_from_within; [apply is_suffix_refl | exact Hin'].
    + destruct (try_patterns rest text) as [tried' r'] eqn:E. simpl in Hin, IH.
      apply in_app_or in Hin as [Hin|Hin]; [|now apply IH].
      apply Hm; [|assumption]. intros m Hin'.
      eapply findall_from_within; [apply is_suffix_refl | exact Hin'].
Qed.

Lemma try_markers_within (text : str) (ms : list regex) :
  forall c, In c (fst (try_markers ms text)) -> is_substring c text.
Proof.
  induction ms as [|r ms IH]; intros c Hin; cbn [try_markers] in Hin.
  - destruct Hin.
  - destruct (search r text) as [m|] eqn:E; [|now apply IH].
    destruct (search_within r (is_suffix_refl text) E) as [_ [_ Hg]].
    unfold group_1 in Hin. destruct (ngroups r <? 1).
    + cbn in Hin. now apply IH.
    + destruct (m_capture m) as [t|]; cbn [strip_opt] in Hin.
      * simpl in Hg.
        assert (Ht : is_substring (strip t) text).
        { eapply is_substring_trans; [apply strip_substring | exact Hg]. }
        destruct (json_loads (strip t)).
        -- destruct Hin as [<-|[]]. exact Ht.
        -- destruct (try_markers ms text) as [tried r'] eqn:E'.
           simpl in Hin, IH. destruct Hin as [<-|Hin]; [exact Ht | now apply IH].
      * cbn in Hin. destruct Hin.
Qed.

Lemma candidates_within (text : str) :
  forall c, In c (json_loads_calls text) -> is_substring c text.
Proof.
  intros c. unfold json_loads_calls, _extract_json_traced.
  pose proof (@try_patterns_within text json_patterns) as Hp.
  pose proof (@try_markers_within text markers) as Hm.
  destruct (json_loads (strip text)).
  { simpl. intros [<-|[]]. apply strip_substring. }
  destruct (try_patterns json_patterns text) as [tried2 [v|]]; simpl in Hp.
  { simpl. intros [<-|Hin]; [apply strip_substring | now apply Hp]. }
  destruct (try_markers markers text) as [tried3 [[v|]|e]]; simpl in Hm;
    simpl; (intros [<-|Hin]; [apply strip_substring|]);
    (apply in_app_or in Hin as [Hin|Hin]; [now apply Hp | now apply Hm]).
Qed.

(** X5.  Whatever [_extract_json] returns is what [json.loads] makes of one
    contiguous piece of the text it was given: the cascade selects and
    trims, it never joins pieces or repairs the text. *)
Theorem extracted_value_is_parsed_from_a_piece (text : str) (v : pyval) :
  _extract_json text = Ok v ->
  exists piece, is_substring piece text /\ json_loads piece = Some v.
Proof.
  intros H. destruct (extract_outcomes text) as [[v' [c [Hv [Hin Hc]]]]|Hr].
  - rewrite Hv in H. inversion H; subst. exists c. split; [|assumption].
    now apply candidates_within.
  - rewrite Hr in H. discriminate.
Qed.

Lemma extracted_value_is_parsed_from_a_piece_witness :
  exists piece,
    is_substring piece (jq "Here you are: {'a': 1} Regards")
    /\ json_loads piece = Some (PDict [(s2t "a", PInt 1)]).
Proof.
  apply (@extracted_value_is_parsed_from_a_piece
           (jq "Here you are: {'a': 1} Regards") (PDict [(s2t "a", PInt 1)])).
  vm_compute. reflexivity.
Defined.

(** ** The web class and its session *)

Lemma web_extract_json (text : str) :
  StreamlitMiniPestMA._extract_json text = _extract_json text.
Proof. reflexivity. Qed.

Lemma web_create_fallback_json (agent_type error_msg : str) :
  StreamlitMiniPestMA._create_fallback_json agent_type error_msg
  = _create_fallback_json agent_type error_msg.
Proof. reflexivity. Qed.

Ltac web_extract_case :=
  match goal with
  | |- context [StreamlitMiniPestMA._extract_json ?t] =>
      rewrite (web_extract_json t); extract_case t
  end.

Lemma lstrip_blank (s : str) : forallb isspace s = true -> lstrip s = [].
Proof.
  induction s as [|c s IH]; [reflexivity|]. simpl. intros H.
  apply andb_true_iff in H as [Hc Hs]. rewrite Hc. auto.
Qed.

Lemma lstrip_keeps_last (s : str) (c : char) :
  isspace c = false -> lstrip (s ++ [c]) <> [].
Proof.
  intros Hc. induction s as [|x s IH]; simpl.
  - rewrite Hc. discriminate.
  - destruct (isspace x); [exact IH | discriminate].
Qed.

Lemma strip_blank_iff (s : str) : strip s = [] <-> forallb isspace s = true.
Proof.
  split.
  - unfold strip, rstrip. induction s as [|c s IH]; [reflexivity|]. simpl.
    destruct (isspace c) eqn:Hc; [exact IH|]. intros H. exfalso.
    apply (f_equal (@rev char)) in H. rewrite rev_involutive in H. simpl in H.
    revert H. apply lstrip_keeps_last. exact Hc.
  - intros H. unfold strip, rstrip. now rewrite (lstrip_blank _ H).
Qed.

(** [run_analysis] raises nothing and leaves the session state alone. *)
Lemma web_run_returns (w : world) (problem_description : str)
      (image_path : option str) :
  exists results w',
    StreamlitMiniPestMA.run_analysis problem_description image_path w
    = (Ok results, w')
    /\ analysis_history w' = analysis_history w
    /\ analysis_count w' = analysis_count w
    /\ ollama_generate w' = ollama_generate w.
Proof.
  web_unfold. oracle_case.
  - web_extract_case.
    + oracle_case.
      * web_extract_case; oracle_case; eexists _, _; repeat split; reflexivity.
      * oracle_case; eexists _, _; repeat split; reflexivity.
    + eexists _, _; repeat split; reflexivity.
  - eexists _, _; repeat split; reflexivity.
Qed.

Lemma on_analyze_cases (w : world) (problem_description : str)
      (image_path : option str) :
  (forallb isspace problem_description = true
   /\ StreamlitMiniPestMA.on_analyze problem_description image_path w = (Ok None, w))
  \/ (forallb isspace problem_description = false
      /\ exists results w1 w',
          StreamlitMiniPestMA.run_analysis problem_description image_path w
          = (Ok results, w1)
          /\ StreamlitMiniPestMA.on_analyze problem_description image_path w
             = (Ok (Some results), w')
          /\ analysis_history w' = analysis_history w ++ [results]
          /\ analysis_count w' = S (analysis_count w)
          /\ calls w' = calls w1).
Proof.
  unfold StreamlitMiniPestMA.on_analyze.
  destruct (forallb isspace problem_description) eqn:Hb.
  - left. split; [reflexivity|].
    apply strip_blank_iff in Hb. rewrite Hb. reflexivity.
  - right. split; [reflexivity|].
    destruct (strip problem_description) as [|c s] eqn:Hs.
    { apply strip_blank_iff in Hs. congruence. }
    destruct (web_run_returns w problem_description image_path)
      as [results [w1 [Hrun [Hh [Hc _]]]]].
    unfold bind. rewrite Hrun.
    unfold StreamlitMiniPestMA.count_analysis, history_append, ret. run_step.
    eexists _, _, _. split; [reflexivity|]. split; [reflexivity|].
    rewrite Hh, Hc. repeat split; reflexivity.
Qed.


(** X7.  The counter of the session is the length of its history: the
    "Reset Session" button establishes this, and the form handler keeps
    it, whatever the description and whatever the models do. *)
Theorem session_counter_is_history_length :
  (forall w : world,
      let w' := snd (StreamlitMiniPestMA.reset_session w) in
      analysis_count w' = length (analysis_history w'))
  /\ (forall (w : world) (problem_description : str) (image_path : option str),
         analysis_count w = length (analysis_history w) ->
         let w' := snd (StreamlitMiniPestMA.on_analyze problem_description
                          image_path w) in
         analysis_count w' = length (analysis_history w')).
Proof.
  split.
  - intros w. reflexivity.
  - intros w problem_description image_path Hinv.
    destruct (on_analyze_cases w problem_description image_path)
      as [[_ H]|[_ [results [w1 [w' [_ [H [Hh [Hc _]]]]]]]]]; rewrite H; simpl.
    + exact Hinv.
    + rewrite Hh, Hc, length_app, Hinv. simpl. lia.
Qed.

(** X8.  [run_analysis] raises nothing.  A run that ends in the first
    stage has no total time; in every other run the total time is the sum,
    started from 0, of the stage times that were recorded, and a failed
    advisor stage records none, so the time spent waiting for it is not
    counted. *)
Theorem web_total_time_sums_recorded_stages (w : world)
        (problem_description : str) (image_path : option str) :
  exists results w',
    StreamlitMiniPestMA.run_analysis problem_description image_path w
    = (Ok results, w')
    /\ ((status_is (s2t "diagnoser") results "error"
         /\ has_stage (s2t "validator") results = false
         /\ has_stage (s2t "advisor") results = false
         /\ total_time_of results = None)
        \/ exists td tv,
            stage_time (s2t "diagnoser") results = Some (PFloat td)
            /\ stage_time (s2t "validator") results = Some (PFloat tv)
            /\ ((exists ta,
                    status_is (s2t "advisor") results "success"
                    /\ stage_time (s2t "advisor") results = Some (PFloat ta)
                    /\ total_time_of results
                       = Some (PFloat
                                 (FloatAdd
                                    (FloatAdd (FloatAdd (FloatOfInt 0) td) tv)
                                    ta)))
                \/ (status_is (s2t "advisor") results "error"
                    /\ stage_time (s2t "advisor") results = None
                    /\ total_time_of results
                       = Some (PFloat
                                 (FloatAdd (FloatAdd (FloatOfInt 0) td) tv))))).
Proof.
  web_unfold. oracle_case.
  - web_extract_case.
    + oracle_case.
      * web_extract_case; oracle_case; run_leaf; right; eexists _, _;
          (split; [reflexivity|]); (split; [reflexivity|]);
          first [ left; eexists; repeat split; reflexivity
                | right; repeat split; reflexivity ].
      * oracle_case; run_leaf; right; eexists _, _;
          (split; [reflexivity|]); (split; [reflexivity|]);
          first [ left; eexists; repeat split; reflexivity
                | right; repeat split; reflexivity ].
    + run_leaf. left. repeat split; reflexivity.
  - run_leaf. left. repeat split; reflexivity.
Qed.

Lemma scripted_is_blind (script : list (result str)) : blind (scripted script).
Proof. intros past1 past2 rq1 rq2 H. unfold scripted. now rewrite H. Qed.

Ltac same_records :=
  intros stage field Hs Hf; unfold stage_names, stage_fields in Hs, Hf;
  simpl in Hs, Hf;
  repeat (destruct Hs as [<-|Hs]; [|]); try (destruct Hs);
  repeat (destruct Hf as [<-|Hf]; [|]); try (destruct Hf);
  reflexivity.

(** X9.  The two classes run the same stages: when the answers of the
    models do not depend on how a request is worded, the command-line run
    and the web run of the same description record the same status, the
    same record, the same text and the same error for every stage, and
    have a stage entry in the same cases. *)
Theorem cli_and_web_record_the_same_stages (w : world) (description : str)
        (image_path : option str) :
  blind (ollama_generate w) ->
  exists cli_results web_results,
    fst (analyze_plant_problem description image_path w) = Ok cli_results
    /\ fst (StreamlitMiniPestMA.run_analysis description image_path w)
       = Ok web_results
    /\ same_stage_records cli_results web_results
    /\ (forall stage, In stage stage_names ->
          has_stage stage cli_results = has_stage stage web_results).
Proof.
  intros Hblind.
  assert (Web : forall past past' rq rq' r,
             ollama_generate w past rq = r -> length past' = length past ->
             ollama_generate w past' rq' = r).
  { intros past past' rq rq' r H Hl. rewrite <- H. now apply Hblind. }
  set (web := StreamlitMiniPestMA.run_analysis description image_path w).
  run_unfold. oracle_case.
  - match goal with
    | |- context [_extract_json ?t] => extract_case t
    end.
    + oracle_case.
      * match goal with
        | |- context [_extract_json ?t] => extract_case t
        end; oracle_case; subst web; web_unfold;
        repeat match goal with
               | H : ollama_generate w ?p ?r = ?x
                 |- context [ollama_generate w ?p' ?r'] =>
                   rewrite (@Web p p' r r' x H)
                     by (rewrite ?length_app; reflexivity);
                   run_step; rewrite ?web_extract_json;
                   repeat match goal with
                          | E : _extract_json ?t = _ |- context [_extract_json ?t] =>
                              rewrite E; run_step
                          end
               end;
        eexists _, _; (split; [reflexivity|]); (split; [reflexivity|]);
        (split; [same_records|]);
        intros stage Hs; unfold stage_names in Hs; simpl in Hs;
        repeat (destruct Hs as [<-|Hs]; [reflexivity|]); destruct Hs.
      * oracle_case; subst web; web_unfold;
        repeat match goal with
               | H : ollama_generate w ?p ?r = ?x
                 |- context [ollama_generate w ?p' ?r'] =>
                   rewrite (@Web p p' r r' x H)
                     by (rewrite ?length_app; reflexivity);
                   run_step; rewrite ?web_extract_json;
                   repeat match goal with
                          | E : _extract_json ?t = _ |- context [_extract_json ?t] =>
                              rewrite E; run_step
                          end
               end;
        eexists _, _; (split; [reflexivity|]); (split; [reflexivity|]);
        (split; [same_records|]);
        intros stage Hs; unfold stage_names in Hs; simpl in Hs;
        repeat (destruct Hs as [<-|Hs]; [reflexivity|]); destruct Hs.
    + subst web; web_unfold.
      rewrite (@Web _ (calls w) _
                 (StreamlitMiniPestMA.diag_request description image_path)
                 _ O eq_refl).
      run_step. rewrite web_extract_json, E. run_step.
      eexists _, _; (split; [reflexivity|]); (split; [reflexivity|]);
        (split; [same_records|]);
        intros stage Hs; unfold stage_names in Hs; simpl in Hs;
        repeat (destruct Hs as [<-|Hs]; [reflexivity|]); destruct Hs.
  - subst web; web_unfold.
    rewrite (@Web _ (calls w) _
               (StreamlitMiniPestMA.diag_request description image_path)
               _ O eq_refl).
    run_step.
    eexists _, _; (split; [reflexivity|]); (split; [reflexivity|]);
      (split; [same_records|]);
      intros stage Hs; unfold stage_names in Hs; simpl in Hs;
      repeat (destruct Hs as [<-|Hs]; [reflexivity|]); destruct Hs.
Qed.

Lemma cli_and_web_record_the_same_stages_witness :
  exists cli_results web_results,
    fst (analyze_plant_problem a_description None validator_rambles)
    = Ok cli_results
    /\ fst (StreamlitMiniPestMA.run_analysis a_description None
              validator_rambles) = Ok web_results
    /\ same_stage_records cli_results web_results
    /\ (forall stage, In stage stage_names ->
          has_stage stage cli_results = has_stage stage web_results).
Proof.
  apply (@cli_and_web_record_the_same_stages validator_rambles a_description
           None).
  apply scripted_is_blind.
Defined.

(** ** The performance summary *)

Lemma run_history (w : world) (user_description : str) (image_path : option str) :
  exists results w',
    analyze_plant_problem user_description image_path w = (Ok results, w')
    /\ (analysis_history w' = analysis_history w
        \/ (completed results
            /\ analysis_history w' = analysis_history w ++ [results])).
Proof.
  assert (Done : forall results w',
             completed results ->
             analysis_history w' = analysis_history w ++ [results] ->
             exists results0 w0,
               (Ok results, w') = (Ok results0, w0)
               /\ (analysis_history w0 = analysis_history w
                   \/ (completed results0
                       /\ analysis_history w0 = analysis_history w ++ [results0]))).
  { intros results w' Hc Hh. exists results, w'. auto. }
  run_unfold. oracle_case.
  - match goal with
    | |- context [_extract_json ?t] => extract_case t
    end.
    + oracle_case.
      * match goal with
        | |- context [_extract_json ?t] => extract_case t
        end; oracle_case; (apply Done; [|reflexivity]); unfold completed;
        (split; [reflexivity|]);
        (split; [first [left; reflexivity | right; reflexivity]|]);
        (split; [first [left; reflexivity | right; reflexivity]|]);
        eexists; reflexivity.
      * oracle_case; (apply Done; [|reflexivity]); unfold completed;
        (split; [reflexivity|]);
        (split; [first [left; reflexivity | right; reflexivity]|]);
        (split; [first [left; reflexivity | right; reflexivity]|]);
        eexists; reflexivity.
    + eexists _, _. split; [reflexivity|]. now left.
  - eexists _, _. split; [reflexivity|]. now left.
Qed.





Lemma count_levels_partition (history : list pyval) :
  forall l l' : success_levels,
    count_levels history l = Returns l' ->
    full_success l' + partial_success l' + failed l'
    = full_success l + partial_success l + failed l + length history.
Proof.
  induction history as [|analysis rest IH]; intros l l' H.
  - injection H as <-. simpl. lia.
  - cbn [count_levels] in H.
    destruct (count_successes agent_keys analysis 0) as [n|e]; [|discriminate].
    cbn [and_then] in H. apply IH in H. rewrite H.
    destruct (n =? 3); [simpl; lia|]. destruct (0 <? n); simpl; lia.
Qed.






Lemma too_large_0 : too_large 0 = false.
Proof. vm_compute. reflexivity. Qed.


Lemma true_div_share (count total : nat) :
  count <= total -> total <> 0 ->
  true_div (Int (Z.of_nat count)) total
  = Returns (Ratio (Int (Z.of_nat count)) total).
Proof.
  intros Hle Hnz. unfold true_div.
  destruct total as [|n]; [congruence|].
  assert (K : (1 < 2 ^ 1024 - 2 ^ 970)%Z) by (vm_compute; reflexivity).
  remember (2 ^ 1024 - 2 ^ 970)%Z as big.
  assert (Hlt : (big * Z.of_nat (S n) <=? Z.abs (Z.of_nat count))%Z = false).
  { apply Z.leb_gt. rewrite Z.abs_eq by lia. nia. }
  now rewrite Hlt.
Qed.

Lemma share_returns (count total_analyses : nat) :
  count <= total_analyses -> total_analyses <> 0 ->
  exists pieces, count_and_share count total_analyses = Returns pieces.
Proof.
  intros Hle Hnz. unfold count_and_share.
  rewrite (true_div_share Hle Hnz). cbn [and_then]. eauto.
Qed.

Lemma summary_returns (p : performance) :
  total_analyses p <> 0 ->
  full_success (levels p) + partial_success (levels p) + failed (levels p)
  = total_analyses p ->
  (forall z, avg_time p = Plain (Int z) -> too_large z = false) ->
  exists text, performance_summary p = Returns text.
Proof.
  intros Hnz Hsum Havg. unfold performance_summary.
  destruct (@share_returns (full_success (levels p)) (total_analyses p))
    as [t1 ->]; [lia | assumption |].
  destruct (@share_returns (partial_success (levels p)) (total_analyses p))
    as [t2 ->]; [lia | assumption |].
  destruct (@share_returns (failed (levels p)) (total_analyses p))
    as [t3 ->]; [lia | assumption |].
  cbn [and_then]. unfold as_float.
  destruct (avg_time p) as [[z|f]|n d] eqn:E; cbn [and_then]; eauto.
  rewrite (Havg z eq_refl). cbn [and_then]. eauto.
Qed.

Lemma measured_avg_time (history : list pyval) (p : performance) :
  measure_performance history = Returns p ->
  total_analyses p = length history
  /\ count_levels history (SuccessLevels 0 0 0) = Returns (levels p)
  /\ (avg_time p = Plain (Int 0) \/ exists n d, avg_time p = Ratio n d).
Proof.
  unfold measure_performance. intros H.
  destruct (count_levels history (SuccessLevels 0 0 0)) as [l|e]; [|discriminate].
  cbn [and_then] in H.
  destruct (successful_analyses history) as [[|a successful]|e];
    cbn [and_then] in H; try discriminate.
  - injection H as <-. simpl. auto.
  - destruct (total_times (a :: successful)) as [times|e];
      cbn [and_then] in H; [|discriminate].
    destruct (sum times) as [total|e]; cbn [and_then] in H; [|discriminate].
    destruct (true_div total (length (a :: successful))) as [x|e] eqn:E;
      cbn [and_then] in H; [|discriminate].
    injection H as <-. simpl. split; [reflexivity|]. split; [reflexivity|].
    right. unfold true_div in E. cbn [length] in E.
    destruct total as [z|f].
    + destruct (_ <=? _)%Z in E; [discriminate|]. injection E as <-. eauto.
    + injection E as <-. eauto.
Qed.

(** X10.  On a history that is not empty, [get_performance_summary]
    returns its text whenever the entries could be read and their times
    added and averaged: the formatting raises nothing.  The three success
    levels it reports then count every entry exactly once. *)
Theorem summary_levels_partition_the_history (w : world) (p : performance) :
  analysis_history w <> [] ->
  measure_performance (analysis_history w) = Returns p ->
  full_success (levels p) + partial_success (levels p) + failed (levels p)
  = length (analysis_history w)
  /\ total_analyses p = length (analysis_history w)
  /\ exists text,
      performance_summary p = Returns text
      /\ get_performance_summary w = Returns text.
Proof.
  intros Hne Hp.
  destruct (measured_avg_time _ Hp) as [Ht [Hl Ha]].
  apply count_levels_partition in Hl. simpl in Hl.
  split; [exact Hl|]. split; [exact Ht|].
  destruct (@summary_returns p) as [text Htext].
  - rewrite Ht. destruct (analysis_history w); [congruence | discriminate].
  - rewrite Ht. exact Hl.
  - intros z Hz. destruct Ha as [Ha|[n [d Ha]]]; rewrite Ha in Hz.
    + injection Hz as <-. exact too_large_0.
    + discriminate.
  - exists text. split; [exact Htext|]. unfold get_performance_summary.
    destruct (analysis_history w) as [|a h] eqn:E; [congruence|].
    rewrite Hp. cbn [and_then]. exact Htext.
Qed.




Lemma summary_levels_partition_the_history_witness :
  let w := snd (run_of validator_down) in
  let p := Performance 1 (SuccessLevels 1 0 0)
             (Ratio (Float (FloatAdd (FloatOfInt 0)
                              (FloatSub (FloatNow 8) (FloatNow 0)))) 1) in
  full_success (levels p) + partial_success (levels p) + failed (levels p)
  = length (analysis_history w)
  /\ total_analyses p = length (analysis_history w)
  /\ exists text,
      performance_summary p = Returns text
      /\ get_performance_summary w = Returns text.
Proof.
  apply (@summary_levels_partition_the_history (snd (run_of validator_down))).
  - vm_compute. discriminate.
  - vm_compute. reflexivity.
Defined.

(** ** The report of [display_results] *)

Lemma run_aborted_shape (w : world) (user_description : str)
      (image_path : option str) (results : pyval) (w' : world) :
  analyze_plant_problem user_description image_path w = (Ok results, w') ->
  status_is (s2t "diagnoser") results "error" ->
  exists e, results = aborted_results (FloatNow (S (ticks w))) user_description e.
Proof.
  run_unfold. oracle_case.
  - match goal with
    | |- context [_extract_json ?t] => extract_case t
    end.
    + oracle_case.
      * match goal with
        | |- context [_extract_json ?t] => extract_case t
        end; oracle_case; intros Hrun Hs; injection Hrun as <- _;
        vm_compute in Hs; discriminate Hs.
      * oracle_case; intros Hrun Hs; injection Hrun as <- _;
        vm_compute in Hs; discriminate Hs.
    + intros Hrun _. injection Hrun as <- _.
      exists (Exn TypeError missing_arguments). reflexivity.
  - intros Hrun _. injection Hrun as <- _. eexists. reflexivity.
Qed.

(** X12.  [display_results] cannot show a run that ended in the first
    stage: after the banner, the time stamp and the problem it asks the
    metadata for the total time, which such a result does not have, and
    raises [KeyError]; nothing about the failure has been written by
    then. *)
Theorem display_of_an_aborted_run_raises
        (time_ctime : pyval -> outcome str) (float_bool : pyfloat -> bool)
        (w : world) (user_description : str) (image_path : option str)
        (results : pyval) (w' : world) (stamp : str) :
  analyze_plant_problem user_description image_path w = (Ok results, w') ->
  status_is (s2t "diagnoser") results "error" ->
  time_ctime (PFloat (FloatNow (S (ticks w)))) = Returns stamp ->
  display_results time_ctime float_bool results []
  = (Raises (KeyError (s2t "total_time")), report_head stamp user_description).
Proof.
  intros Hrun Hs Hc.
  destruct (run_aborted_shape _ _ _ Hrun Hs) as [e ->].
  unfold display_results, and_print, eval, print, metadata_field, aborted_results.
  cbn [subscript dict_get str_eqb and_then]. simpl. rewrite Hc. reflexivity.
Qed.

Lemma display_of_an_aborted_run_raises_witness :
  display_results ctime_sample float_bool_sample (results_of diagnoser_down) []
  = (Raises (KeyError (s2t "total_time")),
     report_head (s2t "Thu Jan  1 00:00:00 1970") a_description).
Proof.
  apply (@display_of_an_aborted_run_raises ctime_sample float_bool_sample
           diagnoser_down a_description None (results_of diagnoser_down)
           (snd (run_of diagnoser_down))).
  - vm_compute. reflexivity.
  - vm_compute. reflexivity.
  - reflexivity.
Defined.











(** A diagnosis that is a JSON list: the run completes, the report stops
    at the first field it asks the list for. *)
Example display_of_a_list_diagnosis :
  fst (display_results ctime_sample float_bool_sample (results_of list_answer) [])
  = Raises (Builtin (Exn AttributeError
                       (s2t "'list' object has no attribute 'get'"))).
Proof. vm_compute. reflexivity. Qed.

(** ** The evaluator *)

Lemma run_judged_for_recovery (w : world) (user_description : str)
      (image_path : option str) (i : nat) :
  exists results w' useful,
    analyze_plant_problem user_description image_path w = (Ok results, w')
    /\ MiniPestMAEvaluator.judge_recovery i results
       = MiniPestMAEvaluator.RecoveryCase i (Some false) useful.
Proof.
  run_unfold. oracle_case.
  - match goal with
    | |- context [_extract_json ?t] => extract_case t
    end.
    + oracle_case.
      * match goal with
        | |- context [_extract_json ?t] => extract_case t
        end; oracle_case; eexists _, _, _; (split; [reflexivity|]);
        unfold MiniPestMAEvaluator.judge_recovery; simpl; reflexivity.
      * oracle_case; eexists _, _, _; (split; [reflexivity|]);
        unfold MiniPestMAEvaluator.judge_recovery; simpl; reflexivity.
    + eexists _, _, _; (split; [reflexivity|]);
        unfold MiniPestMAEvaluator.judge_recovery; simpl; reflexivity.
  - eexists _, _, _; (split; [reflexivity|]);
      unfold MiniPestMAEvaluator.judge_recovery; simpl; reflexivity.
Qed.

Lemma json_stress_tests_detect_nothing (inputs : list str) :
  forall (i : nat) (w : world),
  exists cases w',
    MiniPestMAEvaluator.json_stress_tests i inputs w = (Ok cases, w')
    /\ Forall (fun c => MiniPestMAEvaluator.recovery_detected c = Some false) cases
    /\ map MiniPestMAEvaluator.test_case cases = seq i (length inputs).
Proof.
  induction inputs as [|test_input rest IH]; intros i w.
  - exists [], w. repeat split. constructor.
  - destruct (run_judged_for_recovery w test_input None i)
      as [results [w1 [useful [Hrun Hj]]]].
    destruct (IH (S i) w1) as [cases [w' [Hrest [Hall Hseq]]]].
    exists (MiniPestMAEvaluator.RecoveryCase i (Some false) useful :: cases), w'.
    cbn [MiniPestMAEvaluator.json_stress_tests]. unfold bind, try_except, ret.
    rewrite Hrun, Hj, Hrest. split; [reflexivity|].
    split; [constructor; [reflexivity | assumption]|].
    simpl. now rewrite Hseq.
Qed.

(** X14.  [test_json_recovery] never sees a recovery: whatever the models
    answer, the test returns, the handler of its loop is not entered, and
    recovery_detected is False in both entries of its report; the
    resilience rate is the share of the two runs whose advisor answered
    with a text that is not blank. *)
Theorem json_recovery_test_detects_nothing (w : world) :
  exists report w',
    MiniPestMAEvaluator.test_json_recovery w = (Ok (Returns report), w')
    /\ Forall (fun c => MiniPestMAEvaluator.recovery_detected c = Some false)
         (MiniPestMAEvaluator.recovery_results report)
    /\ map MiniPestMAEvaluator.test_case
         (MiniPestMAEvaluator.recovery_results report) = [1; 2]
    /\ MiniPestMAEvaluator.resilience_rate report
       = Ratio (Int (Z.of_nat
                       (length (filter MiniPestMAEvaluator.system_resilient
                                  (MiniPestMAEvaluator.recovery_results report)))))
           2.
Proof.
  destruct (json_stress_tests_detect_nothing
              MiniPestMAEvaluator.stress_test_inputs 1 w)
    as [cases [w' [Hrun [Hall Hseq]]]].
  unfold MiniPestMAEvaluator.test_json_recovery, bind, ret. rewrite Hrun.
  destruct cases as [|c1 [|c2 [|c3 cases]]]; try discriminate Hseq.
  rewrite true_div_share by (try apply filter_length_le; discriminate).
  cbn [and_then]. eexists _, _. split; [reflexivity|].
  cbn [MiniPestMAEvaluator.recovery_results MiniPestMAEvaluator.resilience_rate].
  split; [exact Hall|]. split; [exact Hseq | reflexivity].
Qed.

Ltac judged_leaf :=
  let Hrun := fresh "Hrun" in
  intros Hrun; injection Hrun as <- _;
  unfold MiniPestMAEvaluator.judge_robustness; simpl;
  (split; [reflexivity|]); (split; [reflexivity|]); unfold status_is; simpl;
  split;
  (split;
   [ first [ discriminate | intros _; repeat split; reflexivity ]
   | first [ reflexivity
           | intros H; decompose [and] H; discriminate ] ]).

Lemma robustness_judgement (w : world)
      (user_description : str) (image_path : option str)
      (results : pyval) (w' : world) (type : str) (duration : pyfloat) :
  analyze_plant_problem user_description image_path w = (Ok results, w') ->
  let judged := MiniPestMAEvaluator.judge_robustness type duration results in
  MiniPestMAEvaluator.error judged = None
  /\ MiniPestMAEvaluator.processing_time judged = Some duration
  /\ (MiniPestMAEvaluator.handled_gracefully judged = true
      <-> status_is (s2t "diagnoser") results "success"
          /\ status_is (s2t "validator") results "success"
          /\ status_is (s2t "advisor") results "success")
  /\ (MiniPestMAEvaluator.completed judged = true
      <-> status_is (s2t "diagnoser") results "success").
Proof.
  run_unfold. oracle_case.
  - match goal with
    | |- context [_extract_json ?t] => extract_case t
    end.
    + oracle_case.
      * match goal with
        | |- context [_extract_json ?t] => extract_case t
        end; oracle_case; judged_leaf.
      * oracle_case; judged_leaf.
    + judged_leaf.
  - judged_leaf.
Qed.

(** X15.  What [test_system_robustness] makes of a run: nothing is raised
    while the result is judged; the run counts as handled gracefully
    exactly when all three stages have the status success, so neither a
    run that ended in the first stage nor one that went on with a
    validator fallback or without advice does; and it counts as completed
    exactly when it passed the first stage. *)
Theorem graceful_means_every_stage_succeeded (w : world)
        (user_description : str) (image_path : option str)
        (results : pyval) (w' : world) (type : str) (duration : pyfloat) :
  analyze_plant_problem user_description image_path w = (Ok results, w') ->
  let judged := MiniPestMAEvaluator.judge_robustness type duration results in
  MiniPestMAEvaluator.error judged = None
  /\ (MiniPestMAEvaluator.handled_gracefully judged = true
      <-> status_is (s2t "diagnoser") results "success"
          /\ status_is (s2t "validator") results "success"
          /\ status_is (s2t "advisor") results "success")
  /\ (MiniPestMAEvaluator.completed judged = true
      <-> status_is (s2t "diagnoser") results "success").
Proof.
  intros Hrun judged.
  destruct (@robustness_judgement w user_description image_path results w'
              type duration Hrun) as [He [_ [Hg Hc]]].
  split; [exact He|]. split; [exact Hg | exact Hc].
Qed.

Lemma graceful_means_every_stage_succeeded_witness :
  let judged :=
    MiniPestMAEvaluator.judge_robustness (s2t "vague_input")
      (FloatSub (FloatNow 9) (FloatNow 0)) (results_of validator_down) in
  MiniPestMAEvaluator.error judged = None
  /\ (MiniPestMAEvaluator.handled_gracefully judged = true
      <-> status_is (s2t "diagnoser") (results_of validator_down) "success"
          /\ status_is (s2t "validator") (results_of validator_down) "success"
          /\ status_is (s2t "advisor") (results_of validator_down) "success")
  /\ (MiniPestMAEvaluator.completed judged = true
      <-> status_is (s2t "diagnoser") (results_of validator_down) "success").
Proof.
  apply (@graceful_means_every_stage_succeeded validator_down a_description
           None (results_of validator_down) (snd (run_of validator_down))).
  vm_compute. reflexivity.
Defined.

(** ** The statistics of the web page *)

Lemma in_success_statuses (status : pyval) :
  in_strs status
    [s2t "success"; s2t "json_error_recovered"; s2t "error_recovered"]
  = eq_str status (s2t "success")
    || in_strs status [s2t "json_error_recovered"; s2t "error_recovered"].
Proof. reflexivity. Qed.

Lemma count_recoveries_follows (agents : list str) (analysis : pyval) :
  forall n r,
    match count_successes agents analysis n with
    | Returns m =>
        exists r', StreamlitMiniPestMA.count_recoveries agents analysis n r
                   = Returns (m, r') /\ r <= r'
    | Raises e =>
        StreamlitMiniPestMA.count_recoveries agents analysis n r = Raises e
    end.
Proof.
  induction agents as [|agent rest IH]; intros n r.
  - simpl. eauto.
  - cbn [count_successes StreamlitMiniPestMA.count_recoveries].
    destruct (contains agent analysis) as [[|]|e]; cbn [and_then];
      [| apply IH | reflexivity].
    destruct (subscript analysis agent) as [entry|e]; cbn [and_then];
      [|reflexivity].
    destruct (get entry (s2t "status") (PStr (s2t "error"))) as [status|e];
      cbn [and_then]; [|reflexivity].
    rewrite in_success_statuses.
    destruct (eq_str status (s2t "success")); cbn [orb]; [apply IH|].
    destruct (in_strs status [s2t "json_error_recovered"; s2t "error_recovered"]).
    + specialize (IH (S n) (S r)).
      destruct (count_successes rest analysis (S n)); [|exact IH].
      destruct IH as [r' [H Hle]]. exists r'. split; [exact H | lia].
    + apply IH.
Qed.

Lemma count_resilience_follows (history : list pyval) :
  forall (l0 l : success_levels) (r0 : StreamlitMiniPestMA.recovery_stats),
    count_levels history l0 = Returns l ->
    StreamlitMiniPestMA.Failed r0 = failed l0 ->
    StreamlitMiniPestMA.Full_Success r0 <= full_success l0 ->
    StreamlitMiniPestMA.Full_Success r0 + StreamlitMiniPestMA.Partial_Recovery r0
    = full_success l0 + partial_success l0 ->
    exists r,
      StreamlitMiniPestMA.count_resilience history r0 = Returns r
      /\ StreamlitMiniPestMA.Failed r = failed l
      /\ StreamlitMiniPestMA.Full_Success r <= full_success l
      /\ StreamlitMiniPestMA.Full_Success r + StreamlitMiniPestMA.Partial_Recovery r
         = full_success l + partial_success l.
Proof.
  induction history as [|analysis rest IH]; intros l0 l r0 Hl Hf Hfull Hpart.
  - injection Hl as <-. exists r0. auto.
  - cbn [count_levels StreamlitMiniPestMA.count_resilience] in Hl |- *.
    pose proof (count_recoveries_follows agent_keys analysis 0 0) as Hc.
    destruct (count_successes agent_keys analysis 0) as [n|e]; [|discriminate].
    destruct Hc as [rc [-> _]]. cbn [and_then] in Hl |- *.
    eapply IH; [exact Hl | | |];
      destruct (n =? 3) eqn:E3; destruct (rc =? 0); destruct (0 <? n) eqn:E0;
      cbn [andb full_success partial_success failed
           StreamlitMiniPestMA.Full_Success StreamlitMiniPestMA.Partial_Recovery
           StreamlitMiniPestMA.Failed];
      try lia;
      apply Nat.eqb_eq in E3; apply Nat.ltb_ge in E0; lia.
Qed.

(** X16.  The command-line summary and the web page sort the runs of a
    history alike, except that the page asks more of a full success:
    whenever the loop of [get_performance_summary] gets through a history,
    so does the loop under "Recovery statistics"; both find the same number
    of failed runs and the same number of runs that are not failed; and a
    run the page counts under Full Success the summary counts as a full
    success, but not the other way round, since the page files a run with
    a recovered stage under Partial Recovery. *)
Theorem web_and_cli_success_levels (history : list pyval) (l : success_levels) :
  count_levels history (SuccessLevels 0 0 0) = Returns l ->
  exists r,
    StreamlitMiniPestMA.count_resilience history
      (StreamlitMiniPestMA.RecoveryStats 0 0 0) = Returns r
    /\ StreamlitMiniPestMA.Failed r = failed l
    /\ StreamlitMiniPestMA.Full_Success r <= full_success l
    /\ StreamlitMiniPestMA.Full_Success r + StreamlitMiniPestMA.Partial_Recovery r
       = full_success l + partial_success l.
Proof.
  intros Hl.
  apply (@count_resilience_follows history (SuccessLevels 0 0 0) l
           (StreamlitMiniPestMA.RecoveryStats 0 0 0) Hl); reflexivity.
Qed.

Lemma web_and_cli_success_levels_witness :
  exists r,
    StreamlitMiniPestMA.count_resilience [results_of validator_down]
      (StreamlitMiniPestMA.RecoveryStats 0 0 0) = Returns r
    /\ StreamlitMiniPestMA.Failed r = failed (SuccessLevels 1 0 0)
    /\ StreamlitMiniPestMA.Full_Success r <= full_success (SuccessLevels 1 0 0)
    /\ StreamlitMiniPestMA.Full_Success r + StreamlitMiniPestMA.Partial_Recovery r
       = full_success (SuccessLevels 1 0 0)
         + partial_success (SuccessLevels 1 0 0).
Proof.
  apply (@web_and_cli_success_levels [results_of validator_down]
           (SuccessLevels 1 0 0)).
  vm_compute. reflexivity.
Defined.

Example recovered_run_is_filed_differently :
  count_levels [results_of validator_down] (SuccessLevels 0 0 0)
  = Returns (SuccessLevels 1 0 0)
  /\ StreamlitMiniPestMA.count_resilience [results_of validator_down]
       (StreamlitMiniPestMA.RecoveryStats 0 0 0)
     = Returns (StreamlitMiniPestMA.RecoveryStats 0 1 0).
Proof. split; vm_compute; reflexivity. Qed.








Lemma critical_count_step (a : pyval) (count : nat) :
  (exists e, forall rest,
      StreamlitMiniPestMA.critical_count (a :: rest) count = Raises e)
  \/ (exists count', forall rest,
         StreamlitMiniPestMA.critical_count (a :: rest) count
         = StreamlitMiniPestMA.critical_count rest count').
Proof.
  cbn [StreamlitMiniPestMA.critical_count].
  destruct (contains (s2t "validator") a) as [[|]|e]; cbn [and_then];
    [| right; eexists; reflexivity | left; eexists; reflexivity].
  destruct (subscript a (s2t "validator")) as [entry|e]; cbn [and_then];
    [| left; eexists; reflexivity].
  destruct (get entry (s2t "status") PNone) as [status|e]; cbn [and_then];
    [| left; eexists; reflexivity].
  destruct (in_strs status [s2t "success"; s2t "json_error_recovered"]);
    [| right; eexists; reflexivity].
  destruct (get entry (s2t "response_json") (PDict [])) as [data|e];
    cbn [and_then]; [| left; eexists; reflexivity].
  destruct (get data (s2t "final_recommendation") PNone) as [r|e];
    cbn [and_then]; [right | left]; eexists; reflexivity.
Qed.

Lemma critical_count_poisoned (results : pyval) :
  (forall rest count, exists e,
      StreamlitMiniPestMA.critical_count (results :: rest) count = Raises e) ->
  forall history count,
    In results history ->
    exists e, StreamlitMiniPestMA.critical_count history count = Raises e.
Proof.
  intros Hbad. induction history as [|a rest IH]; intros count Hin.
  - destruct Hin.
  - destruct Hin as [->|Hin]; [apply Hbad|].
    destruct (critical_count_step a count) as [[e H]|[count' H]]; rewrite H.
    + eauto.
    + now apply IH.
Qed.

(** X18.  A review that is valid JSON but no record breaks the history
    page: the run is stored with the validator status success, and from
    then on the loop under "Critical analysis rate" raises on every history
    that holds it, because it calls [.get] on the stored value. *)
Theorem bare_value_review_breaks_the_history_page (w : world)
        (problem_description : str) (image_path : option str)
        (text review : str) (diag_json valid_json : pyval) :
  ollama_generate w (calls w)
    (StreamlitMiniPestMA.diag_request problem_description image_path)
  = Ok text ->
  _extract_json text = Ok diag_json ->
  ollama_generate w
    (calls w ++ [StreamlitMiniPestMA.diag_request problem_description image_path])
    (StreamlitMiniPestMA.valid_request problem_description diag_json)
  = Ok review ->
  _extract_json review = Ok valid_json ->
  is_dict valid_json = false ->
  exists results w',
    StreamlitMiniPestMA.run_analysis problem_description image_path w
    = (Ok results, w')
    /\ status_is (s2t "validator") results "success"
    /\ StreamlitMiniPestMA.critical_count [results] 0
       = Raises (Builtin (Exn AttributeError
                            (s2t "'" ++ type_name valid_json
                               ++ s2t "' object has no attribute 'get'")))
    /\ forall history count,
        In results history ->
        exists e, StreamlitMiniPestMA.critical_count history count = Raises e.
Proof.
  intros H1 H2 H3 H4 Hv.
  web_unfold. rewrite H1. run_step. rewrite web_extract_json, H2. run_step.
  rewrite H3. run_step. rewrite web_extract_json, H4. run_step.
  oracle_case; eexists _, _; (split; [reflexivity|]); (split; [reflexivity|]);
    (split;
     [ destruct valid_json; try discriminate Hv; reflexivity
     | apply critical_count_poisoned; intros rest count;
       destruct valid_json; try discriminate Hv; eexists; reflexivity ]).
Qed.

Lemma bare_value_review_breaks_the_history_page_witness :
  exists results w',
    StreamlitMiniPestMA.run_analysis a_description None number_answer
    = (Ok results, w')
    /\ status_is (s2t "validator") results "success"
    /\ StreamlitMiniPestMA.critical_count [results] 0
       = Raises (Builtin (Exn AttributeError
                            (s2t "'" ++ type_name (PInt 5)
                               ++ s2t "' object has no attribute 'get'")))
    /\ forall history count,
        In results history ->
        exists e, StreamlitMiniPestMA.critical_count history count = Raises e.
Proof.
  apply (@bare_value_review_breaks_the_history_page number_answer a_description
           None rust_answer (s2t "5") rust_record (PInt 5)).
  - reflexivity.
  - vm_compute. reflexivity.
  - reflexivity.
  - vm_compute. reflexivity.
  - reflexivity.
Defined.

(** ** The average time of the side bar *)






Lemma bind_ok (A B : Type) (m : M A) (f : A -> M B) (w w1 : world) (a : A) :
  m w = (Ok a, w1) -> bind m f w = f a w1.
Proof. intros H. unfold bind. now rewrite H. Qed.

Lemma judged_case_type (type : str) (duration : pyfloat) (result : pyval) :
  MiniPestMAEvaluator.case_type
    (MiniPestMAEvaluator.judge_robustness type duration result) = type.
Proof.
  unfold MiniPestMAEvaluator.judge_robustness.
  match goal with
  | |- context [match ?o with Returns _ => _ | Raises _ => _ end] =>
      destruct o as [[graceful complete]|e]; reflexivity
  end.
Qed.

Lemma robustness_tests_return (cases : list (str * str)) :
  forall w : world,
  exists judged w',
    MiniPestMAEvaluator.robustness_tests cases w = (Ok judged, w')
    /\ map MiniPestMAEvaluator.case_type judged = map snd cases
    /\ Forall (fun c => MiniPestMAEvaluator.error c = None
                        /\ exists t, MiniPestMAEvaluator.processing_time c = Some t)
         judged.
Proof.
  induction cases as [|[description type] rest IH]; intros w.
  - exists [], w. repeat split. constructor.
  - cbn [MiniPestMAEvaluator.robustness_tests].
    unfold bind at 1. unfold try_except, bind at 1, time_time at 1. run_step.
    match goal with
    | |- context [bind (analyze_plant_problem description None) ?f ?w0] =>
        destruct (run_history w0 description None) as [results [w1 [Hrun _]]];
        pose proof (@robustness_judgement w0 description None results w1 type)
          as Hj;
        rewrite (@bind_ok _ _ (analyze_plant_problem description None) f
                   w0 w1 results Hrun)
    end.
    unfold bind at 1, time_time at 1, ret at 1. run_step.
    match goal with
    | |- context [MiniPestMAEvaluator.judge_robustness type ?t results] =>
        destruct (Hj t Hrun) as [Herr [Hpt _]]
    end.
    match goal with
    | |- context [bind (MiniPestMAEvaluator.robustness_tests rest) ?f ?w2] =>
        destruct (IH w2) as [judged [w' [Hrest [Hmap Hall]]]];
        rewrite (@bind_ok _ _ (MiniPestMAEvaluator.robustness_tests rest) f
                   w2 w' judged Hrest)
    end.
    unfold ret. eexists _, _. split; [reflexivity|].
    split; [simpl; now rewrite Hmap, judged_case_type|].
    constructor; [|exact Hall]. split; [exact Herr|]. eexists. exact Hpt.
Qed.

(** X20.  [test_system_robustness] returns a report on its three cases,
    the empty description included, whatever the models answer: the
    handler of its loop is never entered, every case has a processing
    time, and the rate is the share of the cases handled gracefully. *)
Theorem robustness_test_never_enters_its_handler (w : world) :
  exists report w',
    MiniPestMAEvaluator.test_system_robustness w = (Ok (Returns report), w')
    /\ map MiniPestMAEvaluator.case_type
         (MiniPestMAEvaluator.robustness_results report)
       = [s2t "empty_input"; s2t "wrong_domain"; s2t "vague_input"]
    /\ Forall (fun c => MiniPestMAEvaluator.error c = None
                        /\ exists t, MiniPestMAEvaluator.processing_time c = Some t)
         (MiniPestMAEvaluator.robustness_results report)
    /\ MiniPestMAEvaluator.graceful_handling_rate report
       = Ratio (Int (Z.of_nat
                       (length (filter MiniPestMAEvaluator.handled_gracefully
                                  (MiniPestMAEvaluator.robustness_results report)))))
           3.
Proof.
  destruct (robustness_tests_return MiniPestMAEvaluator.edge_cases w)
    as [judged [w' [Hrun [Hmap Hall]]]].
  unfold MiniPestMAEvaluator.test_system_robustness, bind, ret. rewrite Hrun.
  assert (Hlen : length judged = 3).
  { rewrite <- (length_map MiniPestMAEvaluator.case_type), Hmap. reflexivity. }
  rewrite true_div_share by first [apply filter_length_le | rewrite Hlen; lia].
  cbn [and_then]. eexists _, _. split; [reflexivity|].
  cbn [MiniPestMAEvaluator.robustness_results
       MiniPestMAEvaluator.graceful_handling_rate].
  split; [exact Hmap|]. split; [exact Hall|]. now rewrite Hlen.
Qed.

Ltac workflow_leaf :=
  let Hrun := fresh "Hrun" in
  intros Hrun; injection Hrun as <- _;
  unfold MiniPestMAEvaluator.judge_workflow; simpl;
  (split; [reflexivity|]); (split; [reflexivity|]); (split; [reflexivity|]);
  unfold status_is; simpl;
  (split;
   [ first [ discriminate | intros _; repeat split; reflexivity ]
   | first [ reflexivity
           | intros H; decompose [and] H; discriminate ] ]).

Lemma workflow_judgement (w : world)
      (user_description : str) (image_path : option str)
      (results : pyval) (w' : world) (case category complexity : str)
      (duration : pyfloat) :
  analyze_plant_problem user_description image_path w = (Ok results, w') ->
  let judged :=
    MiniPestMAEvaluator.judge_workflow case category complexity duration
      results in
  MiniPestMAEvaluator.wf_error judged = None
  /\ MiniPestMAEvaluator.wf_has_recovery judged = Some false
  /\ MiniPestMAEvaluator.wf_case judged = case
  /\ (MiniPestMAEvaluator.wf_workflow_completed judged = true
      <-> status_is (s2t "diagnoser") results "success"
          /\ status_is (s2t "validator") results "success"
          /\ status_is (s2t "advisor") results "success").
Proof.
  run_unfold. oracle_case.
  - match goal with
    | |- context [_extract_json ?t] => extract_case t
    end.
    + oracle_case.
      * match goal with
        | |- context [_extract_json ?t] => extract_case t
        end; oracle_case; workflow_leaf.
      * oracle_case; workflow_leaf.
    + workflow_leaf.
  - workflow_leaf.
Qed.

Lemma workflow_tests_return (cases : list (str * str * str)) :
  forall w : world,
  exists judged w',
    MiniPestMAEvaluator.workflow_tests cases w = (Ok judged, w')
    /\ map MiniPestMAEvaluator.wf_case judged
       = map (fun c => fst (fst c)) cases
    /\ Forall (fun c => MiniPestMAEvaluator.wf_error c = None
                        /\ MiniPestMAEvaluator.wf_has_recovery c = Some false)
         judged.
Proof.
  induction cases as [|[[description category] complexity] rest IH]; intros w.
  - exists [], w. repeat split. constructor.
  - cbn [MiniPestMAEvaluator.workflow_tests].
    unfold bind at 1. unfold try_except, bind at 1, time_time at 1. run_step.
    match goal with
    | |- context [bind (analyze_plant_problem description None) ?f ?w0] =>
        destruct (run_history w0 description None) as [results [w1 [Hrun _]]];
        pose proof (@workflow_judgement w0 description None results w1
                      description category complexity) as Hj;
        rewrite (@bind_ok _ _ (analyze_plant_problem description None) f
                   w0 w1 results Hrun)
    end.
    unfold bind at 1, time_time at 1, ret at 1. run_step.
    match goal with
    | |- context [MiniPestMAEvaluator.judge_workflow _ _ _ ?t results] =>
        destruct (Hj t Hrun) as [Herr [Hrec [Hcase _]]]
    end.
    match goal with
    | |- context [bind (MiniPestMAEvaluator.workflow_tests rest) ?f ?w2] =>
        destruct (IH w2) as [judged [w' [Hrest [Hmap Hall]]]];
        rewrite (@bind_ok _ _ (MiniPestMAEvaluator.workflow_tests rest) f
                   w2 w' judged Hrest)
    end.
    unfold ret. eexists _, _. split; [reflexivity|].
    split; [simpl; now rewrite Hmap, Hcase|].
    constructor; [|exact Hall]. split; [exact Herr | exact Hrec].
Qed.

Lemma no_recovery_counted (judged : list MiniPestMAEvaluator.workflow_case) :
  Forall (fun c => MiniPestMAEvaluator.wf_error c = None
                   /\ MiniPestMAEvaluator.wf_has_recovery c = Some false)
    judged ->
  filter (fun r => MiniPestMAEvaluator.is_true
                     (MiniPestMAEvaluator.wf_has_recovery r)) judged = [].
Proof.
  induction 1 as [|c rest [_ Hc] _ IH]; [reflexivity|].
  simpl. rewrite Hc. exact IH.
Qed.

(** X22.  [evaluate_agent_workflow] always reports a recovery rate of zero:
    whatever the models answer, the method returns a report on its five
    cases, the handler of its loop is never entered, has_recovery is False
    in every entry, so recovery_rate is 0 divided by 5, and success_rate
    is the number of completed workflows divided by 5. *)
Theorem workflow_evaluation_reports_no_recovery (w : world) :
  exists report w',
    MiniPestMAEvaluator.evaluate_agent_workflow w = (Ok (Returns report), w')
    /\ map MiniPestMAEvaluator.wf_case
         (MiniPestMAEvaluator.workflow_results report)
       = map (fun c => fst (fst c)) MiniPestMAEvaluator.workflow_test_cases
    /\ Forall (fun c => MiniPestMAEvaluator.wf_error c = None
                        /\ MiniPestMAEvaluator.wf_has_recovery c = Some false)
         (MiniPestMAEvaluator.workflow_results report)
    /\ MiniPestMAEvaluator.recovery_rate report = Ratio (Int 0) 5
    /\ MiniPestMAEvaluator.success_rate report
       = Ratio (Int (Z.of_nat
                       (length (filter MiniPestMAEvaluator.wf_workflow_completed
                                  (MiniPestMAEvaluator.workflow_results report)))))
           5.
Proof.
  destruct (workflow_tests_return MiniPestMAEvaluator.workflow_test_cases w)
    as [judged [w' [Hrun [Hmap Hall]]]].
  unfold MiniPestMAEvaluator.evaluate_agent_workflow, bind, ret. rewrite Hrun.
  assert (Hlen : length judged = 5).
  { rewrite <- (length_map MiniPestMAEvaluator.wf_case), Hmap. reflexivity. }
  rewrite (no_recovery_counted Hall).
  rewrite true_div_share by first [apply filter_length_le | rewrite Hlen; lia].
  cbn [and_then].
  rewrite true_div_share by (rewrite Hlen; simpl; lia).
  cbn [and_then]. eexists _, _. split; [reflexivity|].
  cbn [MiniPestMAEvaluator.workflow_results MiniPestMAEvaluator.recovery_rate
       MiniPestMAEvaluator.success_rate].
  split; [exact Hmap|]. split; [exact Hall|]. rewrite Hlen. split; reflexivity.
Qed.

(** X19.  A validator that is out of reach passes for a sceptical one: in
    every run that went on with the validator fallback,
    [assess_agent_independence] finds the validator sceptical, because it
    reads the fallback record, which rejects the diagnosis, lowers the
    confidence and asks for an expert. *)
Theorem validator_outage_counts_as_independence
        (float_bool float_negative : pyfloat -> bool)
        (w : world) (user_description : str) (image_path : option str)
        (results : pyval) (w' : world) :
  analyze_plant_problem user_description image_path w = (Ok results, w') ->
  status_is (s2t "validator") results "error_recovered" ->
  MiniPestMAEvaluator.validator_skeptical float_bool float_negative results
  = Returns true
  /\ MiniPestMAEvaluator.shows_independence float_bool float_negative results
     = true.
Proof.
  assert (Both : forall r,
             MiniPestMAEvaluator.validator_skeptical float_bool float_negative r
             = Returns true ->
             MiniPestMAEvaluator.validator_skeptical float_bool float_negative r
             = Returns true
             /\ MiniPestMAEvaluator.shows_independence float_bool float_negative r
                = true).
  { intros r H. split; [exact H|].
    unfold MiniPestMAEvaluator.shows_independence. now rewrite H. }
  run_unfold. oracle_case.
  - match goal with
    | |- context [_extract_json ?t] => extract_case t
    end.
    + oracle_case.
      * match goal with
        | |- context [_extract_json ?t] => extract_case t
        end; oracle_case; intros Hrun Hs; injection Hrun as <- _;
        first [ vm_compute in Hs; discriminate Hs | apply Both; reflexivity ].
      * oracle_case; intros Hrun Hs; injection Hrun as <- _;
        first [ vm_compute in Hs; discriminate Hs | apply Both; reflexivity ].
    + intros Hrun Hs; injection Hrun as <- _. vm_compute in Hs; discriminate Hs.
  - intros Hrun Hs; injection Hrun as <- _. vm_compute in Hs; discriminate Hs.
Qed.

Lemma validator_outage_counts_as_independence_witness :
  MiniPestMAEvaluator.validator_skeptical float_bool_sample float_bool_sample
    (results_of validator_down) = Returns true
  /\ MiniPestMAEvaluator.shows_independence float_bool_sample float_bool_sample
       (results_of validator_down) = true.
Proof.
  apply (@validator_outage_counts_as_independence float_bool_sample
           float_bool_sample validator_down a_description None
           (results_of validator_down) (snd (run_of validator_down))).
  - vm_compute. reflexivity.
  - vm_compute. reflexivity.
Defined.
